(** * vkinfo: capability gatherer and report renderer

    A shallow embedding of [vulkan/tools/vkinfo.cpp].  The program queries
    the Vulkan runtime for instance and device capabilities ([GatherInfo])
    and prints them ([PrintInfo]).

    - 32-bit and 64-bit C integers are [Z]; handles are [Z].
    - [std::vector] is [list]; [resize] and the write through [data()]
      are written out ([resize], [store]).  Allocation is taken to
      succeed: [resize] and the vector constructor do not throw
      [std::length_error] or [std::bad_alloc] here, whatever the count.
    - The runtime is a parameter: a state type with one answer per API
      call.  Every call the program makes is appended to a call log.
    - [die], an uncaught [std::out_of_range] (the only exception of this
      embedding), undefined behaviour and a [do]/[while] loop that is
      still running when the iteration bound is reached are the four
      ways a run does not return ([Outcome]).
    - [printf] appends one chunk to the standard output per call. *)

From Stdlib Require Import ZArith List String Ascii Bool Lia.
From Stdlib Require DecimalString HexadecimalString DecimalN.
Import ListNotations.

Local Open Scope Z_scope.
Local Open Scope list_scope.

(** [length] and [++] are those of lists unless a string scope is open. *)
Local Abbreviation length := Datatypes.length.

(** ** The Vulkan header

    [vulkan/vulkan.h] and [vulkan/vk_ext_debug_report.h] are included by
    the program but are not part of it.  The enumerants, bit masks, array
    bounds and extension names the program uses are the fields of
    [VulkanHeader]; the three [NoDup] fields say that the labels of each
    [switch] are pairwise distinct, which C++ requires of case labels. *)

Class VulkanHeader : Type := {
  VK_SUCCESS : Z;
  VK_NOT_READY : Z;
  VK_TIMEOUT : Z;
  VK_EVENT_SET : Z;
  VK_EVENT_RESET : Z;
  VK_INCOMPLETE : Z;
  VK_ERROR_OUT_OF_HOST_MEMORY : Z;
  VK_ERROR_OUT_OF_DEVICE_MEMORY : Z;
  VK_ERROR_INITIALIZATION_FAILED : Z;
  VK_ERROR_DEVICE_LOST : Z;
  VK_ERROR_MEMORY_MAP_FAILED : Z;
  VK_ERROR_LAYER_NOT_PRESENT : Z;
  VK_ERROR_EXTENSION_NOT_PRESENT : Z;
  VK_ERROR_INCOMPATIBLE_DRIVER : Z;

  VK_PHYSICAL_DEVICE_TYPE_OTHER : Z;
  VK_PHYSICAL_DEVICE_TYPE_INTEGRATED_GPU : Z;
  VK_PHYSICAL_DEVICE_TYPE_DISCRETE_GPU : Z;
  VK_PHYSICAL_DEVICE_TYPE_VIRTUAL_GPU : Z;
  VK_PHYSICAL_DEVICE_TYPE_CPU : Z;

  VK_QUEUE_GRAPHICS_BIT : Z;
  VK_QUEUE_COMPUTE_BIT : Z;
  VK_QUEUE_TRANSFER_BIT : Z;
  VK_QUEUE_SPARSE_BINDING_BIT : Z;

  VK_MEMORY_HEAP_DEVICE_LOCAL_BIT : Z;
  VK_MEMORY_PROPERTY_DEVICE_LOCAL_BIT : Z;
  VK_MEMORY_PROPERTY_HOST_VISIBLE_BIT : Z;
  VK_MEMORY_PROPERTY_HOST_COHERENT_BIT : Z;
  VK_MEMORY_PROPERTY_HOST_CACHED_BIT : Z;
  VK_MEMORY_PROPERTY_LAZILY_ALLOCATED_BIT : Z;

  VK_MAX_MEMORY_TYPES : nat;
  VK_MAX_MEMORY_HEAPS : nat;
  VK_NULL_HANDLE : Z;

  VK_EXT_DEBUG_REPORT_EXTENSION_NAME : string;
  VK_KHR_SWAPCHAIN_EXTENSION_NAME : string;

  VkResult_labels :
    NoDup [VK_SUCCESS; VK_NOT_READY; VK_TIMEOUT; VK_EVENT_SET;
           VK_EVENT_RESET; VK_INCOMPLETE; VK_ERROR_OUT_OF_HOST_MEMORY;
           VK_ERROR_OUT_OF_DEVICE_MEMORY; VK_ERROR_INITIALIZATION_FAILED;
           VK_ERROR_DEVICE_LOST; VK_ERROR_MEMORY_MAP_FAILED;
           VK_ERROR_LAYER_NOT_PRESENT; VK_ERROR_EXTENSION_NOT_PRESENT;
           VK_ERROR_INCOMPATIBLE_DRIVER];
  VkPhysicalDeviceType_labels :
    NoDup [VK_PHYSICAL_DEVICE_TYPE_OTHER;
           VK_PHYSICAL_DEVICE_TYPE_INTEGRATED_GPU;
           VK_PHYSICAL_DEVICE_TYPE_DISCRETE_GPU;
           VK_PHYSICAL_DEVICE_TYPE_VIRTUAL_GPU;
           VK_PHYSICAL_DEVICE_TYPE_CPU];
  VkQueueFlagBits_labels :
    NoDup [VK_QUEUE_GRAPHICS_BIT; VK_QUEUE_COMPUTE_BIT;
           VK_QUEUE_TRANSFER_BIT; VK_QUEUE_SPARSE_BINDING_BIT]
}.

Ltac distinct_labels :=
  repeat (constructor; [simpl; intuition discriminate|]); constructor.

(** The values of the Vulkan 1.0 header, for running the model on
    concrete inputs. *)
#[refine] Instance vulkan_h : VulkanHeader := {|
  VK_SUCCESS := 0;
  VK_NOT_READY := 1;
  VK_TIMEOUT := 2;
  VK_EVENT_SET := 3;
  VK_EVENT_RESET := 4;
  VK_INCOMPLETE := 5;
  VK_ERROR_OUT_OF_HOST_MEMORY := -1;
  VK_ERROR_OUT_OF_DEVICE_MEMORY := -2;
  VK_ERROR_INITIALIZATION_FAILED := -3;
  VK_ERROR_DEVICE_LOST := -4;
  VK_ERROR_MEMORY_MAP_FAILED := -5;
  VK_ERROR_LAYER_NOT_PRESENT := -6;
  VK_ERROR_EXTENSION_NOT_PRESENT := -7;
  VK_ERROR_INCOMPATIBLE_DRIVER := -9;
  VK_PHYSICAL_DEVICE_TYPE_OTHER := 0;
  VK_PHYSICAL_DEVICE_TYPE_INTEGRATED_GPU := 1;
  VK_PHYSICAL_DEVICE_TYPE_DISCRETE_GPU := 2;
  VK_PHYSICAL_DEVICE_TYPE_VIRTUAL_GPU := 3;
  VK_PHYSICAL_DEVICE_TYPE_CPU := 4;
  VK_QUEUE_GRAPHICS_BIT := 1;
  VK_QUEUE_COMPUTE_BIT := 2;
  VK_QUEUE_TRANSFER_BIT := 4;
  VK_QUEUE_SPARSE_BINDING_BIT := 8;
  VK_MEMORY_HEAP_DEVICE_LOCAL_BIT := 1;
  VK_MEMORY_PROPERTY_DEVICE_LOCAL_BIT := 1;
  VK_MEMORY_PROPERTY_HOST_VISIBLE_BIT := 2;
  VK_MEMORY_PROPERTY_HOST_COHERENT_BIT := 4;
  VK_MEMORY_PROPERTY_HOST_CACHED_BIT := 8;
  VK_MEMORY_PROPERTY_LAZILY_ALLOCATED_BIT := 16;
  VK_MAX_MEMORY_TYPES := 32;
  VK_MAX_MEMORY_HEAPS := 16;
  VK_NULL_HANDLE := 0;
  VK_EXT_DEBUG_REPORT_EXTENSION_NAME := "VK_EXT_debug_report";
  VK_KHR_SWAPCHAIN_EXTENSION_NAME := "VK_KHR_swapchain"
|}.
Proof. all: distinct_labels. Defined.

(** ** Vulkan structures (the fields the program reads) *)

Definition VkResult := Z.
Definition VkPhysicalDevice := Z.
Definition VkInstance := Z.
Definition VkDevice := Z.

Record VkExtensionProperties : Type := {
  extensionName : string;
  specVersion : Z
}.

Record VkLayerProperties : Type := {
  layerName : string;
  layer_specVersion : Z;
  implementationVersion : Z;
  description : string
}.

Record VkPhysicalDeviceProperties : Type := {
  apiVersion : Z;
  driverVersion : Z;
  vendorID : Z;
  deviceID : Z;
  deviceType : Z;
  deviceName : string
}.

Record VkMemoryType : Type := {
  propertyFlags : Z;
  heapIndex : Z
}.

Record VkMemoryHeap : Type := {
  size : Z;
  flags : Z
}.

Record VkPhysicalDeviceMemoryProperties : Type := {
  memoryTypeCount : Z;
  memoryTypes : list VkMemoryType;
  memoryHeapCount : Z;
  memoryHeaps : list VkMemoryHeap
}.

Record VkExtent3D : Type := {
  width : Z;
  height : Z;
  depth : Z
}.

Record VkQueueFamilyProperties : Type := {
  queueFlags : Z;
  queueCount : Z;
  timestampValidBits : Z;
  minImageTransferGranularity : VkExtent3D
}.

(** The feature block is only handed back to [vkCreateDevice]. *)
Definition VkPhysicalDeviceFeatures := list Z.

(** ** The snapshot

    [GpuInfo] and [VulkanInfo] both have fields [extensions], [layers]
    and [layer_extensions]; those of [GpuInfo] carry the prefix [gpu_]
    here, and [specVersion] of a layer is [layer_specVersion]. *)

Record GpuInfo : Type := {
  properties : VkPhysicalDeviceProperties;
  memory : VkPhysicalDeviceMemoryProperties;
  features : VkPhysicalDeviceFeatures;
  queue_families : list VkQueueFamilyProperties;
  gpu_extensions : list VkExtensionProperties;
  gpu_layers : list VkLayerProperties;
  gpu_layer_extensions : list (list VkExtensionProperties)
}.

Record VulkanInfo : Type := {
  extensions : list VkExtensionProperties;
  layers : list VkLayerProperties;
  layer_extensions : list (list VkExtensionProperties);
  gpus : list GpuInfo
}.

(** Value-initialised structures, as [std::vector::resize] and the
    definition of [info] in [main] create them. *)
Definition zero_extension : VkExtensionProperties :=
  {| extensionName := ""; specVersion := 0 |}.
Definition zero_layer : VkLayerProperties :=
  {| layerName := ""; layer_specVersion := 0; implementationVersion := 0;
     description := "" |}.
Definition zero_extent : VkExtent3D :=
  {| width := 0; height := 0; depth := 0 |}.
Definition zero_queue_family : VkQueueFamilyProperties :=
  {| queueFlags := 0; queueCount := 0; timestampValidBits := 0;
     minImageTransferGranularity := zero_extent |}.
Definition zero_properties : VkPhysicalDeviceProperties :=
  {| apiVersion := 0; driverVersion := 0; vendorID := 0; deviceID := 0;
     deviceType := 0; deviceName := "" |}.
Definition zero_memory_type : VkMemoryType :=
  {| propertyFlags := 0; heapIndex := 0 |}.
Definition zero_memory_heap : VkMemoryHeap := {| size := 0; flags := 0 |}.

Section Zeroes.
Context {hdr : VulkanHeader}.

Definition zero_memory : VkPhysicalDeviceMemoryProperties :=
  {| memoryTypeCount := 0;
     memoryTypes := repeat zero_memory_type VK_MAX_MEMORY_TYPES;
     memoryHeapCount := 0;
     memoryHeaps := repeat zero_memory_heap VK_MAX_MEMORY_HEAPS |}.

Definition zero_GpuInfo : GpuInfo :=
  {| properties := zero_properties; memory := zero_memory;
     features := []; queue_families := []; gpu_extensions := [];
     gpu_layers := []; gpu_layer_extensions := [] |}.
End Zeroes.

Definition empty_VulkanInfo : VulkanInfo :=
  {| extensions := []; layers := []; layer_extensions := []; gpus := [] |}.

(** ** printf conversions

    The arguments are values of their C type: non-negative for the
    unsigned conversions. *)

Local Open Scope string_scope.

Definition nl : string := String "010" EmptyString.
Definition dquote : string := String "034" EmptyString.
Definition cat (parts : list string) : string := String.concat "" parts.

(** [%u], [%zu] and [PRIu64] *)
Definition fmt_u (n : Z) : string :=
  DecimalString.NilEmpty.string_of_uint (N.to_uint (Z.to_N n)).
(** [%d] *)
Definition fmt_d (n : Z) : string :=
  DecimalString.NilEmpty.string_of_int (Z.to_int n).
(** [%x] and [PRIx64] *)
Definition fmt_x (n : Z) : string :=
  HexadecimalString.NilEmpty.string_of_uint (N.to_hex_uint (Z.to_N n)).
(** [%#x]: no prefix on zero *)
Definition fmt_alt_x (n : Z) : string :=
  if (n =? 0)%Z then "0" else "0x" ++ fmt_x n.
(** [%04x] *)
Definition fmt_04x (n : Z) : string :=
  let digits := fmt_x n in
  cat (repeat "0" (4 - String.length digits)%nat) ++ digits.

Local Close Scope string_scope.

(** A [switch] with a [default] label, and one without: control then
    reaches the end of the function and there is no value. *)
Fixpoint switch {A : Type} (x : Z) (cases : list (Z * A)) (default : A) : A :=
  match cases with
  | [] => default
  | (label, a) :: rest => if x =? label then a else switch x rest default
  end.

Fixpoint switch_no_default {A : Type} (x : Z) (cases : list (Z * A))
  : option A :=
  match cases with
  | [] => None
  | (label, a) :: rest =>
      if x =? label then Some a else switch_no_default x rest
  end.

(** ** std::vector *)

(** [v.resize(n)] with [d] the value-initialised (or given) element;
    the allocation succeeds. *)
Definition resize {A : Type} (n : Z) (d : A) (v : list A) : list A :=
  firstn (Z.to_nat n) v ++ repeat d (Z.to_nat n - length v).

(** The runtime writes [written] through [v.data()]: the elements past
    the end of [v] are not part of the vector. *)
Definition store {A : Type} (written v : list A) : list A :=
  firstn (length v) written ++ skipn (length written) v.

(** [v[i] = x] for [i] in range. *)
Definition assign {A : Type} (i : nat) (x : A) (v : list A) : list A :=
  firstn i v ++ x :: skipn (S i) v.

(** ** The runtime *)

(** A call of the API with the arguments the program chooses.  A
    [capacity] of [None] is the literal [nullptr] of a count query;
    [Some n] is the [data()] of a vector of [n] elements with
    [*pCount = n] (for [n = 0] the runtime may be handed a null
    [data()]; what it answers then is the runtime's).  A layer name of
    [None] is [nullptr]. *)
Inductive ApiCall : Type :=
| vkEnumerateInstanceExtensionProperties
    (layer_name : option string) (capacity : option Z)
| vkEnumerateDeviceExtensionProperties
    (gpu : VkPhysicalDevice) (layer_name : option string)
    (capacity : option Z)
| vkEnumerateInstanceLayerProperties (capacity : option Z)
| vkEnumerateDeviceLayerProperties
    (gpu : VkPhysicalDevice) (capacity : option Z)
| vkEnumeratePhysicalDevices (instance : VkInstance) (capacity : option Z)
| vkGetPhysicalDeviceProperties (gpu : VkPhysicalDevice)
| vkGetPhysicalDeviceMemoryProperties (gpu : VkPhysicalDevice)
| vkGetPhysicalDeviceFeatures (gpu : VkPhysicalDevice)
| vkGetPhysicalDeviceQueueFamilyProperties
    (gpu : VkPhysicalDevice) (capacity : option Z)
| vkCreateInstance (enabled_extensions : list string)
| vkCreateDevice
    (gpu : VkPhysicalDevice) (enabled_extensions : list string)
    (enabled_features : VkPhysicalDeviceFeatures)
| vkDestroyDevice (device : VkDevice)
| vkDestroyInstance (instance : VkInstance).

(** What a call hands back: the returned status where the function has
    one, the count written to [*pCount] and the elements written to the
    buffer, or the structure or handle written. *)
Definition Response (c : ApiCall) : Type :=
  match c with
  | vkEnumerateInstanceExtensionProperties _ _
  | vkEnumerateDeviceExtensionProperties _ _ _ =>
      VkResult * Z * list VkExtensionProperties
  | vkEnumerateInstanceLayerProperties _
  | vkEnumerateDeviceLayerProperties _ _ =>
      VkResult * Z * list VkLayerProperties
  | vkEnumeratePhysicalDevices _ _ => VkResult * Z * list VkPhysicalDevice
  | vkGetPhysicalDeviceProperties _ => VkPhysicalDeviceProperties
  | vkGetPhysicalDeviceMemoryProperties _ => VkPhysicalDeviceMemoryProperties
  | vkGetPhysicalDeviceFeatures _ => VkPhysicalDeviceFeatures
  | vkGetPhysicalDeviceQueueFamilyProperties _ _ =>
      Z * list VkQueueFamilyProperties
  | vkCreateInstance _ => VkResult * VkInstance
  | vkCreateDevice _ _ _ => VkResult * VkDevice
  | vkDestroyDevice _ | vkDestroyInstance _ => unit
  end.

Class Runtime (RT : Type) : Type :=
  answer : forall c : ApiCall, RT -> Response c * RT.

(** ** Runs *)

Inductive Outcome (A : Type) : Type :=
| Returns (a : A)
| Exits (code : Z) (err : string)
| Throws
| Undefined
| Running.
Arguments Returns {A} a.
Arguments Exits {A} code err.
Arguments Throws {A}.
Arguments Undefined {A}.
Arguments Running {A}.

Record Run (RT : Type) : Type := {
  runtime : RT;
  calls : list ApiCall
}.
Arguments runtime {RT} _.
Arguments calls {RT} _.

Definition M (RT A : Type) : Type := Run RT -> Outcome (A * Run RT).

Definition ret {RT A : Type} (a : A) : M RT A := fun s => Returns (a, s).

Definition bind {RT A B : Type} (m : M RT A) (k : A -> M RT B) : M RT B :=
  fun s =>
    match m s with
    | Returns (a, s') => k a s'
    | Exits code err => Exits code err
    | Throws => Throws
    | Undefined => Undefined
    | Running => Running
    end.

Declare Scope run_scope.
Delimit Scope run_scope with run.
Notation "x <- m ;; k" := (bind m (fun x => k))
  (at level 61, m at next level, right associativity) : run_scope.
Notation "' pat <- m ;; k" :=
  (bind m (fun x => match x with pat => k end))
  (at level 61, pat pattern, m at next level, right associativity)
  : run_scope.
Notation "m ;; k" := (bind m (fun _ => k))
  (at level 61, right associativity) : run_scope.

Definition call {RT : Type} {vk : Runtime RT} (c : ApiCall)
  : M RT (Response c) :=
  fun s =>
    let (r, rt) := answer c (runtime s) in
    Returns (r, {| runtime := rt; calls := calls s ++ [c] |}).

Definition throw {RT A : Type} : M RT A := fun _ => Throws.
Definition undefined {RT A : Type} : M RT A := fun _ => Undefined.
Definition running {RT A : Type} : M RT A := fun _ => Running.

(** ** The gatherer *)

Section Gatherer.
Context {hdr : VulkanHeader} {RT : Type} {vk : Runtime RT}.

Local Open Scope run_scope.

(** The local [result_str] of [die]. *)
Definition result_str (result : VkResult) : string :=
  switch result
    [ (VK_SUCCESS, "VK_SUCCESS"%string);
      (VK_NOT_READY, "VK_NOT_READY"%string);
      (VK_TIMEOUT, "VK_TIMEOUT"%string);
      (VK_EVENT_SET, "VK_EVENT_SET"%string);
      (VK_EVENT_RESET, "VK_EVENT_RESET"%string);
      (VK_INCOMPLETE, "VK_INCOMPLETE"%string);
      (VK_ERROR_OUT_OF_HOST_MEMORY, "VK_ERROR_OUT_OF_HOST_MEMORY"%string);
      (VK_ERROR_OUT_OF_DEVICE_MEMORY,
        "VK_ERROR_OUT_OF_DEVICE_MEMORY"%string);
      (VK_ERROR_INITIALIZATION_FAILED,
        "VK_ERROR_INITIALIZATION_FAILED"%string);
      (VK_ERROR_DEVICE_LOST, "VK_ERROR_DEVICE_LOST"%string);
      (VK_ERROR_MEMORY_MAP_FAILED, "VK_ERROR_MEMORY_MAP_FAILED"%string);
      (VK_ERROR_LAYER_NOT_PRESENT, "VK_ERROR_LAYER_NOT_PRESENT"%string);
      (VK_ERROR_EXTENSION_NOT_PRESENT,
        "VK_ERROR_EXTENSION_NOT_PRESENT"%string);
      (VK_ERROR_INCOMPATIBLE_DRIVER,
        "VK_ERROR_INCOMPATIBLE_DRIVER"%string) ]
    "<unknown VkResult>"%string.

(** [fprintf(stderr, ...)] then [exit(1)]. *)
Definition die {A : Type} (proc : string) (result : VkResult) : M RT A :=
  fun _ =>
    Exits 1
      (cat [proc; " failed: "; result_str result; " ("; fmt_d result; ")";
            nl]%string).

Definition HasExtension (extensions : list VkExtensionProperties)
    (name : string) : bool :=
  existsb (fun prop => String.eqb (extensionName prop) name) extensions.

(** The loop
    [do { v.resize(count); result = fetch(&count, v.data()); }
     while (result == VK_INCOMPLETE);]
    which the program writes out at each of its five enumerations.
    [fuel] bounds the number of iterations. *)
Fixpoint fetch_while_incomplete {A : Type} (fuel : nat) (d : A)
    (fetch : Z -> M RT (VkResult * Z * list A))
    (count : Z) (v : list A) : M RT (VkResult * Z * list A) :=
  match fuel with
  | O => running
  | S fuel' =>
      let v := resize count d v in
      '(result, count, written) <- fetch count ;;
      let v := store written v in
      if result =? VK_INCOMPLETE
      then fetch_while_incomplete fuel' d fetch count v
      else ret (result, count, v)
  end.

(** [for (size_t i = start; i < start + n; i++) body] over a state. *)
Fixpoint for_index {S : Type} (n : nat) (i : nat)
    (body : nat -> S -> M RT S) (s : S) : M RT S :=
  match n with
  | O => ret s
  | Datatypes.S n' => s' <- body i s ;; for_index n' (Datatypes.S i) body s'
  end.

Definition EnumerateInstanceExtensions (fuel : nat)
    (layer_name : option string)
    (extensions : list VkExtensionProperties)
  : M RT (list VkExtensionProperties) :=
  '(result, count, _) <-
    call (vkEnumerateInstanceExtensionProperties layer_name None) ;;
  if negb (result =? VK_SUCCESS)
  then die "vkEnumerateInstanceExtensionProperties (count)" result
  else
    '(result, count, extensions) <-
      fetch_while_incomplete fuel zero_extension
        (fun count =>
           call (vkEnumerateInstanceExtensionProperties layer_name
                   (Some count)))
        count extensions ;;
    if negb (result =? VK_SUCCESS)
    then die "vkEnumerateInstanceExtensionProperties (data)" result
    else ret extensions.

Definition EnumerateDeviceExtensions (fuel : nat) (gpu : VkPhysicalDevice)
    (layer_name : option string)
    (extensions : list VkExtensionProperties)
  : M RT (list VkExtensionProperties) :=
  '(result, count, _) <-
    call (vkEnumerateDeviceExtensionProperties gpu layer_name None) ;;
  if negb (result =? VK_SUCCESS)
  then die "vkEnumerateDeviceExtensionProperties (count)" result
  else
    '(result, count, extensions) <-
      fetch_while_incomplete fuel zero_extension
        (fun count =>
           call (vkEnumerateDeviceExtensionProperties gpu layer_name
                   (Some count)))
        count extensions ;;
    if negb (result =? VK_SUCCESS)
    then die "vkEnumerateDeviceExtensionProperties (data)" result
    else ret extensions.

(** The desired extensions that the base list or some layer offers. *)
Definition available_extensions (desired : list string)
    (extensions : list VkExtensionProperties)
    (layer_extensions : list (list VkExtensionProperties)) : list string :=
  filter
    (fun desired_ext =>
       HasExtension extensions desired_ext
       || existsb (fun exts => HasExtension exts desired_ext)
            layer_extensions)
    desired.

Definition GatherGpuInfo (fuel : nat) (gpu : VkPhysicalDevice)
    (info : GpuInfo) : M RT GpuInfo :=
  properties <- call (vkGetPhysicalDeviceProperties gpu) ;;
  memory <- call (vkGetPhysicalDeviceMemoryProperties gpu) ;;
  features <- call (vkGetPhysicalDeviceFeatures gpu) ;;

  '(count, _) <- call (vkGetPhysicalDeviceQueueFamilyProperties gpu None) ;;
  let queue_families := resize count zero_queue_family (queue_families info) in
  '(count, written) <-
    call (vkGetPhysicalDeviceQueueFamilyProperties gpu (Some count)) ;;
  let queue_families := store written queue_families in

  '(result, count, _) <- call (vkEnumerateDeviceLayerProperties gpu None) ;;
  if negb (result =? VK_SUCCESS)
  then die "vkEnumerateDeviceLayerProperties (count)" result
  else
    '(result, count, layers) <-
      fetch_while_incomplete fuel zero_layer
        (fun count => call (vkEnumerateDeviceLayerProperties gpu (Some count)))
        count (gpu_layers info) ;;
    if negb (result =? VK_SUCCESS)
    then die "vkEnumerateDeviceLayerProperties (data)" result
    else
      let layer_extensions :=
        resize (Z.of_nat (length layers)) [] (gpu_layer_extensions info) in

      extensions <- EnumerateDeviceExtensions fuel gpu None (gpu_extensions info) ;;
      layer_extensions <-
        for_index (length layers) 0
          (fun i layer_extensions =>
             match nth_error layers i, nth_error layer_extensions i with
             | Some layer, Some exts =>
                 exts <- EnumerateDeviceExtensions fuel gpu
                           (Some (layerName layer)) exts ;;
                 ret (assign i exts layer_extensions)
             | _, _ => undefined
             end)
          layer_extensions ;;

      let kDesiredExtensions := [VK_KHR_SWAPCHAIN_EXTENSION_NAME] in
      let enabled :=
        available_extensions kDesiredExtensions extensions layer_extensions in

      '(result, device) <- call (vkCreateDevice gpu enabled features) ;;
      if negb (result =? VK_SUCCESS)
      then die "vkCreateDevice" result
      else
        call (vkDestroyDevice device) ;;
        ret {| properties := properties; memory := memory;
               features := features; queue_families := queue_families;
               gpu_extensions := extensions; gpu_layers := layers;
               gpu_layer_extensions := layer_extensions |}.

Definition GatherInfo (fuel : nat) (info : VulkanInfo) : M RT VulkanInfo :=
  '(result, count, _) <- call (vkEnumerateInstanceLayerProperties None) ;;
  if negb (result =? VK_SUCCESS)
  then die "vkEnumerateInstanceLayerProperties (count)" result
  else
    '(result, count, layers) <-
      fetch_while_incomplete fuel zero_layer
        (fun count => call (vkEnumerateInstanceLayerProperties (Some count)))
        count (layers info) ;;
    if negb (result =? VK_SUCCESS)
    then die "vkEnumerateInstanceLayerProperties (data)" result
    else
      let layer_extensions :=
        resize (Z.of_nat (length layers)) [] (layer_extensions info) in

      extensions <- EnumerateInstanceExtensions fuel None (extensions info) ;;
      layer_extensions <-
        for_index (length layers) 0
          (fun i layer_extensions =>
             match nth_error layers i, nth_error layer_extensions i with
             | Some layer, Some exts =>
                 exts <- EnumerateInstanceExtensions fuel
                           (Some (layerName layer)) exts ;;
                 ret (assign i exts layer_extensions)
             | _, _ => undefined
             end)
          layer_extensions ;;

      let kDesiredExtensions := [VK_EXT_DEBUG_REPORT_EXTENSION_NAME] in
      let enabled :=
        available_extensions kDesiredExtensions extensions layer_extensions in

      '(result, instance) <- call (vkCreateInstance enabled) ;;
      if negb (result =? VK_SUCCESS)
      then die "vkCreateInstance" result
      else
        '(result, num_gpus, _) <-
          call (vkEnumeratePhysicalDevices instance None) ;;
        if negb (result =? VK_SUCCESS)
        then die "vkEnumeratePhysicalDevices (count)" result
        else
          (* the local vector [gpus] of handles *)
          let gpu_handles := repeat VK_NULL_HANDLE (Z.to_nat num_gpus) in
          '(result, num_gpus, gpu_handles) <-
            fetch_while_incomplete fuel VK_NULL_HANDLE
              (fun count =>
                 call (vkEnumeratePhysicalDevices instance (Some count)))
              num_gpus gpu_handles ;;
          if negb (result =? VK_SUCCESS)
          then die "vkEnumeratePhysicalDevices (data)" result
          else
            let info_gpus := resize num_gpus zero_GpuInfo (gpus info) in
            info_gpus <-
              for_index (length gpu_handles) 0
                (fun i info_gpus =>
                   match nth_error gpu_handles i with
                   | None => undefined
                   | Some gpu =>
                       match nth_error info_gpus i with
                       | None => throw
                       | Some gpu_info =>
                           gpu_info <- GatherGpuInfo fuel gpu gpu_info ;;
                           ret (assign i gpu_info info_gpus)
                       end
                   end)
                info_gpus ;;
            call (vkDestroyInstance instance) ;;
            ret {| extensions := extensions; layers := layers;
                   layer_extensions := layer_extensions;
                   gpus := info_gpus |}.

End Gatherer.

(** ** The renderer *)

(** A printing function yields the chunks it hands to [printf], in
    order, or nothing when it indexes an array or vector out of range. *)
Definition Pr (A : Type) : Type := option (A * list string).

Definition pr_ret {A : Type} (a : A) : Pr A := Some (a, []).

Definition pr_bind {A B : Type} (m : Pr A) (k : A -> Pr B) : Pr B :=
  match m with
  | None => None
  | Some (a, out) =>
      match k a with
      | None => None
      | Some (b, out') => Some (b, out ++ out')
      end
  end.

Definition printf (chunk : list string) : Pr unit := Some (tt, [cat chunk]).

Definition index {A : Type} (v : list A) (i : Z) : Pr A :=
  match nth_error v (Z.to_nat i) with
  | Some a => pr_ret a
  | None => None
  end.

Declare Scope print_scope.
Delimit Scope print_scope with print.
Notation "x <- m ;; k" := (pr_bind m (fun x => k))
  (at level 61, m at next level, right associativity) : print_scope.
Notation "m ;; k" := (pr_bind m (fun _ => k))
  (at level 61, right associativity) : print_scope.

(** [for (uint32_t i = start; i < start + n; i++) body] over a state. *)
Fixpoint for_range {S : Type} (n : nat) (i : Z) (body : Z -> S -> Pr S)
    (s : S) : Pr S :=
  match n with
  | O => pr_ret s
  | Datatypes.S n' =>
      pr_bind (body i s) (fun s' => for_range n' (i + 1) body s')
  end.

(** [for (const auto& x : v) body] *)
Fixpoint for_each {A : Type} (v : list A) (body : A -> Pr unit) : Pr unit :=
  match v with
  | [] => pr_ret tt
  | x :: rest => pr_bind (body x) (fun _ => for_each rest body)
  end.

Definition ExtractMajorVersion (version : Z) : Z :=
  Z.land (Z.shiftr version 22) 0x3FF.
Definition ExtractMinorVersion (version : Z) : Z :=
  Z.land (Z.shiftr version 12) 0x3FF.
Definition ExtractPatchVersion (version : Z) : Z :=
  Z.land (Z.shiftr version 0) 0xFFF.

Section Renderer.
Context {hdr : VulkanHeader}.

Local Open Scope print_scope.

Definition VkPhysicalDeviceTypeStr (type : Z) : string :=
  switch type
    [ (VK_PHYSICAL_DEVICE_TYPE_OTHER, "OTHER"%string);
      (VK_PHYSICAL_DEVICE_TYPE_INTEGRATED_GPU, "INTEGRATED_GPU"%string);
      (VK_PHYSICAL_DEVICE_TYPE_DISCRETE_GPU, "DISCRETE_GPU"%string);
      (VK_PHYSICAL_DEVICE_TYPE_VIRTUAL_GPU, "VIRTUAL_GPU"%string);
      (VK_PHYSICAL_DEVICE_TYPE_CPU, "CPU"%string) ]
    "<UNKNOWN>"%string.

Definition VkQueueFlagBitStr (bit : Z) : option string :=
  switch_no_default bit
    [ (VK_QUEUE_GRAPHICS_BIT, "GRAPHICS"%string);
      (VK_QUEUE_COMPUTE_BIT, "COMPUTE"%string);
      (VK_QUEUE_TRANSFER_BIT, "TRANSFER"%string);
      (VK_QUEUE_SPARSE_BINDING_BIT, "SPARSE"%string) ].

Definition PrintExtensions (extensions : list VkExtensionProperties)
    (prefix : string) : Pr unit :=
  for_each extensions
    (fun e =>
       printf [prefix; extensionName e; " (v"; fmt_u (specVersion e); ")"; nl]%string).

Definition PrintLayers (layers : list VkLayerProperties)
    (extensions : list (list VkExtensionProperties)) (prefix : string)
  : Pr unit :=
  let ext_prefix := (prefix ++ "    ")%string in
  for_range (length layers) 0
    (fun i _ =>
       layer <- index layers i ;;
       printf [prefix; layerName layer; " ";
               fmt_u (ExtractMajorVersion (layer_specVersion layer)); ".";
               fmt_u (ExtractMinorVersion (layer_specVersion layer)); ".";
               fmt_u (ExtractPatchVersion (layer_specVersion layer)); "/";
               fmt_u (implementationVersion layer); nl;
               prefix; "  "; description layer; nl]%string ;;
       exts <- index extensions i ;;
       (match exts with
        | [] => pr_ret tt
        | _ :: _ =>
            printf [prefix; "  Extensions [";
                    fmt_u (Z.of_nat (length exts)); "]:"; nl]%string
        end) ;;
       PrintExtensions exts ext_prefix)
    tt.

(** [strbuf << label] when the bit is set. *)
Definition append_if_set (flags bit : Z) (label strbuf : string) : string :=
  if negb (Z.land flags bit =? 0) then (strbuf ++ label)%string else strbuf.

Definition PrintGpuInfo (info : GpuInfo) : Pr unit :=
  let strbuf := ""%string in
  printf ["  "; dquote; deviceName (properties info); dquote; " (";
          VkPhysicalDeviceTypeStr (deviceType (properties info)); ") ";
          fmt_u (ExtractMajorVersion (apiVersion (properties info))); ".";
          fmt_u (ExtractMinorVersion (apiVersion (properties info))); ".";
          fmt_u (ExtractPatchVersion (apiVersion (properties info))); "/";
          fmt_alt_x (driverVersion (properties info)); " [";
          fmt_04x (vendorID (properties info)); ":";
          fmt_04x (deviceID (properties info)); "]"; nl]%string ;;

  strbuf <-
    for_range (Z.to_nat (memoryHeapCount (memory info))) 0
      (fun heap strbuf =>
         memoryHeap <- index (memoryHeaps (memory info)) heap ;;
         let strbuf :=
           append_if_set (flags memoryHeap) VK_MEMORY_HEAP_DEVICE_LOCAL_BIT
             "DEVICE_LOCAL" strbuf in
         printf ["    Heap "; fmt_u heap; ": ";
                 fmt_u (size memoryHeap / 0x1000000); " MiB (0x";
                 fmt_x (size memoryHeap); " B) "; strbuf; nl]%string ;;
         let strbuf := ""%string in

         for_range (Z.to_nat (memoryTypeCount (memory info))) 0
           (fun type strbuf =>
              memoryType <- index (memoryTypes (memory info)) type ;;
              if negb (heapIndex memoryType =? heap)
              then pr_ret strbuf
              else
                let flags := propertyFlags memoryType in
                let strbuf :=
                  append_if_set flags VK_MEMORY_PROPERTY_DEVICE_LOCAL_BIT
                    " DEVICE_LOCAL" strbuf in
                let strbuf :=
                  append_if_set flags VK_MEMORY_PROPERTY_HOST_VISIBLE_BIT
                    " HOST_VISIBLE" strbuf in
                let strbuf :=
                  append_if_set flags VK_MEMORY_PROPERTY_HOST_COHERENT_BIT
                    " COHERENT" strbuf in
                let strbuf :=
                  append_if_set flags VK_MEMORY_PROPERTY_HOST_CACHED_BIT
                    " CACHED" strbuf in
                let strbuf :=
                  append_if_set flags VK_MEMORY_PROPERTY_LAZILY_ALLOCATED_BIT
                    " LAZILY_ALLOCATED" strbuf in
                printf ["      Type "; fmt_u type; ":"; strbuf; nl]%string ;;
                pr_ret ""%string)
           strbuf)
      strbuf ;;

  for_range (length (queue_families info)) 0
    (fun family _ =>
       qprops <- index (queue_families info) family ;;
       let flags := queueFlags qprops in
       let flag (bit : Z) (c : string) : string :=
         if negb (Z.land flags bit =? 0) then c else "_"%string in
       let flags_str :=
         cat [flag VK_QUEUE_GRAPHICS_BIT "G"; flag VK_QUEUE_COMPUTE_BIT "C";
              flag VK_QUEUE_TRANSFER_BIT "T";
              flag VK_QUEUE_SPARSE_BINDING_BIT "S"]%string in
       printf ["    Queue Family "; fmt_u family; ": ";
               fmt_u (queueCount qprops); "x "; flags_str; nl;
               "      timestampValidBits: ";
               fmt_u (timestampValidBits qprops); "b"; nl;
               "      minImageTransferGranularity: (";
               fmt_u (width (minImageTransferGranularity qprops)); ",";
               fmt_u (height (minImageTransferGranularity qprops)); ",";
               fmt_u (depth (minImageTransferGranularity qprops)); ")";
               nl]%string)
    tt ;;

  (match gpu_extensions info with
   | [] => pr_ret tt
   | _ :: _ =>
       printf ["    Extensions [";
               fmt_u (Z.of_nat (length (gpu_extensions info))); "]:"; nl]%string ;;
       PrintExtensions (gpu_extensions info) "      "
   end) ;;
  (match gpu_layers info with
   | [] => pr_ret tt
   | _ :: _ =>
       printf ["    Layers [";
               fmt_u (Z.of_nat (length (gpu_layers info))); "]:"; nl]%string ;;
       PrintLayers (gpu_layers info) (gpu_layer_extensions info) "      "
   end).

Definition PrintInfo (info : VulkanInfo) : Pr unit :=
  printf ["Instance Extensions [";
          fmt_u (Z.of_nat (length (extensions info))); "]:"; nl]%string ;;
  PrintExtensions (extensions info) "  " ;;
  (match layers info with
   | [] => pr_ret tt
   | _ :: _ =>
       printf ["Instance Layers [";
               fmt_u (Z.of_nat (length (layers info))); "]:"; nl]%string ;;
       PrintLayers (layers info) (layer_extensions info) "  "
   end) ;;
  printf ["PhysicalDevices [";
          fmt_u (Z.of_nat (length (gpus info))); "]:"; nl]%string ;;
  for_each (gpus info) PrintGpuInfo.

End Renderer.

(** ** The program

    What a process has written is recorded where the program determines
    it.  An uncaught [std::out_of_range] ends in [std::terminate]: the
    program has written nothing to the standard output by then, and what
    the C++ runtime writes to the standard error is the implementation's,
    not the program's ([None]).  When the printer indexes an array or a
    vector out of range the behaviour is undefined, and nothing is
    determined.  A gatherer whose loop is still running has written
    nothing so far. *)

Inductive Halt : Type :=
| Exited (code : Z)
| Aborted
| UndefinedBehaviour
| StillRunning.

Record Process : Type := {
  halt : Halt;
  stdout : option string;
  stderr : option string
}.

Section Main.
Context {hdr : VulkanHeader} {RT : Type} {vk : Runtime RT}.

Definition main (fuel : nat) (rt : RT) : Process :=
  let info := empty_VulkanInfo in
  match GatherInfo fuel info {| runtime := rt; calls := [] |} with
  | Returns (info, _) =>
      match PrintInfo info with
      | Some (_, out) =>
          {| halt := Exited 0; stdout := Some (cat out); stderr := Some ""%string |}
      | None =>
          {| halt := UndefinedBehaviour; stdout := None; stderr := None |}
      end
  | Exits code err =>
      {| halt := Exited code; stdout := Some ""%string; stderr := Some err |}
  | Throws => {| halt := Aborted; stdout := Some ""%string; stderr := None |}
  | Undefined =>
      {| halt := UndefinedBehaviour; stdout := None; stderr := None |}
  | Running =>
      {| halt := StillRunning; stdout := Some ""%string; stderr := Some ""%string |}
  end.
End Main.

(** ** A simulated runtime

    For running the program on concrete inputs.  A [World] lists what the
    runtime offers; the state of the simulated runtime is a timeline of
    worlds: each call is answered from the first world, and the timeline
    then moves on while a later world remains.  An enumeration follows
    the two-call idiom: the count query reports the number of elements
    available; a fetch into a buffer that holds them all writes them and
    succeeds; a fetch into a smaller buffer fills it, reports the count
    required and answers [VK_INCOMPLETE].  [fault] makes a call fail with
    a given status. *)

Record FakeGpu : Type := {
  fake_properties : VkPhysicalDeviceProperties;
  fake_memory : VkPhysicalDeviceMemoryProperties;
  fake_features : VkPhysicalDeviceFeatures;
  fake_queue_families : list VkQueueFamilyProperties;
  fake_device_layers : list VkLayerProperties;
  fake_device_extensions : option string -> list VkExtensionProperties
}.

Record World : Type := {
  instance_layers : list VkLayerProperties;
  instance_extensions : option string -> list VkExtensionProperties;
  physical_devices : list (VkPhysicalDevice * FakeGpu);
  fault : ApiCall -> option VkResult
}.

Section Fake.
Context {hdr : VulkanHeader}.

Definition enumerate {A : Type} (failure : option VkResult)
    (available : list A) (capacity : option Z) : VkResult * Z * list A :=
  match failure with
  | Some result => (result, 0, [])
  | None =>
      let required := Z.of_nat (length available) in
      match capacity with
      | None => (VK_SUCCESS, required, [])
      | Some n =>
          if required <=? n
          then (VK_SUCCESS, required, available)
          else (VK_INCOMPLETE, required, firstn (Z.to_nat n) available)
      end
  end.

Definition create (failure : option VkResult) (handle : Z) : VkResult * Z :=
  match failure with
  | Some result => (result, VK_NULL_HANDLE)
  | None => (VK_SUCCESS, handle)
  end.

Definition zero_FakeGpu : FakeGpu :=
  {| fake_properties := zero_properties; fake_memory := zero_memory;
     fake_features := []; fake_queue_families := [];
     fake_device_layers := []; fake_device_extensions := fun _ => [] |}.

Definition find_gpu (w : World) (gpu : VkPhysicalDevice) : FakeGpu :=
  match find (fun entry => fst entry =? gpu) (physical_devices w) with
  | Some entry => snd entry
  | None => zero_FakeGpu
  end.

Definition fake_answer (w : World) (c : ApiCall) : Response c :=
  match c as c' return Response c' with
  | vkEnumerateInstanceExtensionProperties layer_name capacity =>
      enumerate (fault w c) (instance_extensions w layer_name) capacity
  | vkEnumerateDeviceExtensionProperties gpu layer_name capacity =>
      enumerate (fault w c)
        (fake_device_extensions (find_gpu w gpu) layer_name) capacity
  | vkEnumerateInstanceLayerProperties capacity =>
      enumerate (fault w c) (instance_layers w) capacity
  | vkEnumerateDeviceLayerProperties gpu capacity =>
      enumerate (fault w c) (fake_device_layers (find_gpu w gpu)) capacity
  | vkEnumeratePhysicalDevices _ capacity =>
      enumerate (fault w c) (map fst (physical_devices w)) capacity
  | vkGetPhysicalDeviceProperties gpu => fake_properties (find_gpu w gpu)
  | vkGetPhysicalDeviceMemoryProperties gpu => fake_memory (find_gpu w gpu)
  | vkGetPhysicalDeviceFeatures gpu => fake_features (find_gpu w gpu)
  | vkGetPhysicalDeviceQueueFamilyProperties gpu capacity =>
      let available := fake_queue_families (find_gpu w gpu) in
      match capacity with
      | None => (Z.of_nat (length available), [])
      | Some n =>
          let written := firstn (Z.to_nat n) available in
          (Z.of_nat (length written), written)
      end
  | vkCreateInstance _ => create (fault w c) 1
  | vkCreateDevice _ _ _ => create (fault w c) 1
  | vkDestroyDevice _ => tt
  | vkDestroyInstance _ => tt
  end.

Definition no_world : World :=
  {| instance_layers := []; instance_extensions := fun _ => [];
     physical_devices := []; fault := fun _ => None |}.

#[export] Instance fake_runtime : Runtime (list World) :=
  fun c timeline =>
    match timeline with
    | [] => (fake_answer no_world c, [])
    | [w] => (fake_answer w c, [w])
    | w :: later => (fake_answer w c, later)
    end.

End Fake.

(** The end-to-end scenario of the specification: no instance
    extensions, no layers, one device with one heap of 268435456 bytes
    flagged device-local, one memory type on heap 0 flagged device-local
    and host-visible, one graphics and compute queue family. *)
Definition scenario_gpu : FakeGpu :=
  {| fake_properties :=
       {| apiVersion := 4194304; driverVersion := 1; vendorID := 4318;
          deviceID := 1; deviceType := 2; deviceName := "fake" |};
     fake_memory :=
       {| memoryTypeCount := 1;
          memoryTypes := [ {| propertyFlags := 3; heapIndex := 0 |} ];
          memoryHeapCount := 1;
          memoryHeaps := [ {| size := 268435456; flags := 1 |} ] |};
     fake_features := [];
     fake_queue_families :=
       [ {| queueFlags := 3; queueCount := 1; timestampValidBits := 36;
            minImageTransferGranularity :=
              {| width := 1; height := 1; depth := 1 |} |} ];
     fake_device_layers := [];
     fake_device_extensions := fun _ => [] |}.

Definition scenario : World :=
  {| instance_layers := []; instance_extensions := fun _ => [];
     physical_devices := [(7, scenario_gpu)]; fault := fun _ => None |}.


(** ** Definitions used to state the properties *)

(** Modelled from the spec: the packing macro of the Vulkan header is not
    part of the program.  The specification gives the layout of a packed
    32-bit version: the major number in the high 10 bits, the minor
    number in the next 10 bits, the patch number in the low 12 bits. *)
Definition pack_version (major minor patch : Z) : Z :=
  Z.lor (Z.lor (Z.shiftl major 22) (Z.shiftl minor 12)) patch.


Section KnownLabels.
Context {hdr : VulkanHeader}.

Definition known_device_types : list Z :=
  [VK_PHYSICAL_DEVICE_TYPE_OTHER; VK_PHYSICAL_DEVICE_TYPE_INTEGRATED_GPU;
   VK_PHYSICAL_DEVICE_TYPE_DISCRETE_GPU; VK_PHYSICAL_DEVICE_TYPE_VIRTUAL_GPU;
   VK_PHYSICAL_DEVICE_TYPE_CPU].

Definition known_queue_bits : list Z :=
  [VK_QUEUE_GRAPHICS_BIT; VK_QUEUE_COMPUTE_BIT; VK_QUEUE_TRANSFER_BIT;
   VK_QUEUE_SPARSE_BINDING_BIT].

(** The statuses that have a name of their own in a diagnostic, each
    with its identifier in the Vulkan header.  Every other status is
    named by the placeholder [<unknown VkResult>]. *)
Definition status_names : list (VkResult * string) :=
  [ (VK_SUCCESS, "VK_SUCCESS"%string);
    (VK_NOT_READY, "VK_NOT_READY"%string);
    (VK_TIMEOUT, "VK_TIMEOUT"%string);
    (VK_EVENT_SET, "VK_EVENT_SET"%string);
    (VK_EVENT_RESET, "VK_EVENT_RESET"%string);
    (VK_INCOMPLETE, "VK_INCOMPLETE"%string);
    (VK_ERROR_OUT_OF_HOST_MEMORY, "VK_ERROR_OUT_OF_HOST_MEMORY"%string);
    (VK_ERROR_OUT_OF_DEVICE_MEMORY, "VK_ERROR_OUT_OF_DEVICE_MEMORY"%string);
    (VK_ERROR_INITIALIZATION_FAILED,
      "VK_ERROR_INITIALIZATION_FAILED"%string);
    (VK_ERROR_DEVICE_LOST, "VK_ERROR_DEVICE_LOST"%string);
    (VK_ERROR_MEMORY_MAP_FAILED, "VK_ERROR_MEMORY_MAP_FAILED"%string);
    (VK_ERROR_LAYER_NOT_PRESENT, "VK_ERROR_LAYER_NOT_PRESENT"%string);
    (VK_ERROR_EXTENSION_NOT_PRESENT,
      "VK_ERROR_EXTENSION_NOT_PRESENT"%string);
    (VK_ERROR_INCOMPATIBLE_DRIVER, "VK_ERROR_INCOMPATIBLE_DRIVER"%string) ].
End KnownLabels.

Section Incompletes.
Context {hdr : VulkanHeader} {RT : Type} {A : Type}.
Variable d : A.
Variable fetch : Z -> M RT (VkResult * Z * list A).

(** [n] iterations of the loop body, each answered [VK_INCOMPLETE]:
    the count then held in [*pCount], the vector and the state they
    leave. *)
Fixpoint incompletes (n : nat) (count : Z) (v : list A) (s : Run RT)
  : option (Z * list A * Run RT) :=
  match n with
  | O => Some (count, v, s)
  | S n' =>
      match fetch count s with
      | Returns ((result, count', written), s') =>
          if result =? VK_INCOMPLETE
          then incompletes n' count' (store written (resize count d v)) s'
          else None
      | _ => None
      end
  end.
End Incompletes.

(** The number of line ends in a text. *)
Fixpoint count_newlines (s : string) : nat :=
  match s with
  | EmptyString => 0
  | String c rest =>
      ((if Ascii.eqb c "010" then 1 else 0) + count_newlines rest)%nat
  end.

(** The character [c] occurs in the text. *)
Fixpoint has_char (c : ascii) (s : string) : bool :=
  match s with
  | EmptyString => false
  | String c' rest => Ascii.eqb c' c || has_char c rest
  end.

Definition is_digit (c : ascii) : bool :=
  existsb (Ascii.eqb c)
    ["0"; "1"; "2"; "3"; "4"; "5"; "6"; "7"; "8"; "9"]%char.

(** The failure scenario of the specification: the first count query for
    instance extensions fails. *)
Definition failing_scenario : World :=
  {| instance_layers := []; instance_extensions := fun _ => [];
     physical_devices := [(7, scenario_gpu)];
     fault := fun c =>
       match c with
       | vkEnumerateInstanceExtensionProperties None None => Some (-3)
       | _ => None
       end |}.

(** *** The shape of the report *)

(** The values a loop counter takes: [n] values from [start]. *)
Fixpoint zrange (start : Z) (n : nat) : list Z :=
  match n with
  | O => []
  | S n' => start :: zrange (start + 1) n'
  end.

Section Report.
Context {hdr : VulkanHeader}.

Local Open Scope string_scope.

(** The labels of a memory type, in the order they are appended. *)
Definition memory_type_labels (flags : Z) : string :=
  append_if_set flags VK_MEMORY_PROPERTY_LAZILY_ALLOCATED_BIT
    " LAZILY_ALLOCATED"
    (append_if_set flags VK_MEMORY_PROPERTY_HOST_CACHED_BIT " CACHED"
       (append_if_set flags VK_MEMORY_PROPERTY_HOST_COHERENT_BIT " COHERENT"
          (append_if_set flags VK_MEMORY_PROPERTY_HOST_VISIBLE_BIT
             " HOST_VISIBLE"
             (append_if_set flags VK_MEMORY_PROPERTY_DEVICE_LOCAL_BIT
                " DEVICE_LOCAL" "")))).

(** The line of memory type number [type]. *)
Definition type_chunk (type : Z) (memoryType : VkMemoryType) : string :=
  cat ["      Type "; fmt_u type; ":";
       memory_type_labels (propertyFlags memoryType); nl].

(** The line of heap number [heap]. *)
Definition heap_chunk (heap : Z) (memoryHeap : VkMemoryHeap) : string :=
  cat ["    Heap "; fmt_u heap; ": ";
       fmt_u (size memoryHeap / 0x1000000); " MiB (0x";
       fmt_x (size memoryHeap); " B) ";
       append_if_set (flags memoryHeap) VK_MEMORY_HEAP_DEVICE_LOCAL_BIT
         "DEVICE_LOCAL" "";
       nl].

Definition memory_type (memory : VkPhysicalDeviceMemoryProperties)
    (type : Z) : VkMemoryType :=
  nth (Z.to_nat type) (memoryTypes memory) zero_memory_type.

Definition memory_heap (memory : VkPhysicalDeviceMemoryProperties)
    (heap : Z) : VkMemoryHeap :=
  nth (Z.to_nat heap) (memoryHeaps memory) zero_memory_heap.

(** The memory types whose declared heap is [heap], by number. *)
Definition types_of_heap (memory : VkPhysicalDeviceMemoryProperties)
    (heap : Z) : list Z :=
  filter (fun type => heapIndex (memory_type memory type) =? heap)%Z
    (zrange 0 (Z.to_nat (memoryTypeCount memory))).

(** A heap line and, under it, the lines of the types of that heap. *)
Definition heap_block (memory : VkPhysicalDeviceMemoryProperties)
    (heap : Z) : list string :=
  heap_chunk heap (memory_heap memory heap)
  :: map (fun type => type_chunk type (memory_type memory type))
       (types_of_heap memory heap).

Definition memory_report (memory : VkPhysicalDeviceMemoryProperties)
  : list string :=
  flat_map (heap_block memory)
    (zrange 0 (Z.to_nat (memoryHeapCount memory))).

(** The line that opens a device. *)
Definition device_chunk (properties : VkPhysicalDeviceProperties) : string :=
  cat ["  "; dquote; deviceName properties; dquote; " (";
       VkPhysicalDeviceTypeStr (deviceType properties); ") ";
       fmt_u (ExtractMajorVersion (apiVersion properties)); ".";
       fmt_u (ExtractMinorVersion (apiVersion properties)); ".";
       fmt_u (ExtractPatchVersion (apiVersion properties)); "/";
       fmt_alt_x (driverVersion properties); " [";
       fmt_04x (vendorID properties); ":";
       fmt_04x (deviceID properties); "]"; nl].

Definition extension_chunk (prefix : string) (e : VkExtensionProperties)
  : string :=
  cat [prefix; extensionName e; " (v"; fmt_u (specVersion e); ")"; nl].

Definition layer_chunk (prefix : string) (layer : VkLayerProperties)
  : string :=
  cat [prefix; layerName layer; " ";
       fmt_u (ExtractMajorVersion (layer_specVersion layer)); ".";
       fmt_u (ExtractMinorVersion (layer_specVersion layer)); ".";
       fmt_u (ExtractPatchVersion (layer_specVersion layer)); "/";
       fmt_u (implementationVersion layer); nl;
       prefix; "  "; description layer; nl].

(** What is printed for a layer and the extension list paired with it. *)
Definition layer_block (prefix : string)
    (entry : VkLayerProperties * list VkExtensionProperties) : list string :=
  let (layer, exts) := entry in
  (layer_chunk prefix layer
   :: match exts with
      | [] => []
      | _ :: _ =>
          [cat [prefix; "  Extensions [";
                fmt_u (Z.of_nat (Datatypes.length exts)); "]:"; nl]]
      end
   ++ map (extension_chunk (prefix ++ "    ")) exts)%list.

(** The arrays and vectors are indexed within their bounds. *)
Definition well_formed (info : GpuInfo) : Prop :=
  (0 <= memoryHeapCount (memory info)
     <= Z.of_nat (Datatypes.length (memoryHeaps (memory info))))%Z /\
  (0 <= memoryTypeCount (memory info)
     <= Z.of_nat (Datatypes.length (memoryTypes (memory info))))%Z /\
  (Datatypes.length (gpu_layers info)
     <= Datatypes.length (gpu_layer_extensions info))%nat.
End Report.

(** *** The runs of the gatherer that return

    A run that returns is described by the calls it makes and the
    answers it gets, each call from the state the call before left. *)

Section Gathered.
Context {hdr : VulkanHeader} {RT : Type} {vk : Runtime RT}.

(** One enumeration by the two-call idiom, from the state [s].
    [query None] is the count query, [query (Some n)] the fetch into a
    buffer of [n] elements.  The count query is answered [VK_SUCCESS];
    [n] fetches, fewer than [fuel], are answered [VK_INCOMPLETE], each
    into the vector resized to the count reported with the answer
    before; the fetch after them, into the vector resized to
    [required], is answered [VK_SUCCESS] and leaves the state [s_end].
    [required] is the count reported with the last [VK_INCOMPLETE], the
    last size the runtime required (the count of the count query when
    [n = 0]).  [v_end] is the vector as the successful fetch left it:
    what that fetch wrote, in a vector of [required] elements.  The
    count the successful fetch writes back, [count_written], does not
    resize the vector. *)
Definition enumerated_with {A : Type} (d : A)
    (query : option Z -> M RT (VkResult * Z * list A))
    (fuel : nat) (init : Z -> list A) (s : Run RT)
    (count_written : Z) (v_end : list A) (s_end : Run RT) : Prop :=
  exists count written0 s0 n required v' s1 written,
    query None s = Returns ((VK_SUCCESS, count, written0), s0) /\
    (n < fuel)%nat /\
    incompletes d (fun capacity => query (Some capacity)) n count
      (init count) s0
      = Some (required, v', s1) /\
    query (Some required) s1
      = Returns ((VK_SUCCESS, count_written, written), s_end) /\
    v_end = store written (resize required d v') /\
    length v_end = Z.to_nat required.

(** The enumeration into the vector [v]. *)
Definition enumerated {A : Type} (d : A)
    (query : option Z -> M RT (VkResult * Z * list A))
    (fuel : nat) (v : list A) (s : Run RT)
    (v_end : list A) (s_end : Run RT) : Prop :=
  exists count_written,
    enumerated_with d query fuel (fun _ => v) s count_written v_end s_end.

(** The elements [ys] are made one for each of [xs], in the order of
    [xs], each step from the state the step before left: the element
    at an index is made from the input at that index. *)
Fixpoint in_turn {X Y : Type}
    (step : X -> Run RT -> Y -> Run RT -> Prop)
    (xs : list X) (ys : list Y) (s s_end : Run RT) : Prop :=
  match xs, ys with
  | [], [] => s = s_end
  | x :: xs', y :: ys' =>
      exists s1, step x s y s1 /\ in_turn step xs' ys' s1 s_end
  | _, _ => False
  end.

(** The extensions of the instance and of a device, without a layer or
    of the layer called [layer_name]. *)
Definition instance_extensions_query (layer_name : option string)
    (capacity : option Z) : M RT (VkResult * Z * list VkExtensionProperties) :=
  call (vkEnumerateInstanceExtensionProperties layer_name capacity).

Definition device_extensions_query (gpu : VkPhysicalDevice)
    (layer_name : option string) (capacity : option Z)
  : M RT (VkResult * Z * list VkExtensionProperties) :=
  call (vkEnumerateDeviceExtensionProperties gpu layer_name capacity).

(** A run of [GatherGpuInfo] for [gpu] on a snapshot with empty
    vectors, from [s] to [s_end], that returns [info]. *)
Definition gathered_gpu (fuel : nat) (gpu : VkPhysicalDevice) (s : Run RT)
    (info : GpuInfo) (s_end : Run RT) : Prop :=
  exists s1 s2 s3 count written0 s4 count_written written s5 s6 s7 s8
         device s9,
    call (vkGetPhysicalDeviceProperties gpu) s
      = Returns (properties info, s1) /\
    call (vkGetPhysicalDeviceMemoryProperties gpu) s1
      = Returns (memory info, s2) /\
    call (vkGetPhysicalDeviceFeatures gpu) s2
      = Returns (features info, s3) /\
    call (vkGetPhysicalDeviceQueueFamilyProperties gpu None) s3
      = Returns ((count, written0), s4) /\
    call (vkGetPhysicalDeviceQueueFamilyProperties gpu (Some count)) s4
      = Returns ((count_written, written), s5) /\
    queue_families info = store written (resize count zero_queue_family []) /\
    enumerated zero_layer
      (fun capacity => call (vkEnumerateDeviceLayerProperties gpu capacity))
      fuel [] s5 (gpu_layers info) s6 /\
    enumerated zero_extension (device_extensions_query gpu None)
      fuel [] s6 (gpu_extensions info) s7 /\
    in_turn
      (fun layer t exts t' =>
         enumerated zero_extension
           (device_extensions_query gpu (Some (layerName layer)))
           fuel [] t exts t')
      (gpu_layers info) (gpu_layer_extensions info) s7 s8 /\
    call (vkCreateDevice gpu
            (available_extensions [VK_KHR_SWAPCHAIN_EXTENSION_NAME]
               (gpu_extensions info) (gpu_layer_extensions info))
            (features info)) s8
      = Returns ((VK_SUCCESS, device), s9) /\
    call (vkDestroyDevice device) s9 = Returns (tt, s_end).

(** A run of [GatherInfo] on the empty snapshot, from [s] to [s_end],
    that returns [info].  [handles] is the vector of device handles the
    enumeration of the physical devices leaves, [num_gpus] the count
    its successful fetch writes back: the snapshot has [num_gpus]
    devices, of which those at the indices of [handles] are gathered. *)
Definition gathered (fuel : nat) (s : Run RT) (info : VulkanInfo)
    (s_end : Run RT) : Prop :=
  exists s1 s2 s3 instance s4 num_gpus handles s5 gathered_gpus s6,
    enumerated zero_layer
      (fun capacity => call (vkEnumerateInstanceLayerProperties capacity))
      fuel [] s (layers info) s1 /\
    enumerated zero_extension (instance_extensions_query None)
      fuel [] s1 (extensions info) s2 /\
    in_turn
      (fun layer t exts t' =>
         enumerated zero_extension
           (instance_extensions_query (Some (layerName layer)))
           fuel [] t exts t')
      (layers info) (layer_extensions info) s2 s3 /\
    call (vkCreateInstance
            (available_extensions [VK_EXT_DEBUG_REPORT_EXTENSION_NAME]
               (extensions info) (layer_extensions info))) s3
      = Returns ((VK_SUCCESS, instance), s4) /\
    enumerated_with VK_NULL_HANDLE
      (fun capacity => call (vkEnumeratePhysicalDevices instance capacity))
      fuel (fun count => repeat VK_NULL_HANDLE (Z.to_nat count)) s4
      num_gpus handles s5 /\
    (length handles <= Z.to_nat num_gpus)%nat /\
    in_turn (fun gpu t gpu_info t' => gathered_gpu fuel gpu t gpu_info t')
      handles gathered_gpus s5 s6 /\
    gpus info
      = gathered_gpus
        ++ repeat zero_GpuInfo (Z.to_nat num_gpus - length handles) /\
    call (vkDestroyInstance instance) s6 = Returns (tt, s_end).

(** A run of [GatherInfo] on the empty snapshot, from [s], that ends
    with the [std::out_of_range] of [info->gpus.at(i)].  The run goes
    as in [gathered] up to the enumeration of the physical devices; the
    successful fetch of that enumeration writes back a count
    [num_gpus] below the number of handles in the vector, which is not
    resized to it; the devices of the first [num_gpus] handles are
    gathered in turn; and the next index is out of the range of the
    [num_gpus] snapshots. *)
Definition gathering_thrown (fuel : nat) (s : Run RT) : Prop :=
  exists fetched exts layer_exts s1 s2 s3 instance s4 num_gpus handles s5
         gathered_gpus s6,
    enumerated zero_layer
      (fun capacity => call (vkEnumerateInstanceLayerProperties capacity))
      fuel [] s fetched s1 /\
    enumerated zero_extension (instance_extensions_query None)
      fuel [] s1 exts s2 /\
    in_turn
      (fun layer t exts' t' =>
         enumerated zero_extension
           (instance_extensions_query (Some (layerName layer)))
           fuel [] t exts' t')
      fetched layer_exts s2 s3 /\
    call (vkCreateInstance
            (available_extensions [VK_EXT_DEBUG_REPORT_EXTENSION_NAME]
               exts layer_exts)) s3
      = Returns ((VK_SUCCESS, instance), s4) /\
    enumerated_with VK_NULL_HANDLE
      (fun capacity => call (vkEnumeratePhysicalDevices instance capacity))
      fuel (fun count => repeat VK_NULL_HANDLE (Z.to_nat count)) s4
      num_gpus handles s5 /\
    (Z.to_nat num_gpus < length handles)%nat /\
    in_turn (fun gpu t gpu_info t' => gathered_gpu fuel gpu t gpu_info t')
      (firstn (Z.to_nat num_gpus) handles) gathered_gpus s5 s6.
End Gathered.

(** *** Calls of the queue-family query *)




(** *** More simulated worlds *)

(** The snapshot of the device of [scenario]. *)
Definition scenario_snapshot : GpuInfo :=
  {| properties := fake_properties scenario_gpu;
     memory := fake_memory scenario_gpu;
     features := fake_features scenario_gpu;
     queue_families := fake_queue_families scenario_gpu;
     gpu_extensions := []; gpu_layers := []; gpu_layer_extensions := [] |}.

(** Three heaps; the types are declared on heaps 2, 0, 2 and, for the
    last one, on a heap 5 that does not exist. *)
Definition scattered_memory : VkPhysicalDeviceMemoryProperties :=
  {| memoryTypeCount := 4;
     memoryTypes :=
       [ {| propertyFlags := 1; heapIndex := 2 |};
         {| propertyFlags := 6; heapIndex := 0 |};
         {| propertyFlags := 0; heapIndex := 2 |};
         {| propertyFlags := 8; heapIndex := 5 |} ];
     memoryHeapCount := 3;
     memoryHeaps :=
       [ {| size := 1073741824; flags := 0 |};
         {| size := 16777216; flags := 0 |};
         {| size := 268435456; flags := 1 |} ] |}.

(** Two instance layers and one device layer, each with extensions of
    its own. *)
Definition layer_a : VkLayerProperties :=
  {| layerName := "layer_a"; layer_specVersion := 4194304;
     implementationVersion := 1; description := "first" |}.
Definition layer_b : VkLayerProperties :=
  {| layerName := "layer_b"; layer_specVersion := 4194305;
     implementationVersion := 2; description := "second" |}.

Definition extensions_of (layer_name : option string)
  : list VkExtensionProperties :=
  match layer_name with
  | None => [ {| extensionName := "VK_KHR_surface"; specVersion := 25 |} ]
  | Some name =>
      if String.eqb name "layer_a"
      then [ {| extensionName := "VK_EXT_debug_report"; specVersion := 2 |} ]
      else if String.eqb name "layer_b"
      then [ {| extensionName := "ext_b1"; specVersion := 1 |};
             {| extensionName := "ext_b2"; specVersion := 1 |} ]
      else []
  end.

Definition layered_world : World :=
  {| instance_layers := [layer_a; layer_b];
     instance_extensions := extensions_of;
     physical_devices :=
       [(7, {| fake_properties := fake_properties scenario_gpu;
               fake_memory := fake_memory scenario_gpu;
               fake_features := fake_features scenario_gpu;
               fake_queue_families := fake_queue_families scenario_gpu;
               fake_device_layers := [layer_b];
               fake_device_extensions := extensions_of |})];
     fault := fun _ => None |}.

(** A world with one instance layer, and the world after a second one
    has been installed. *)
Definition one_layer_world : World :=
  {| instance_layers := [layer_a]; instance_extensions := extensions_of;
     physical_devices := []; fault := fun _ => None |}.
Definition two_layer_world : World :=
  {| instance_layers := [layer_a; layer_b];
     instance_extensions := extensions_of;
     physical_devices := []; fault := fun _ => None |}.





(** *** What a steady simulated runtime offers *)

(** No call is made to fail. *)
Definition healthy (w : World) : Prop := forall c, fault w c = None.

(** From every state whose timeline is the single world [w], the
    computation [m] returns [a] and leaves the timeline as it is. *)
Definition steady_result {A : Type} (w : World)
    (m : M (list World) A) (a : A) : Prop :=
  forall s,
    runtime s = [w] ->
    exists s', m s = Returns (a, s') /\ runtime s' = [w].

(** The snapshot of a simulated device. *)
Definition snapshot_of_gpu (g : FakeGpu) : GpuInfo :=
  {| properties := fake_properties g;
     memory := fake_memory g;
     features := fake_features g;
     queue_families := fake_queue_families g;
     gpu_extensions := fake_device_extensions g None;
     gpu_layers := fake_device_layers g;
     gpu_layer_extensions :=
       map (fun layer => fake_device_extensions g (Some (layerName layer)))
         (fake_device_layers g) |}.

Section SnapshotOfWorld.
Context {hdr : VulkanHeader}.

(** The snapshot of a simulated world. *)
Definition snapshot_of_world (w : World) : VulkanInfo :=
  {| extensions := instance_extensions w None;
     layers := instance_layers w;
     layer_extensions :=
       map (fun layer => instance_extensions w (Some (layerName layer)))
         (instance_layers w);
     gpus :=
       map (fun entry => snapshot_of_gpu (find_gpu w (fst entry)))
         (physical_devices w) |}.
End SnapshotOfWorld.


(** ** Further definitions used to state properties *)


Section Diagnostics.
Context {hdr : VulkanHeader}.

(** The text [die] writes for [proc] and [result], without the line
    end. *)
Definition diagnostic (proc : string) (result : VkResult) : string :=
  cat [proc; " failed: "; result_str result; " ("; fmt_d result; ")"]%string.


End Diagnostics.

(** A runtime that answers every enumeration with [VK_INCOMPLETE] and a
    required count one above the capacity it was offered. *)
Section Stubborn.
Context {hdr : VulkanHeader}.

Definition never_enough {A : Type} (capacity : option Z)
  : VkResult * Z * list A :=
  match capacity with
  | None => (VK_SUCCESS, 1, [])
  | Some n => (VK_INCOMPLETE, n + 1, [])
  end.

Definition stubborn_runtime : Runtime unit :=
  fun c u =>
    (match c as c' return Response c' with
     | vkEnumerateInstanceExtensionProperties _ capacity => never_enough capacity
     | vkEnumerateDeviceExtensionProperties _ _ capacity => never_enough capacity
     | vkEnumerateInstanceLayerProperties capacity => never_enough capacity
     | vkEnumerateDeviceLayerProperties _ capacity => never_enough capacity
     | vkEnumeratePhysicalDevices _ capacity => never_enough capacity
     | vkGetPhysicalDeviceProperties _ => zero_properties
     | vkGetPhysicalDeviceMemoryProperties _ => zero_memory
     | vkGetPhysicalDeviceFeatures _ => []
     | vkGetPhysicalDeviceQueueFamilyProperties _ _ => (0, [])
     | vkCreateInstance _ => (VK_SUCCESS, 1)
     | vkCreateDevice _ _ _ => (VK_SUCCESS, 1)
     | vkDestroyDevice _ => tt
     | vkDestroyInstance _ => tt
     end, u).
End Stubborn.

(** The fetch of the instance extensions fails; the count query does
    not. *)
Definition failing_fetch : World :=
  {| instance_layers := []; instance_extensions := extensions_of;
     physical_devices := [(7, scenario_gpu)];
     fault := fun c =>
       match c with
       | vkEnumerateInstanceExtensionProperties None (Some _) => Some (-1)
       | _ => None
       end |}.

(** *** The whole report *)

Section WholeReport.
Context {hdr : VulkanHeader}.

Local Open Scope string_scope.

(** The four-character code of the queue capabilities. *)
Definition queue_flags_str (flags : Z) : string :=
  let flag (bit : Z) (c : string) : string :=
    if negb (Z.land flags bit =? 0)%Z then c else "_" in
  cat [flag VK_QUEUE_GRAPHICS_BIT "G"; flag VK_QUEUE_COMPUTE_BIT "C";
       flag VK_QUEUE_TRANSFER_BIT "T"; flag VK_QUEUE_SPARSE_BINDING_BIT "S"].

(** The three lines of queue family number [family]. *)
Definition queue_family_chunk (family : Z) (qprops : VkQueueFamilyProperties)
  : string :=
  cat ["    Queue Family "; fmt_u family; ": ";
       fmt_u (queueCount qprops); "x "; queue_flags_str (queueFlags qprops);
       nl;
       "      timestampValidBits: ";
       fmt_u (timestampValidBits qprops); "b"; nl;
       "      minImageTransferGranularity: (";
       fmt_u (width (minImageTransferGranularity qprops)); ",";
       fmt_u (height (minImageTransferGranularity qprops)); ",";
       fmt_u (depth (minImageTransferGranularity qprops)); ")";
       nl].

(** A list of extensions under a heading, nothing when it is empty. *)
Definition headed_extensions (heading prefix : string)
    (exts : list VkExtensionProperties) : list string :=
  match exts with
  | [] => []
  | _ :: _ =>
      cat [heading; fmt_u (Z.of_nat (Datatypes.length exts)); "]:"; nl]
      :: map (extension_chunk prefix) exts
  end.

(** The layers with their extension lists under a heading, nothing
    when there is no layer. *)
Definition headed_layers (heading prefix : string)
    (layers : list VkLayerProperties)
    (layer_extensions : list (list VkExtensionProperties)) : list string :=
  match layers with
  | [] => []
  | _ :: _ =>
      cat [heading; fmt_u (Z.of_nat (Datatypes.length layers)); "]:"; nl]
      :: flat_map (layer_block prefix) (combine layers layer_extensions)
  end.

(** The report of a device. *)
Definition gpu_report (info : GpuInfo) : list string :=
  (device_chunk (properties info)
   :: memory_report (memory info)
   ++ map (fun family =>
             queue_family_chunk family
               (nth (Z.to_nat family) (queue_families info)
                  zero_queue_family))
        (zrange 0 (Datatypes.length (queue_families info)))
   ++ headed_extensions "    Extensions [" "      " (gpu_extensions info)
   ++ headed_layers "    Layers [" "      "
        (gpu_layers info) (gpu_layer_extensions info))%list.

(** No loop of [PrintGpuInfo] leaves its array or vector: the heaps
    that are visited exist, the memory types exist when a heap is
    visited, and every layer has an extension list. *)
Definition printable (info : GpuInfo) : bool :=
  ((Z.to_nat (memoryHeapCount (memory info))
    <=? Datatypes.length (memoryHeaps (memory info)))%nat
   && ((Z.to_nat (memoryHeapCount (memory info)) =? 0)%nat
       || (Z.to_nat (memoryTypeCount (memory info))
           <=? Datatypes.length (memoryTypes (memory info)))%nat)
   && (Datatypes.length (gpu_layers info)
       <=? Datatypes.length (gpu_layer_extensions info))%nat)%bool.

(** The whole report. *)
Definition info_report (info : VulkanInfo) : list string :=
  (cat ["Instance Extensions [";
        fmt_u (Z.of_nat (Datatypes.length (extensions info))); "]:"; nl]
   :: map (extension_chunk "  ") (extensions info)
   ++ headed_layers "Instance Layers [" "  "
        (layers info) (layer_extensions info)
   ++ cat ["PhysicalDevices [";
           fmt_u (Z.of_nat (Datatypes.length (gpus info))); "]:"; nl]
   :: flat_map gpu_report (gpus info))%list.
End WholeReport.

(** *** The calls of a run *)

(** An enumeration as the program performs it: the count query, a
    first fetch, and the fetches that follow answers of
    [VK_INCOMPLETE]. *)
Definition enumeration_calls (q : option Z -> ApiCall) (l : list ApiCall)
  : Prop :=
  exists count capacities,
    l = q None :: q (Some count) :: map (fun n => q (Some n)) capacities.

Section Calls.
Context {hdr : VulkanHeader}.

(** The calls of [GatherGpuInfo] for the physical device [gpu], when it
    returns the snapshot [info] and the runtime created [device]. *)
Definition device_calls (gpu : VkPhysicalDevice) (info : GpuInfo)
    (device : VkDevice) (l : list ApiCall) : Prop :=
  exists count layer_calls extension_calls per_layer,
    enumeration_calls (vkEnumerateDeviceLayerProperties gpu) layer_calls /\
    enumeration_calls (vkEnumerateDeviceExtensionProperties gpu None)
      extension_calls /\
    Forall2
      (fun layer calls =>
         enumeration_calls
           (vkEnumerateDeviceExtensionProperties gpu (Some (layerName layer)))
           calls)
      (gpu_layers info) per_layer /\
    l = [vkGetPhysicalDeviceProperties gpu;
         vkGetPhysicalDeviceMemoryProperties gpu;
         vkGetPhysicalDeviceFeatures gpu;
         vkGetPhysicalDeviceQueueFamilyProperties gpu None;
         vkGetPhysicalDeviceQueueFamilyProperties gpu (Some count)]
        ++ layer_calls ++ extension_calls ++ List.concat per_layer
        ++ [vkCreateDevice gpu
              (available_extensions [VK_KHR_SWAPCHAIN_EXTENSION_NAME]
                 (gpu_extensions info) (gpu_layer_extensions info))
              (features info);
            vkDestroyDevice device].


End Calls.

(** *** Runs that neither return nor exit *)

(** An uncaught exception, and undefined behaviour. *)
Inductive Stuck : Type := Thrown | Unchecked.

Definition stuck {A : Type} (kind : Stuck) : Outcome A :=
  match kind with
  | Thrown => Throws
  | Unchecked => Undefined
  end.

(** The computation ends the given way only when [Q] holds. *)
Definition only_when {RT A : Type} (kind : Stuck) (Q : Prop) (m : M RT A)
  : Prop :=
  forall s, m s = stuck kind -> Q.

(** The memory counts of a device stay within the arrays of heaps and
    of memory types that [PrintGpuInfo] indexes. *)
Definition memory_counts_in_range (info : GpuInfo) : Prop :=
  (Z.to_nat (memoryHeapCount (memory info))
     <= Datatypes.length (memoryHeaps (memory info)))%nat /\
  ((0 < Z.to_nat (memoryHeapCount (memory info)))%nat ->
   (Z.to_nat (memoryTypeCount (memory info))
      <= Datatypes.length (memoryTypes (memory info)))%nat).

(** A second device is there when the physical devices are counted and
    gone when they are fetched: the first six calls of [GatherInfo], up
    to the count query for the physical devices, are answered with two
    devices, the calls from the fetch on with one. *)
Definition two_devices : World :=
  {| instance_layers := []; instance_extensions := fun _ => [];
     physical_devices := [(7, scenario_gpu); (8, scenario_gpu)];
     fault := fun _ => None |}.

Definition unplugged_timeline : list World :=
  repeat two_devices 6 ++ [scenario].


(** *** Telling the lines of the report apart *)

(** The characters of which every line of the report of a device has
    one, but for the lines of the memory types, which have none. *)
Definition marks : list ascii := ["034"; "("; "]"; "."]%char.

Definition marked (line : string) : Prop :=
  exists c, In c marks /\ has_char c line = true.

(** A device with the memory of [scattered_memory], a queue family, a
    layer with extensions, and an extension whose name reads like the
    start of the line of a memory type. *)
Definition crowded_snapshot : GpuInfo :=
  {| properties := fake_properties scenario_gpu;
     memory := scattered_memory;
     features := [];
     queue_families := fake_queue_families scenario_gpu;
     gpu_extensions := [ {| extensionName := "Type 2:"; specVersion := 1 |} ];
     gpu_layers := [layer_b];
     gpu_layer_extensions := [extensions_of (Some "layer_b"%string)] |}.

(** * Properties *)

(** ** Version words *)

Lemma testbit_above (x k n : Z) :
  0 <= x < 2 ^ k -> k <= n -> Z.testbit x n = false.
Proof.
  intros [Hlo Hhi] Hn.
  destruct (Z.eq_dec x 0) as [->|Hx]; [apply Z.bits_0|].
  apply Z.bits_above_log2; [assumption|].
  assert (Hk : 0 <= k).
  { destruct (Z.le_gt_cases 0 k) as [|Hneg]; [assumption|].
    rewrite Z.pow_neg_r in Hhi by assumption. lia. }
  assert (Z.log2 x < k) by (apply Z.log2_lt_pow2; lia).
  lia.
Qed.

(** The bits of a packed version. *)
Lemma pack_version_testbit (major minor patch n : Z) :
  0 <= n ->
  Z.testbit (pack_version major minor patch) n =
  Z.testbit major (n - 22) || Z.testbit minor (n - 12) || Z.testbit patch n.
Proof.
  intros Hn. unfold pack_version.
  rewrite !Z.lor_spec, !Z.shiftl_spec by assumption. reflexivity.
Qed.

Section Version.
Variables major minor patch : Z.
Hypothesis Hmajor : 0 <= major < 2 ^ 10.
Hypothesis Hminor : 0 <= minor < 2 ^ 10.
Hypothesis Hpatch : 0 <= patch < 2 ^ 12.

Lemma pack_version_32bit :
  0 <= pack_version major minor patch < 2 ^ 32.
Proof.
  set (version := pack_version major minor patch).
  assert (H : Z.land version (Z.ones 32) = version).
  { apply Z.bits_inj'. intros n Hn.
    rewrite Z.land_spec. subst version.
    destruct (Z.lt_ge_cases n 32) as [Hlt|Hge].
    - rewrite Z.ones_spec_low by lia. apply andb_true_r.
    - rewrite Z.ones_spec_high by lia. rewrite andb_false_r.
      rewrite pack_version_testbit by assumption.
      rewrite (testbit_above major 10), (testbit_above minor 10),
        (testbit_above patch 12) by lia.
      reflexivity. }
  rewrite Z.land_ones in H by lia.
  rewrite <- H. apply Z.mod_pos_bound. lia.
Qed.

Lemma extract_major :
  ExtractMajorVersion (pack_version major minor patch) = major.
Proof.
  unfold ExtractMajorVersion. change 0x3FF with (Z.ones 10).
  apply Z.bits_inj'. intros n Hn.
  rewrite Z.land_spec, Z.shiftr_spec by assumption.
  rewrite pack_version_testbit by lia.
  replace (n + 22 - 22) with n by lia.
  rewrite (testbit_above minor 10), (testbit_above patch 12) by lia.
  rewrite !orb_false_r.
  destruct (Z.lt_ge_cases n 10) as [Hlt|Hge].
  - rewrite Z.ones_spec_low by lia. apply andb_true_r.
  - rewrite (testbit_above major 10) by lia. reflexivity.
Qed.

Lemma extract_minor :
  ExtractMinorVersion (pack_version major minor patch) = minor.
Proof.
  unfold ExtractMinorVersion. change 0x3FF with (Z.ones 10).
  apply Z.bits_inj'. intros n Hn.
  rewrite Z.land_spec, Z.shiftr_spec by assumption.
  rewrite pack_version_testbit by lia.
  replace (n + 12 - 12) with n by lia.
  rewrite (testbit_above patch 12) by lia. rewrite orb_false_r.
  destruct (Z.lt_ge_cases n 10) as [Hlt|Hge].
  - rewrite Z.ones_spec_low by lia. rewrite andb_true_r.
    rewrite Z.testbit_neg_r by lia. reflexivity.
  - rewrite Z.ones_spec_high by lia. rewrite andb_false_r.
    symmetry. apply (testbit_above minor 10); lia.
Qed.

Lemma extract_patch :
  ExtractPatchVersion (pack_version major minor patch) = patch.
Proof.
  unfold ExtractPatchVersion. change 0xFFF with (Z.ones 12).
  apply Z.bits_inj'. intros n Hn.
  rewrite Z.land_spec, Z.shiftr_spec by assumption.
  rewrite Z.add_0_r, pack_version_testbit by lia.
  destruct (Z.lt_ge_cases n 12) as [Hlt|Hge].
  - rewrite Z.ones_spec_low by lia. rewrite andb_true_r.
    rewrite !Z.testbit_neg_r by lia. reflexivity.
  - rewrite Z.ones_spec_high by lia. rewrite andb_false_r.
    symmetry. apply (testbit_above patch 12); lia.
Qed.
End Version.

(** C4: for every triple with major < 2^10, minor < 2^10 and
    patch < 2^12, the packed version is a 32-bit word and the three
    extractors give the triple back; the bounds include 0 and the
    largest value of each field. *)
Theorem version_round_trip (major minor patch : Z) :
  0 <= major < 2 ^ 10 -> 0 <= minor < 2 ^ 10 -> 0 <= patch < 2 ^ 12 ->
  0 <= pack_version major minor patch < 2 ^ 32 /\
  ExtractMajorVersion (pack_version major minor patch) = major /\
  ExtractMinorVersion (pack_version major minor patch) = minor /\
  ExtractPatchVersion (pack_version major minor patch) = patch.
Proof.
  intros Hmajor Hminor Hpatch.
  repeat split.
  - apply (pack_version_32bit major minor patch); assumption.
  - apply (pack_version_32bit major minor patch); assumption.
  - apply extract_major; assumption.
  - apply extract_minor; assumption.
  - apply extract_patch; assumption.
Qed.

(** The largest value of every field. *)
Lemma version_round_trip_max :
  0 <= pack_version 1023 1023 4095 < 2 ^ 32 /\
  ExtractMajorVersion (pack_version 1023 1023 4095) = 1023 /\
  ExtractMinorVersion (pack_version 1023 1023 4095) = 1023 /\
  ExtractPatchVersion (pack_version 1023 1023 4095) = 4095.
Proof. apply (version_round_trip 1023 1023 4095); lia. Defined.

(** ** Label lookup *)

Lemma switch_case {A : Type} (x : Z) (cases : list (Z * A)) (default a : A) :
  NoDup (map fst cases) -> In (x, a) cases -> switch x cases default = a.
Proof.
  induction cases as [|[label b] rest IH]; simpl; intros Hnd Hin.
  - contradiction.
  - inversion Hnd as [|? ? Hnotin Hrest]; subst.
    destruct Hin as [Heq|Hin].
    + inversion Heq; subst. rewrite Z.eqb_refl. reflexivity.
    + destruct (Z.eqb_spec x label) as [->|Hne].
      * exfalso. apply Hnotin. apply (in_map fst) in Hin. exact Hin.
      * apply IH; assumption.
Qed.

Lemma switch_default {A : Type} (x : Z) (cases : list (Z * A)) (default : A) :
  ~ In x (map fst cases) -> switch x cases default = default.
Proof.
  induction cases as [|[label b] rest IH]; simpl; intros Hnotin.
  - reflexivity.
  - destruct (Z.eqb_spec x label) as [->|Hne].
    + exfalso. apply Hnotin. left. reflexivity.
    + apply IH. intros Hin. apply Hnotin. right. exact Hin.
Qed.

Lemma switch_no_default_case {A : Type} (x : Z) (cases : list (Z * A)) (a : A) :
  NoDup (map fst cases) -> In (x, a) cases ->
  switch_no_default x cases = Some a.
Proof.
  induction cases as [|[label b] rest IH]; simpl; intros Hnd Hin.
  - contradiction.
  - inversion Hnd as [|? ? Hnotin Hrest]; subst.
    destruct Hin as [Heq|Hin].
    + inversion Heq; subst. rewrite Z.eqb_refl. reflexivity.
    + destruct (Z.eqb_spec x label) as [->|Hne].
      * exfalso. apply Hnotin. apply (in_map fst) in Hin. exact Hin.
      * apply IH; assumption.
Qed.

Lemma switch_no_default_falls_through {A : Type} (x : Z)
    (cases : list (Z * A)) :
  ~ In x (map fst cases) -> switch_no_default x cases = None.
Proof.
  induction cases as [|[label b] rest IH]; simpl; intros Hnotin.
  - reflexivity.
  - destruct (Z.eqb_spec x label) as [->|Hne].
    + exfalso. apply Hnotin. left. reflexivity.
    + apply IH. intros Hin. apply Hnotin. right. exact Hin.
Qed.

Section Labels.
Context {hdr : VulkanHeader}.

Local Open Scope string_scope.

(** C8: every known device type and every known queue bit has its
    fixed label, and a device type outside the known five is labelled
    with the placeholder. *)
Theorem label_lookup :
  (VkPhysicalDeviceTypeStr VK_PHYSICAL_DEVICE_TYPE_OTHER = "OTHER" /\
   VkPhysicalDeviceTypeStr VK_PHYSICAL_DEVICE_TYPE_INTEGRATED_GPU
     = "INTEGRATED_GPU" /\
   VkPhysicalDeviceTypeStr VK_PHYSICAL_DEVICE_TYPE_DISCRETE_GPU
     = "DISCRETE_GPU" /\
   VkPhysicalDeviceTypeStr VK_PHYSICAL_DEVICE_TYPE_VIRTUAL_GPU
     = "VIRTUAL_GPU" /\
   VkPhysicalDeviceTypeStr VK_PHYSICAL_DEVICE_TYPE_CPU = "CPU") /\
  (VkQueueFlagBitStr VK_QUEUE_GRAPHICS_BIT = Some "GRAPHICS" /\
   VkQueueFlagBitStr VK_QUEUE_COMPUTE_BIT = Some "COMPUTE" /\
   VkQueueFlagBitStr VK_QUEUE_TRANSFER_BIT = Some "TRANSFER" /\
   VkQueueFlagBitStr VK_QUEUE_SPARSE_BINDING_BIT = Some "SPARSE") /\
  (forall type : Z,
     ~ In type known_device_types ->
     VkPhysicalDeviceTypeStr type = "<UNKNOWN>").
Proof.
  split; [|split].
  - unfold VkPhysicalDeviceTypeStr.
    repeat split;
      (apply switch_case;
       [exact VkPhysicalDeviceType_labels | simpl; tauto]).
  - unfold VkQueueFlagBitStr.
    repeat split;
      (apply switch_no_default_case;
       [exact VkQueueFlagBits_labels | simpl; tauto]).
  - intros type Hunknown. unfold VkPhysicalDeviceTypeStr.
    apply switch_default. exact Hunknown.
Qed.

(** C9: for a bit outside the known four, control reaches the end of
    [VkQueueFlagBitStr] without a [return]: there is no label, and no
    placeholder either. *)
Theorem queue_flag_label_undefined (bit : Z) :
  ~ In bit known_queue_bits -> VkQueueFlagBitStr bit = None.
Proof.
  intros Hunknown. unfold VkQueueFlagBitStr.
  apply switch_no_default_falls_through. exact Hunknown.
Qed.
End Labels.

(** A device type of 5 is not one of the header's five. *)
Lemma label_lookup_unknown_5 :
  VkPhysicalDeviceTypeStr (hdr := vulkan_h) 5 = "<UNKNOWN>"%string.
Proof.
  apply (proj2 (proj2 (label_lookup (hdr := vulkan_h)))).
  simpl. intuition discriminate.
Defined.

(** Bit 16 is not a queue capability of the header. *)
Lemma queue_flag_label_undefined_16 :
  VkQueueFlagBitStr (hdr := vulkan_h) 16 = None.
Proof.
  apply (queue_flag_label_undefined (hdr := vulkan_h) 16).
  simpl. intuition discriminate.
Defined.

(** ** Vectors *)

Lemma resize_length {A : Type} (n : Z) (d : A) (v : list A) :
  length (resize n d v) = Z.to_nat n.
Proof.
  unfold resize. rewrite length_app, length_firstn, repeat_length. lia.
Qed.

Lemma store_length {A : Type} (written v : list A) :
  length (store written v) = length v.
Proof.
  unfold store. rewrite length_app, length_firstn, length_skipn. lia.
Qed.

Lemma store_all {A : Type} (written v : list A) :
  length written = length v -> store written v = written.
Proof.
  intros H. unfold store.
  rewrite <- H, firstn_all, skipn_all2, app_nil_r by lia. reflexivity.
Qed.

Lemma resize_nil {A : Type} (n : Z) (d : A) :
  resize n d [] = repeat d (Z.to_nat n).
Proof.
  unfold resize. rewrite firstn_nil. simpl. f_equal. lia.
Qed.

Lemma assign_length {A : Type} (i : nat) (x : A) (v : list A) :
  (i < length v)%nat -> length (assign i x v) = length v.
Proof.
  intros H. unfold assign.
  rewrite length_app, length_firstn. cbn [Datatypes.length].
  rewrite length_skipn. lia.
Qed.

Lemma assign_nth_same {A : Type} (i : nat) (x : A) (v : list A) :
  (i < length v)%nat -> nth_error (assign i x v) i = Some x.
Proof.
  intros H. unfold assign.
  rewrite nth_error_app2 by (rewrite length_firstn; lia).
  rewrite length_firstn. replace (i - Nat.min i (length v))%nat with 0%nat by lia.
  reflexivity.
Qed.

Lemma assign_nth_other {A : Type} (i j : nat) (x : A) (v : list A) :
  (i < length v)%nat -> j <> i ->
  nth_error (assign i x v) j = nth_error v j.
Proof.
  intros H Hne. unfold assign.
  destruct (Nat.lt_ge_cases j i) as [Hlt|Hge].
  - rewrite nth_error_app1 by (rewrite length_firstn; lia).
    rewrite nth_error_firstn.
    destruct (Nat.ltb_spec j i); [reflexivity|lia].
  - rewrite nth_error_app2 by (rewrite length_firstn; lia).
    rewrite length_firstn. replace (Nat.min i (length v)) with i by lia.
    destruct (j - i)%nat as [|k] eqn:Hk; [lia|]. cbn [nth_error].
    rewrite nth_error_skipn. f_equal. lia.
Qed.

(** ** The retry loop *)

Section Retry.
Context {hdr : VulkanHeader} {RT : Type} {vk : Runtime RT} {A : Type}.
Variable d : A.
Variable fetch : Z -> M RT (VkResult * Z * list A).

Lemma VK_SUCCESS_not_INCOMPLETE : (VK_SUCCESS =? VK_INCOMPLETE) = false.
Proof.
  apply Z.eqb_neq. intros Heq.
  pose proof VkResult_labels as Hnd.
  inversion Hnd as [|? ? Hnotin _]; subst.
  apply Hnotin. rewrite Heq. simpl. tauto.
Qed.

Lemma fetch_while_incomplete_after (n : nat) :
  forall fuel count v s count' v' s',
    incompletes d fetch n count v s = Some (count', v', s') ->
    fetch_while_incomplete (n + fuel) d fetch count v s =
    fetch_while_incomplete fuel d fetch count' v' s'.
Proof.
  induction n as [|n IH]; intros fuel count v s count' v' s' Hrun.
  - simpl in Hrun. inversion Hrun; subst. reflexivity.
  - simpl in Hrun. simpl. unfold bind at 1.
    destruct (fetch count s) as [[[[result count1] written] s1]| | | |];
      try discriminate.
    destruct (result =? VK_INCOMPLETE) eqn:Hres; [|discriminate].
    apply IH. exact Hrun.
Qed.

End Retry.

(** ** Runs *)

Lemma bind_returns {RT A B : Type} (m : M RT A) (k : A -> M RT B)
    (s s' : Run RT) (a : A) :
  m s = Returns (a, s') -> bind m k s = k a s'.
Proof. intros H. unfold bind. rewrite H. reflexivity. Qed.

Lemma bind_inv {RT A B : Type} (m : M RT A) (k : A -> M RT B)
    (s s'' : Run RT) (b : B) :
  bind m k s = Returns (b, s'') ->
  exists a s', m s = Returns (a, s') /\ k a s' = Returns (b, s'').
Proof.
  unfold bind. destruct (m s) as [[a s']| | | |]; try discriminate.
  intros H. exists a, s'. split; [reflexivity|exact H].
Qed.

Lemma call_returns {RT : Type} {vk : Runtime RT} (c : ApiCall) (s : Run RT) :
  call c s =
  Returns (fst (answer c (runtime s)),
           {| runtime := snd (answer c (runtime s));
              calls := calls s ++ [c] |}).
Proof. unfold call. destruct (answer c (runtime s)). reflexivity. Qed.

(** ** Strings *)

Lemma append_nil_r (s : string) : (s ++ "")%string = s.
Proof. induction s as [|c s IH]; simpl; [|rewrite IH]; reflexivity. Qed.

Lemma append_assoc (a b c : string) :
  (a ++ (b ++ c))%string = ((a ++ b) ++ c)%string.
Proof. induction a as [|x a IH]; simpl; [|rewrite IH]; reflexivity. Qed.

Lemma cat_cons (x : string) (l : list string) :
  cat (x :: l) = (x ++ cat l)%string.
Proof.
  unfold cat. destruct l as [|y l]; simpl.
  - symmetry. apply append_nil_r.
  - reflexivity.
Qed.

Lemma cat_app (l1 l2 : list string) :
  cat (l1 ++ l2) = (cat l1 ++ cat l2)%string.
Proof.
  induction l1 as [|x l1 IH].
  - reflexivity.
  - rewrite <- app_comm_cons, !cat_cons, IH. apply append_assoc.
Qed.

(** ** The fatal diagnostic *)

Lemma count_newlines_app (a b : string) :
  count_newlines (a ++ b) = (count_newlines a + count_newlines b)%nat.
Proof.
  induction a as [|c a IH]; simpl; [reflexivity|]. rewrite IH. lia.
Qed.

Lemma count_newlines_uint (d : Decimal.uint) :
  count_newlines (DecimalString.NilEmpty.string_of_uint d) = 0%nat.
Proof. induction d; simpl; assumption || reflexivity. Qed.

Lemma count_newlines_fmt_d (n : Z) : count_newlines (fmt_d n) = 0%nat.
Proof.
  unfold fmt_d. destruct (Z.to_int n); simpl; apply count_newlines_uint.
Qed.

Lemma switch_in {A : Type} (x : Z) (cases : list (Z * A)) (default : A) :
  In (switch x cases default) (default :: map snd cases).
Proof.
  induction cases as [|[label a] rest IH]; simpl.
  - left. reflexivity.
  - destruct (x =? label).
    + right. left. reflexivity.
    + destruct IH as [IH|IH]; [left; exact IH | right; right; exact IH].
Qed.

Section Diagnostic.
Context {hdr : VulkanHeader} {RT : Type} {vk : Runtime RT}.

Lemma count_newlines_result_str (result : VkResult) :
  count_newlines (result_str result) = 0%nat.
Proof.
  unfold result_str.
  match goal with
  | |- context [switch result ?cases ?default] =>
      pose proof (switch_in result cases default) as Hin;
      set (name := switch result cases default) in *
  end.
  simpl in Hin.
  repeat (destruct Hin as [<-|Hin]; [reflexivity|]). contradiction.
Qed.

(** X2: [die] names each of the fourteen statuses of its [switch] by
    the identifier of the status, and any other value by
    [<unknown VkResult>]. *)
Lemma result_str_names :
  map result_str
    [VK_SUCCESS; VK_NOT_READY; VK_TIMEOUT; VK_EVENT_SET; VK_EVENT_RESET;
     VK_INCOMPLETE; VK_ERROR_OUT_OF_HOST_MEMORY;
     VK_ERROR_OUT_OF_DEVICE_MEMORY; VK_ERROR_INITIALIZATION_FAILED;
     VK_ERROR_DEVICE_LOST; VK_ERROR_MEMORY_MAP_FAILED;
     VK_ERROR_LAYER_NOT_PRESENT; VK_ERROR_EXTENSION_NOT_PRESENT;
     VK_ERROR_INCOMPATIBLE_DRIVER]
  = ["VK_SUCCESS"; "VK_NOT_READY"; "VK_TIMEOUT"; "VK_EVENT_SET";
     "VK_EVENT_RESET"; "VK_INCOMPLETE"; "VK_ERROR_OUT_OF_HOST_MEMORY";
     "VK_ERROR_OUT_OF_DEVICE_MEMORY"; "VK_ERROR_INITIALIZATION_FAILED";
     "VK_ERROR_DEVICE_LOST"; "VK_ERROR_MEMORY_MAP_FAILED";
     "VK_ERROR_LAYER_NOT_PRESENT"; "VK_ERROR_EXTENSION_NOT_PRESENT";
     "VK_ERROR_INCOMPATIBLE_DRIVER"]%string /\
  forall result,
    ~ In result
        [VK_SUCCESS; VK_NOT_READY; VK_TIMEOUT; VK_EVENT_SET; VK_EVENT_RESET;
         VK_INCOMPLETE; VK_ERROR_OUT_OF_HOST_MEMORY;
         VK_ERROR_OUT_OF_DEVICE_MEMORY; VK_ERROR_INITIALIZATION_FAILED;
         VK_ERROR_DEVICE_LOST; VK_ERROR_MEMORY_MAP_FAILED;
         VK_ERROR_LAYER_NOT_PRESENT; VK_ERROR_EXTENSION_NOT_PRESENT;
         VK_ERROR_INCOMPATIBLE_DRIVER] ->
    result_str result = "<unknown VkResult>"%string.
Proof.
  split.
  - cbn [map]. unfold result_str.
    repeat (apply (f_equal2 cons);
            [apply switch_case; [exact VkResult_labels|simpl; tauto]|]).
    reflexivity.
  - intros result Hunknown. unfold result_str.
    apply switch_default. exact Hunknown.
Qed.

(** The name [die] prints is the one of the table, or the
    placeholder. *)
Lemma result_str_status_name (result : VkResult) :
  (forall known, In (result, known) status_names ->
                 result_str result = known) /\
  (~ In result (map fst status_names) ->
   result_str result = "<unknown VkResult>"%string).
Proof.
  split.
  - intros known Hin. unfold result_str.
    apply switch_case; [exact VkResult_labels|exact Hin].
  - intros Hunknown. unfold result_str.
    apply switch_default. exact Hunknown.
Qed.

(** C5: when the run gets as far as the first count query for
    instance extensions (the instance layers were enumerated) and the
    runtime answers that query with any status but [VK_SUCCESS], the
    program exits with status 1, has written nothing to the standard
    output, and has written to the standard error the one line
    [vkEnumerateInstanceExtensionProperties (count) failed: <name> (<code>)].
    The name is the identifier of the status in the Vulkan header for
    the statuses of [status_names], and [<unknown VkResult>] for every
    other status; the code is the status in decimal. *)
Theorem first_extension_count_failure (fuel : nat) (rt : RT)
    (count0 : Z) (written0 : list VkLayerProperties) (s0 : Run RT)
    (count1 : Z) (fetched : list VkLayerProperties) (s1 : Run RT)
    (result count : Z) (written : list VkExtensionProperties) (rt' : RT) :
  call (vkEnumerateInstanceLayerProperties None)
    {| runtime := rt; calls := [] |}
    = Returns ((VK_SUCCESS, count0, written0), s0) ->
  fetch_while_incomplete fuel zero_layer
    (fun count => call (vkEnumerateInstanceLayerProperties (Some count)))
    count0 [] s0
    = Returns ((VK_SUCCESS, count1, fetched), s1) ->
  answer (vkEnumerateInstanceExtensionProperties None None) (runtime s1)
    = ((result, count, written), rt') ->
  result <> VK_SUCCESS ->
  exists name,
    let line :=
      cat ["vkEnumerateInstanceExtensionProperties (count)"; " failed: ";
           name; " ("; fmt_d result; ")"]%string in
    main fuel rt =
      {| halt := Exited 1; stdout := Some ""%string;
         stderr := Some (line ++ nl)%string |} /\
    count_newlines line = 0%nat /\
    (forall known, In (result, known) status_names -> name = known) /\
    (~ In result (map fst status_names) ->
     name = "<unknown VkResult>"%string).
Proof.
  intros Hcount Hlayers Hquery Hfail.
  exists (result_str result). cbv zeta.
  split; [|split; [|exact (result_str_status_name result)]].
  - unfold main, GatherInfo.
    rewrite (bind_returns _ _ _ _ _ Hcount).
    rewrite Z.eqb_refl. cbn [negb layers empty_VulkanInfo].
    rewrite (bind_returns _ _ _ _ _ Hlayers).
    rewrite Z.eqb_refl. cbn [negb].
    unfold EnumerateInstanceExtensions at 1.
    unfold bind at 1. unfold bind at 1.
    rewrite call_returns, Hquery. cbn [fst snd].
    apply Z.eqb_neq in Hfail. rewrite Hfail. cbn [negb].
    unfold die. do 3 f_equal.
    change (cat ["vkEnumerateInstanceExtensionProperties (count)";
                 " failed: "; result_str result; " ("; fmt_d result; ")";
                 nl]%string)
      with (cat (["vkEnumerateInstanceExtensionProperties (count)"%string;
                  " failed: "%string; result_str result; " ("%string;
                  fmt_d result; ")"%string] ++ [nl])).
    rewrite cat_app. reflexivity.
  - rewrite !cat_cons, !count_newlines_app.
    rewrite count_newlines_result_str, count_newlines_fmt_d. reflexivity.
Qed.
End Diagnostic.

(** ** Printing loops *)

Lemma pr_bind_some {A B : Type} (m : Pr A) (k : A -> Pr B)
    (a : A) (o : list string) (b : B) (o' : list string) :
  m = Some (a, o) -> k a = Some (b, o') -> pr_bind m k = Some (b, o ++ o').
Proof. intros -> Hk. unfold pr_bind. rewrite Hk. reflexivity. Qed.

Lemma zrange_In (x : Z) (n : nat) :
  forall start, In x (zrange start n) <-> start <= x < start + Z.of_nat n.
Proof.
  induction n as [|n IH]; intros start; simpl zrange.
  - simpl. lia.
  - simpl In. rewrite IH. lia.
Qed.

Lemma zrange_NoDup (n : nat) : forall start, NoDup (zrange start n).
Proof.
  induction n as [|n IH]; intros start; simpl; constructor.
  - rewrite zrange_In. lia.
  - apply IH.
Qed.

Lemma zrange_length (n : nat) : forall start, length (zrange start n) = n.
Proof. induction n as [|n IH]; intros start; simpl; [|rewrite IH]; reflexivity. Qed.

(** A loop whose body leaves the state as it found it prints the
    chunks of its iterations in order. *)
Lemma for_range_flat_map {S : Type} (body : Z -> S -> Pr S) (s0 : S)
    (g : Z -> list string) (n : nat) :
  forall i,
    (forall x, In x (zrange i n) -> body x s0 = Some (s0, g x)) ->
    for_range n i body s0 = Some (s0, flat_map g (zrange i n)).
Proof.
  induction n as [|n IH]; intros i Hbody; simpl.
  - reflexivity.
  - apply pr_bind_some with (a := s0).
    + apply Hbody. simpl. left. reflexivity.
    + apply IH. intros x Hx. apply Hbody. simpl. right. exact Hx.
Qed.

(** A loop whose body never fails does not fail. *)
Lemma for_range_total {S : Type} (body : Z -> S -> Pr S) (n : nat) :
  forall i s,
    (forall x s, In x (zrange i n) -> body x s <> None) ->
    for_range n i body s <> None.
Proof.
  induction n as [|n IH]; intros i s Hbody; simpl.
  - discriminate.
  - unfold pr_bind.
    destruct (body i s) as [[s' o]|] eqn:Hb.
    + destruct (for_range n (i + 1) body s') as [[s'' o']|] eqn:Hrest.
      * discriminate.
      * exfalso. apply (IH (i + 1) s'); [|exact Hrest].
        intros x t Hx. apply Hbody. simpl. right. exact Hx.
    + exfalso. apply (Hbody i s); [simpl; left; reflexivity | exact Hb].
Qed.

Lemma for_each_map {A : Type} (v : list A) (body : A -> Pr unit)
    (g : A -> string) :
  (forall x, body x = Some (tt, [g x])) ->
  for_each v body = Some (tt, map g v).
Proof.
  intros Hbody. induction v as [|x v IH]; simpl.
  - reflexivity.
  - change (g x :: map g v) with ([g x] ++ map g v).
    apply pr_bind_some with (a := tt); [apply Hbody | exact IH].
Qed.

Lemma index_in_range {A : Type} (v : list A) (i : Z) (d : A) :
  0 <= i < Z.of_nat (length v) ->
  index v i = Some (nth (Z.to_nat i) v d, []).
Proof.
  intros Hi. unfold index.
  rewrite (nth_error_nth' v d) by lia. reflexivity.
Qed.

Lemma flat_map_filter {A B : Type} (p : A -> bool) (f : A -> B) (l : list A) :
  flat_map (fun x => if p x then [f x] else []) l = map f (filter p l).
Proof.
  induction l as [|x l IH]; simpl; [reflexivity|].
  destruct (p x); simpl; rewrite IH; reflexivity.
Qed.

Section Rendering.
Context {hdr : VulkanHeader}.

Lemma PrintExtensions_chunks (extensions : list VkExtensionProperties)
    (prefix : string) :
  PrintExtensions extensions prefix =
  Some (tt, map (extension_chunk prefix) extensions).
Proof.
  unfold PrintExtensions. apply for_each_map. intros e. reflexivity.
Qed.

(** The layers loop prints, for each index, the layer at that index
    followed by the extension list at the same index. *)
Lemma PrintLayers_blocks (prefix : string) :
  forall (todo done : list VkLayerProperties)
         (todo_exts done_exts : list (list VkExtensionProperties)) body,
    (forall i u,
       body i u =
       pr_bind (index (done ++ todo) i) (fun layer =>
       pr_bind (printf [layer_chunk prefix layer]) (fun _ =>
       pr_bind (index (done_exts ++ todo_exts) i) (fun exts =>
       pr_bind (match exts with
                | [] => pr_ret tt
                | _ :: _ =>
                    printf [prefix; "  Extensions ["%string;
                            fmt_u (Z.of_nat (length exts)); "]:"%string; nl]
                end) (fun _ =>
       PrintExtensions exts (prefix ++ "    ")%string))))) ->
    length done = length done_exts ->
    (length todo <= length todo_exts)%nat ->
    for_range (length todo) (Z.of_nat (length done)) body tt =
    Some (tt, flat_map (layer_block prefix) (combine todo todo_exts)).
Proof.
  induction todo as [|layer todo IH];
    intros done todo_exts done_exts body Hbody Hdone Htodo.
  - reflexivity.
  - destruct todo_exts as [|exts todo_exts]; [simpl in Htodo; lia|].
    simpl in Htodo. cbn [length for_range combine flat_map].
    apply pr_bind_some with (a := tt).
    + rewrite Hbody.
      assert (Hl : index (done ++ layer :: todo) (Z.of_nat (length done))
                   = Some (layer, [])).
      { unfold index. rewrite Nat2Z.id, nth_error_app2, Nat.sub_diag by lia.
        reflexivity. }
      assert (He : index (done_exts ++ exts :: todo_exts)
                     (Z.of_nat (length done)) = Some (exts, [])).
      { unfold index.
        rewrite Nat2Z.id, Hdone, nth_error_app2, Nat.sub_diag by lia.
        reflexivity. }
      rewrite Hl, He. unfold pr_bind at 1. cbn [printf].
      unfold pr_bind at 2. unfold pr_bind at 2.
      rewrite PrintExtensions_chunks.
      unfold layer_block.
      destruct exts as [|e exts]; reflexivity.
    + replace (Z.of_nat (length done) + 1)
        with (Z.of_nat (length (done ++ [layer])))
        by (rewrite length_app; simpl; lia).
      apply (IH (done ++ [layer]) todo_exts (done_exts ++ [exts])).
      * intros i u. rewrite Hbody, <- !app_assoc. reflexivity.
      * rewrite !length_app, Hdone. reflexivity.
      * lia.
Qed.
End Rendering.

Section Devices.
Context {hdr : VulkanHeader}.

Lemma PrintLayers_combine (layers : list VkLayerProperties)
    (extensions : list (list VkExtensionProperties)) (prefix : string) :
  (length layers <= length extensions)%nat ->
  PrintLayers layers extensions prefix =
  Some (tt, flat_map (layer_block prefix) (combine layers extensions)).
Proof.
  intros Hlen. unfold PrintLayers.
  apply (PrintLayers_blocks prefix layers [] extensions []);
    [intros i u; reflexivity | reflexivity | exact Hlen].
Qed.

Lemma pr_bind_total {A B : Type} (m : Pr A) (k : A -> Pr B) :
  m <> None -> (forall a, k a <> None) -> pr_bind m k <> None.
Proof.
  intros Hm Hk. unfold pr_bind.
  destruct m as [[a o]|]; [|contradiction].
  specialize (Hk a). destruct (k a) as [[b o']|]; [discriminate|contradiction].
Qed.

End Devices.

(** ** Memory types under their heap *)

Lemma count_occ_flat_map_none {A B : Type}
    (dec : forall x y : B, {x = y} + {x <> y}) (f : A -> list B) (b : B)
    (l : list A) :
  (forall a, In a l -> count_occ dec (f a) b = 0%nat) ->
  count_occ dec (flat_map f l) b = 0%nat.
Proof.
  induction l as [|a l IH]; intros Hf; simpl; [reflexivity|].
  rewrite count_occ_app, Hf, IH; [reflexivity| |simpl; tauto].
  intros a' Ha'. apply Hf. simpl. tauto.
Qed.

Lemma count_occ_flat_map_one {A B : Type}
    (dec : forall x y : B, {x = y} + {x <> y}) (f : A -> list B) (b : B)
    (a0 : A) (l : list A) :
  NoDup l -> In a0 l ->
  count_occ dec (f a0) b = 1%nat ->
  (forall a, In a l -> a <> a0 -> count_occ dec (f a) b = 0%nat) ->
  count_occ dec (flat_map f l) b = 1%nat.
Proof.
  induction l as [|a l IH]; intros Hnd Hin Hone Hother; [contradiction|].
  inversion Hnd as [|? ? Hnotin Hnd']; subst.
  simpl. rewrite count_occ_app.
  destruct Hin as [->|Hin].
  - rewrite Hone, count_occ_flat_map_none; [reflexivity|].
    intros a Ha. apply Hother; [simpl; tauto|].
    intros ->. contradiction.
  - rewrite Hother, IH; try assumption; [reflexivity| |simpl; tauto|].
    + intros a' Ha' Hne. apply Hother; [simpl; tauto|exact Hne].
    + intros ->. contradiction.
Qed.

Section MemoryTypes.
Context {hdr : VulkanHeader}.
Variable memory : VkPhysicalDeviceMemoryProperties.

Lemma types_of_heap_In (heap type : Z) :
  In type (types_of_heap memory heap) <->
  0 <= type < memoryTypeCount memory /\
  heapIndex (memory_type memory type) = heap.
Proof.
  unfold types_of_heap. rewrite filter_In, zrange_In, Z.eqb_eq. lia.
Qed.

Lemma types_of_heap_NoDup (heap : Z) : NoDup (types_of_heap memory heap).
Proof. apply NoDup_filter, zrange_NoDup. Qed.

(** A type is listed once for its own heap and not for another. *)
Lemma types_of_heap_count (heap type : Z) :
  0 <= type < memoryTypeCount memory ->
  count_occ Z.eq_dec (types_of_heap memory heap) type =
  if heapIndex (memory_type memory type) =? heap then 1%nat else 0%nat.
Proof.
  intros Htype.
  destruct (Z.eqb_spec (heapIndex (memory_type memory type)) heap) as [Heq|Hne].
  - apply NoDup_count_occ'; [apply types_of_heap_NoDup|].
    apply types_of_heap_In. split; assumption.
  - apply count_occ_not_In. rewrite types_of_heap_In. tauto.
Qed.

End MemoryTypes.

(** ** The heap line of the end-to-end scenario *)

(** Whatever the header values, the line of a heap of 268435456 bytes
    whose device-local bit is set shows 16 MiB. *)
Lemma heap_chunk_268435456 {hdr : VulkanHeader} (heap heap_flags : Z) :
  Z.land heap_flags VK_MEMORY_HEAP_DEVICE_LOCAL_BIT <> 0 ->
  heap_chunk heap {| size := 268435456; flags := heap_flags |} =
  cat ["    Heap "; fmt_u heap; ": 16 MiB (0x10000000 B) DEVICE_LOCAL";
       nl]%string.
Proof.
  intros Hflag. unfold heap_chunk, append_if_set. cbn [size flags].
  apply Z.eqb_neq in Hflag. rewrite Hflag. cbn [negb].
  rewrite !cat_cons. reflexivity.
Qed.

(** C3: for the snapshot with one heap of 268435456 bytes flagged
    device-local, the heap line that is printed gives the size as
    16 MiB: the byte count is divided by 0x1000000.  The line with
    256 MiB is not printed. *)
Theorem scenario_heap_line :
  exists out,
    PrintGpuInfo (hdr := vulkan_h) scenario_snapshot = Some (tt, out) /\
    In ("    Heap 0: 16 MiB (0x10000000 B) DEVICE_LOCAL" ++ nl)%string out /\
    ~ In ("    Heap 0: 256 MiB (0x10000000 B) DEVICE_LOCAL" ++ nl)%string out.
Proof.
  eexists. split; [vm_compute; reflexivity|]. split.
  - right. left. reflexivity.
  - intros Hin. simpl in Hin.
    repeat (destruct Hin as [Hin|Hin]; [discriminate Hin|]). exact Hin.
Qed.

(** Inverting a run that returned: the steps of a [bind], and the
    checks that end in [die]. *)
Ltac invert_run H :=
  repeat first
    [ match type of H with
      | (if ?b then die _ _ else _) _ = Returns _ =>
          destruct b eqn:?; [unfold die in H; discriminate H|]
      end
    | match type of H with
      | context [match ?x with pair _ _ => _ end] => is_var x; destruct x
      end
    | match type of H with
      | bind _ _ _ = Returns _ =>
          let a := fresh "a" in
          let t := fresh "t" in
          let Hstep := fresh "Hstep" in
          apply bind_inv in H; destruct H as (a & t & Hstep & H);
          cbv beta in H
      end
    | match type of H with
      | ret _ _ = Returns _ => unfold ret in H; inversion H; subst; clear H
      end ].

(** ** The queue-family query *)

Section QueueFamilies.
Context {hdr : VulkanHeader} {RT : Type} {vk : Runtime RT}.

Lemma call_logged (c : ApiCall) (s : Run RT) (r : Response c) (s' : Run RT) :
  call c s = Returns (r, s') -> calls s' = calls s ++ [c].
Proof. rewrite call_returns. intros H. inversion H. reflexivity. Qed.









End QueueFamilies.

(** ** The properties on simulated runtimes *)

(** The snapshot of the end-to-end scenario is what the gatherer builds
    from the simulated runtime of that scenario. *)
Lemma scenario_gathered :
  exists s',
    GatherInfo (hdr := vulkan_h) 1 empty_VulkanInfo
      {| runtime := [scenario]; calls := [] |}
    = Returns ({| extensions := []; layers := []; layer_extensions := [];
                  gpus := [scenario_snapshot] |}, s').
Proof. eexists. vm_compute. reflexivity. Qed.

(** The whole run of the end-to-end scenario: the memory type line and
    the queue family lines are those the specification expects; the
    heap line shows 16 MiB. *)
Example scenario_report :
  main (hdr := vulkan_h) 1 [scenario] =
    {| halt := Exited 0;
       stdout :=
         Some
           (cat ["Instance Extensions [0]:"; nl;
              "PhysicalDevices [1]:"; nl;
              "  "; dquote; "fake"; dquote;
              " (DISCRETE_GPU) 1.0.0/0x1 [10de:0001]"; nl;
              "    Heap 0: 16 MiB (0x10000000 B) DEVICE_LOCAL"; nl;
              "      Type 0: DEVICE_LOCAL HOST_VISIBLE"; nl;
              "    Queue Family 0: 1x GC__"; nl;
              "      timestampValidBits: 36b"; nl;
              "      minImageTransferGranularity: (1,1,1)"; nl]%string);
       stderr := Some ""%string |}.
Proof. vm_compute. reflexivity. Qed.

(** A layer is removed after the fetch that was answered
    [VK_INCOMPLETE]: the successful fetch writes one element and
    reports a count of 1, and the vector keeps the two elements that
    were last required; the second one is the value-initialised
    element. *)
Lemma successful_fetch_keeps_size :
  exists s_end,
    fetch_while_incomplete (hdr := vulkan_h) 2 zero_layer
      (fun count => call (vkEnumerateInstanceLayerProperties (Some count)))
      1 []
      {| runtime := [two_layer_world; one_layer_world]; calls := [] |}
    = Returns ((0, 1, [layer_a; zero_layer]), s_end).
Proof. eexists. vm_compute. reflexivity. Qed.


(** The failure scenario of the specification: the status is
    [VK_ERROR_INITIALIZATION_FAILED]. *)
Lemma first_extension_count_failure_scenario :
  main (hdr := vulkan_h) 1 [failing_scenario] =
    {| halt := Exited 1; stdout := Some ""%string;
       stderr :=
         Some ("vkEnumerateInstanceExtensionProperties (count) failed: "
               ++ "VK_ERROR_INITIALIZATION_FAILED (-3)" ++ nl)%string |} /\
  count_newlines
    ("vkEnumerateInstanceExtensionProperties (count) failed: "
     ++ "VK_ERROR_INITIALIZATION_FAILED (-3)")%string = 0%nat.
Proof.
  destruct (first_extension_count_failure (hdr := vulkan_h) 1
              [failing_scenario]
              0 []
              {| runtime := [failing_scenario];
                 calls := [vkEnumerateInstanceLayerProperties None] |}
              0 []
              {| runtime := [failing_scenario];
                 calls := [vkEnumerateInstanceLayerProperties None;
                           vkEnumerateInstanceLayerProperties (Some 0)] |}
              (-3) 0 [] [failing_scenario])
    as (name & Hmain & Hline & Hknown & _);
    [reflexivity|reflexivity|reflexivity|discriminate|].
  rewrite (Hknown "VK_ERROR_INITIALIZATION_FAILED"%string) in Hmain, Hline
    by (simpl; tauto).
  split; [exact Hmain|exact Hline].
Defined.

(** ** Gathering from a steady runtime *)

Lemma assign_middle {A : Type} (a b : list A) (x y : A) :
  assign (length a) x (a ++ y :: b) = a ++ x :: b.
Proof.
  unfold assign. rewrite firstn_app, firstn_all, Nat.sub_diag. simpl firstn.
  rewrite app_nil_r. f_equal. f_equal.
  rewrite skipn_app, skipn_all2 by lia.
  replace (S (length a) - length a)%nat with 1%nat by lia. reflexivity.
Qed.

Section Steady.
Context {hdr : VulkanHeader}.
Variable w : World.
Hypothesis Hhealthy : healthy w.

Lemma call_steady (c : ApiCall) : steady_result w (call c) (fake_answer w c).
Proof.
  intros [rt log] Hrt. simpl in Hrt. subst rt.
  eexists. split; reflexivity.
Qed.

Lemma ret_steady {A : Type} (a : A) : steady_result w (ret a) a.
Proof. intros s Hrt. exists s. split; [reflexivity|exact Hrt]. Qed.

Lemma bind_steady {A B : Type} (m : M (list World) A)
    (k : A -> M (list World) B) (a : A) (b : B) :
  steady_result w m a -> steady_result w (k a) b ->
  steady_result w (bind m k) b.
Proof.
  intros Hm Hk s Hrt.
  destruct (Hm s Hrt) as (s1 & Hrun1 & Hrt1).
  destruct (Hk s1 Hrt1) as (s2 & Hrun2 & Hrt2).
  exists s2. split; [|exact Hrt2].
  rewrite (bind_returns _ _ _ _ _ Hrun1). exact Hrun2.
Qed.

Lemma enumerate_count {A : Type} (available : list A) :
  enumerate None available None =
  (VK_SUCCESS, Z.of_nat (length available), []).
Proof. reflexivity. Qed.

Lemma enumerate_all {A : Type} (available : list A) :
  enumerate None available (Some (Z.of_nat (length available))) =
  (VK_SUCCESS, Z.of_nat (length available), available).
Proof. unfold enumerate. rewrite Z.leb_refl. reflexivity. Qed.

(** A fetch that succeeds at once with the whole list ends the loop. *)
Lemma fetch_while_incomplete_steady {A : Type} (d : A)
    (fetch : Z -> M (list World) (VkResult * Z * list A)) (fuel : nat)
    (available v : list A) :
  steady_result w (fetch (Z.of_nat (length available)))
    (VK_SUCCESS, Z.of_nat (length available), available) ->
  steady_result w
    (fetch_while_incomplete (S fuel) d fetch
       (Z.of_nat (length available)) v)
    (VK_SUCCESS, Z.of_nat (length available), available).
Proof.
  intros Hfetch. simpl.
  eapply bind_steady; [exact Hfetch|]. cbv beta iota.
  rewrite VK_SUCCESS_not_INCOMPLETE.
  rewrite store_all by (rewrite resize_length; lia).
  apply ret_steady.
Qed.

Lemma EnumerateInstanceExtensions_steady (fuel : nat)
    (layer_name : option string) (v : list VkExtensionProperties) :
  steady_result w (EnumerateInstanceExtensions (S fuel) layer_name v)
    (instance_extensions w layer_name).
Proof.
  unfold EnumerateInstanceExtensions.
  eapply bind_steady; [apply call_steady|].
  cbn [fake_answer]. rewrite Hhealthy, enumerate_count.
  rewrite Z.eqb_refl. cbn [negb].
  eapply bind_steady.
  - apply fetch_while_incomplete_steady.
    pose proof (call_steady
                  (vkEnumerateInstanceExtensionProperties layer_name
                     (Some (Z.of_nat (length (instance_extensions w layer_name))))))
      as Hcall.
    cbn [fake_answer] in Hcall. rewrite Hhealthy, enumerate_all in Hcall.
    exact Hcall.
  - cbv beta iota. rewrite Z.eqb_refl. apply ret_steady.
Qed.

Lemma EnumerateDeviceExtensions_steady (fuel : nat) (gpu : VkPhysicalDevice)
    (layer_name : option string) (v : list VkExtensionProperties) :
  steady_result w (EnumerateDeviceExtensions (S fuel) gpu layer_name v)
    (fake_device_extensions (find_gpu w gpu) layer_name).
Proof.
  unfold EnumerateDeviceExtensions.
  eapply bind_steady; [apply call_steady|].
  cbn [fake_answer]. rewrite Hhealthy, enumerate_count.
  rewrite Z.eqb_refl. cbn [negb].
  eapply bind_steady.
  - apply fetch_while_incomplete_steady.
    pose proof (call_steady
                  (vkEnumerateDeviceExtensionProperties gpu layer_name
                     (Some (Z.of_nat
                              (length (fake_device_extensions (find_gpu w gpu)
                                         layer_name))))))
      as Hcall.
    cbn [fake_answer] in Hcall. rewrite Hhealthy, enumerate_all in Hcall.
    exact Hcall.
  - cbv beta iota. rewrite Z.eqb_refl. apply ret_steady.
Qed.

(** A loop that fills the element at each index from the input at that
    index. *)
Lemma fill_loop_steady {X Y : Type} (zero : Y)
    (step : X -> Y -> M (list World) Y) (f : X -> Y)
    (no_input no_element : M (list World) (list Y)) :
  (forall x, steady_result w (step x zero) (f x)) ->
  forall (todo done : list X) (filled : list Y),
    length filled = length done ->
    steady_result w
      (for_index (length todo) (length done)
         (fun i st =>
            match nth_error (done ++ todo) i with
            | Some x =>
                match nth_error st i with
                | Some y => bind (step x y) (fun y' => ret (assign i y' st))
                | None => no_element
                end
            | None => no_input
            end)
         (filled ++ repeat zero (length todo)))
      (filled ++ map f todo).
Proof.
  intros Hstep. induction todo as [|x todo IH]; intros done filled Hlen.
  - simpl. apply ret_steady.
  - cbn [length for_index repeat map].
    eapply bind_steady.
    + rewrite nth_error_app2, Nat.sub_diag by lia. cbn [nth_error].
      rewrite <- Hlen, nth_error_app2, Nat.sub_diag by lia. cbn [nth_error].
      eapply bind_steady; [apply Hstep|]. apply ret_steady.
    + rewrite assign_middle.
      specialize (IH (done ++ [x]) (filled ++ [f x])).
      rewrite !length_app, <- !app_assoc in IH. cbn [length app] in IH.
      replace (length done + 1)%nat with (S (length done)) in IH by lia.
      apply IH. lia.
Qed.
Lemma GatherGpuInfo_steady (fuel : nat) (gpu : VkPhysicalDevice) :
  steady_result w (GatherGpuInfo (S fuel) gpu zero_GpuInfo)
    (snapshot_of_gpu (find_gpu w gpu)).
Proof.
  unfold GatherGpuInfo.
  eapply bind_steady; [apply call_steady|].
  eapply bind_steady; [apply call_steady|].
  eapply bind_steady; [apply call_steady|].
  eapply bind_steady; [apply call_steady|]. cbn [fake_answer].
  eapply bind_steady; [apply call_steady|]. cbn [fake_answer].
  rewrite Nat2Z.id, firstn_all.
  rewrite store_all by (rewrite resize_length; lia).
  eapply bind_steady; [apply call_steady|].
  cbn [fake_answer]. rewrite Hhealthy, enumerate_count.
  rewrite Z.eqb_refl. cbn [negb].
  eapply bind_steady.
  { apply fetch_while_incomplete_steady.
    pose proof (call_steady
                  (vkEnumerateDeviceLayerProperties gpu
                     (Some (Z.of_nat
                              (length (fake_device_layers (find_gpu w gpu)))))))
      as Hcall.
    cbn [fake_answer] in Hcall. rewrite Hhealthy, enumerate_all in Hcall.
    exact Hcall. }
  cbv beta iota. rewrite Z.eqb_refl. cbn [negb].
  eapply bind_steady; [apply EnumerateDeviceExtensions_steady|].
  eapply bind_steady.
  { cbn [gpu_layer_extensions zero_GpuInfo]. rewrite resize_nil, Nat2Z.id.
    apply (fill_loop_steady []
             (fun layer exts =>
                EnumerateDeviceExtensions (S fuel) gpu
                  (Some (layerName layer)) exts)
             (fun layer =>
                fake_device_extensions (find_gpu w gpu)
                  (Some (layerName layer)))
             undefined undefined
             (fun layer => EnumerateDeviceExtensions_steady fuel gpu _ _)
             (fake_device_layers (find_gpu w gpu)) [] [] eq_refl). }
  eapply bind_steady; [apply call_steady|].
  cbn [fake_answer]. rewrite Hhealthy. cbn [create].
  rewrite Z.eqb_refl. cbn [negb].
  eapply bind_steady; [apply call_steady|].
  apply ret_steady.
Qed.

(** On a steady, healthy runtime the gatherer returns, and the snapshot
    is what the runtime offers: in particular the extension list at
    each index is the one the runtime has for the layer named at that
    index. *)
Lemma GatherInfo_steady (fuel : nat) :
  steady_result w (GatherInfo (S fuel) empty_VulkanInfo)
    (snapshot_of_world w).
Proof.
  unfold GatherInfo.
  eapply bind_steady; [apply call_steady|].
  cbn [fake_answer]. rewrite Hhealthy, enumerate_count.
  rewrite Z.eqb_refl. cbn [negb].
  eapply bind_steady.
  { apply fetch_while_incomplete_steady.
    pose proof (call_steady
                  (vkEnumerateInstanceLayerProperties
                     (Some (Z.of_nat (length (instance_layers w))))))
      as Hcall.
    cbn [fake_answer] in Hcall. rewrite Hhealthy, enumerate_all in Hcall.
    exact Hcall. }
  cbv beta iota. rewrite Z.eqb_refl. cbn [negb].
  eapply bind_steady; [apply EnumerateInstanceExtensions_steady|].
  eapply bind_steady.
  { cbn [layer_extensions empty_VulkanInfo]. rewrite resize_nil, Nat2Z.id.
    apply (fill_loop_steady []
             (fun layer exts =>
                EnumerateInstanceExtensions (S fuel)
                  (Some (layerName layer)) exts)
             (fun layer => instance_extensions w (Some (layerName layer)))
             undefined undefined
             (fun layer => EnumerateInstanceExtensions_steady fuel _ _)
             (instance_layers w) [] [] eq_refl). }
  eapply bind_steady; [apply call_steady|].
  cbn [fake_answer]. rewrite Hhealthy. cbn [create].
  rewrite Z.eqb_refl. cbn [negb].
  eapply bind_steady; [apply call_steady|].
  cbn [fake_answer]. rewrite Hhealthy, enumerate_count.
  rewrite Z.eqb_refl. cbn [negb].
  eapply bind_steady.
  { apply fetch_while_incomplete_steady.
    pose proof (call_steady
                  (vkEnumeratePhysicalDevices 1
                     (Some (Z.of_nat
                              (length (map fst (physical_devices w)))))))
      as Hcall.
    cbn [fake_answer] in Hcall. rewrite Hhealthy, enumerate_all in Hcall.
    exact Hcall. }
  cbv beta iota. rewrite Z.eqb_refl. cbn [negb].
  eapply bind_steady.
  { cbn [gpus empty_VulkanInfo]. rewrite resize_nil, Nat2Z.id.
    apply (fill_loop_steady zero_GpuInfo
             (fun gpu gpu_info => GatherGpuInfo (S fuel) gpu gpu_info)
             (fun gpu => snapshot_of_gpu (find_gpu w gpu))
             undefined throw
             (fun gpu => GatherGpuInfo_steady fuel gpu)
             (map fst (physical_devices w)) [] [] eq_refl). }
  eapply bind_steady; [apply call_steady|].
  unfold snapshot_of_world. cbn [app]. rewrite map_map.
  apply ret_steady.
Qed.
End Steady.

(** * Further properties *)

(** ** The fields of a version word *)

(** X1: for every 32-bit version word the three extractors give a major
    number below 2^10, a minor number below 2^10 and a patch number
    below 2^12, and the word is major * 2^22 + minor * 2^12 + patch:
    the three fields cover the word and do not overlap. *)
Theorem extract_fields_decompose (version : Z) :
  0 <= version < 2 ^ 32 ->
  0 <= ExtractMajorVersion version < 2 ^ 10 /\
  0 <= ExtractMinorVersion version < 2 ^ 10 /\
  0 <= ExtractPatchVersion version < 2 ^ 12 /\
  version =
    ExtractMajorVersion version * 2 ^ 22
    + ExtractMinorVersion version * 2 ^ 12
    + ExtractPatchVersion version.
Proof.
  intros Hversion.
  unfold ExtractMajorVersion, ExtractMinorVersion, ExtractPatchVersion.
  change 0x3FF with (Z.ones 10). change 0xFFF with (Z.ones 12).
  rewrite !Z.land_ones, !Z.shiftr_div_pow2 by lia.
  rewrite Z.pow_0_r, Z.div_1_r.
  pose proof (Z.mod_pos_bound (version / 2 ^ 22) (2 ^ 10) ltac:(lia)).
  pose proof (Z.mod_pos_bound (version / 2 ^ 12) (2 ^ 10) ltac:(lia)).
  pose proof (Z.mod_pos_bound version (2 ^ 12) ltac:(lia)).
  repeat split; try lia.
  assert (Hhigh : version / 2 ^ 22 < 2 ^ 10)
    by (apply Z.div_lt_upper_bound; lia).
  rewrite (Z.mod_small (version / 2 ^ 22)) by (split; [apply Z.div_pos|]; lia).
  assert (Hsplit : version / 2 ^ 22 = version / 2 ^ 12 / 2 ^ 10)
    by (rewrite Z.div_div by lia; reflexivity).
  pose proof (Z.div_mod (version / 2 ^ 12) (2 ^ 10) ltac:(lia)).
  pose proof (Z.div_mod version (2 ^ 12) ltac:(lia)).
  lia.
Qed.

(** The largest 32-bit word. *)
Lemma extract_fields_decompose_max :
  0 <= ExtractMajorVersion 4294967295 < 2 ^ 10 /\
  0 <= ExtractMinorVersion 4294967295 < 2 ^ 10 /\
  0 <= ExtractPatchVersion 4294967295 < 2 ^ 12 /\
  4294967295 =
    ExtractMajorVersion 4294967295 * 2 ^ 22
    + ExtractMinorVersion 4294967295 * 2 ^ 12
    + ExtractPatchVersion 4294967295.
Proof. apply (extract_fields_decompose 4294967295). lia. Defined.

(** The status of the header that the [switch] of [die] leaves out. *)
Lemma result_str_feature_not_present :
  result_str (hdr := vulkan_h) (-8) = "<unknown VkResult>"%string.
Proof.
  apply (proj2 (result_str_names (hdr := vulkan_h))).
  simpl. intuition discriminate.
Defined.

(** ** A runtime that never has enough *)

Section NeverEnough.
Context {hdr : VulkanHeader} {RT : Type} {A : Type}.
Variable d : A.
Variable fetch : Z -> M RT (VkResult * Z * list A).

(** X3: the retry loop has no bound of its own.  When every fetch is
    answered [VK_INCOMPLETE], the loop is still running after any
    number of iterations: it neither returns nor reports an error. *)
Theorem incomplete_forever (fuel : nat) :
  (forall count s,
     exists count' written s',
       fetch count s = Returns ((VK_INCOMPLETE, count', written), s')) ->
  forall count v s,
    fetch_while_incomplete fuel d fetch count v s = Running.
Proof.
  intros Hfetch. induction fuel as [|fuel IH]; intros count v s.
  - reflexivity.
  - simpl. destruct (Hfetch count s) as (count' & written & s' & Hanswer).
    rewrite (bind_returns _ _ _ _ _ Hanswer).
    rewrite Z.eqb_refl. apply IH.
Qed.
End NeverEnough.

(** On the runtime that never has enough, the enumeration of the
    instance layers is still going after a thousand fetches. *)
Lemma incomplete_forever_stubborn :
  fetch_while_incomplete (hdr := vulkan_h) 1000 zero_layer
    (fun count =>
       call (vk := stubborn_runtime)
         (vkEnumerateInstanceLayerProperties (Some count)))
    1 [] {| runtime := tt; calls := [] |}
  = Running.
Proof.
  apply (incomplete_forever (hdr := vulkan_h) zero_layer
           (fun count =>
              call (vk := stubborn_runtime)
                (vkEnumerateInstanceLayerProperties (Some count)))
           1000).
  intros count [[] log]. eexists. eexists. eexists. reflexivity.
Defined.

(** ** How the retry loop ends *)

Section LoopEnds.
Context {hdr : VulkanHeader} {RT : Type} {A : Type}.
Variable d : A.
Variable fetch : Z -> M RT (VkResult * Z * list A).

(** After [n] answers of [VK_INCOMPLETE], the first other answer ends
    the loop, whatever its status. *)
Lemma fetch_while_incomplete_ends (n fuel : nat) (count : Z) (v : list A)
    (s : Run RT) (count' : Z) (v' : list A) (s' : Run RT)
    (result count_written : Z) (written : list A) (s_end : Run RT) :
  incompletes d fetch n count v s = Some (count', v', s') ->
  fetch count' s' = Returns ((result, count_written, written), s_end) ->
  result <> VK_INCOMPLETE ->
  (n < fuel)%nat ->
  fetch_while_incomplete fuel d fetch count v s =
  Returns ((result, count_written, store written (resize count' d v')), s_end).
Proof.
  intros Hrun Hlast Hresult Hfuel.
  replace fuel with (n + S (fuel - S n))%nat by lia.
  rewrite (fetch_while_incomplete_after d fetch n _ _ _ _ _ _ _ Hrun).
  simpl. rewrite (bind_returns _ _ _ _ _ Hlast).
  apply Z.eqb_neq in Hresult. rewrite Hresult. reflexivity.
Qed.

(** A loop that returned went through some answers of [VK_INCOMPLETE]
    and one other answer. *)
Lemma fetch_while_incomplete_returned (fuel : nat) :
  forall (count : Z) (v : list A) (s : Run RT)
         (result count_written : Z) (v_end : list A) (s_end : Run RT),
    fetch_while_incomplete fuel d fetch count v s =
      Returns ((result, count_written, v_end), s_end) ->
    exists n count' v' s' written,
      (n < fuel)%nat /\
      incompletes d fetch n count v s = Some (count', v', s') /\
      fetch count' s' = Returns ((result, count_written, written), s_end) /\
      result <> VK_INCOMPLETE /\
      v_end = store written (resize count' d v').
Proof.
  induction fuel as [|fuel IH];
    intros count v s result count_written v_end s_end Hloop.
  - discriminate Hloop.
  - simpl in Hloop. apply bind_inv in Hloop.
    destruct Hloop as ([[result1 count1] written1] & s1 & Hfetch & Hrest).
    destruct (Z.eqb_spec result1 VK_INCOMPLETE) as [Heq|Hne].
    + apply IH in Hrest.
      destruct Hrest as (n & count' & v' & s' & written & Hn & Hrun & Hlast
                         & Hresult & Hend).
      exists (S n), count', v', s', written.
      split; [lia|]. split; [|repeat split; assumption].
      simpl. rewrite Hfetch, Heq, Z.eqb_refl. exact Hrun.
    + unfold ret in Hrest. inversion Hrest; subst.
      exists 0%nat, count, v, s, written1.
      split; [lia|]. split; [reflexivity|]. repeat split; assumption.
Qed.
End LoopEnds.

Section EnumerationEnds.
Context {hdr : VulkanHeader} {RT : Type} {vk : Runtime RT}.

(** X4: a fetch of [EnumerateInstanceExtensions] that is answered with
    a status other than [VK_SUCCESS] and [VK_INCOMPLETE], at once or
    after any number of [VK_INCOMPLETE] answers, ends the program: exit
    status 1 and the diagnostic of
    [vkEnumerateInstanceExtensionProperties (data)] with that status. *)
Theorem EnumerateInstanceExtensions_fetch_failure (n fuel : nat)
    (layer_name : option string) (v : list VkExtensionProperties)
    (s : Run RT) (count : Z) (written0 : list VkExtensionProperties)
    (s0 : Run RT) (count' : Z) (v' : list VkExtensionProperties)
    (s1 : Run RT) (result count_written : Z)
    (written : list VkExtensionProperties) (s2 : Run RT) :
  call (vkEnumerateInstanceExtensionProperties layer_name None) s
    = Returns ((VK_SUCCESS, count, written0), s0) ->
  incompletes zero_extension
    (fun count =>
       call (vkEnumerateInstanceExtensionProperties layer_name (Some count)))
    n count v s0
    = Some (count', v', s1) ->
  call (vkEnumerateInstanceExtensionProperties layer_name (Some count')) s1
    = Returns ((result, count_written, written), s2) ->
  result <> VK_SUCCESS -> result <> VK_INCOMPLETE ->
  (n < fuel)%nat ->
  EnumerateInstanceExtensions fuel layer_name v s =
  Exits 1
    (diagnostic "vkEnumerateInstanceExtensionProperties (data)" result ++ nl).
Proof.
  intros Hcount Hrun Hlast Hfail Hcomplete Hfuel.
  unfold EnumerateInstanceExtensions.
  rewrite (bind_returns _ _ _ _ _ Hcount).
  rewrite Z.eqb_refl. cbn [negb].
  rewrite (bind_returns _ _ _ _ _
             (fetch_while_incomplete_ends _ _ n fuel _ _ _ _ _ _ _ _ _ _
                Hrun Hlast Hcomplete Hfuel)).
  apply Z.eqb_neq in Hfail. rewrite Hfail. cbn [negb].
  unfold die, diagnostic. f_equal.
  change (cat ["vkEnumerateInstanceExtensionProperties (data)"%string;
               " failed: "%string; result_str result; " ("%string;
               fmt_d result; ")"%string; nl])
    with (cat (["vkEnumerateInstanceExtensionProperties (data)"%string;
                " failed: "%string; result_str result; " ("%string;
                fmt_d result; ")"%string] ++ [nl])).
  rewrite cat_app. reflexivity.
Qed.

(** X5: [EnumerateDeviceExtensions] returns a list only after a count
    query answered [VK_SUCCESS] and a last fetch answered [VK_SUCCESS],
    with nothing but [VK_INCOMPLETE] answers between them; the list is
    the vector as that last fetch left it, of the size of the count
    held before that fetch. *)
Theorem EnumerateDeviceExtensions_returned (fuel : nat)
    (gpu : VkPhysicalDevice) (layer_name : option string)
    (v exts : list VkExtensionProperties) (s s_end : Run RT) :
  EnumerateDeviceExtensions fuel gpu layer_name v s = Returns (exts, s_end) ->
  exists count written0 s0 n count' v' s1 count_written written,
    call (vkEnumerateDeviceExtensionProperties gpu layer_name None) s
      = Returns ((VK_SUCCESS, count, written0), s0) /\
    (n < fuel)%nat /\
    incompletes zero_extension
      (fun count =>
         call (vkEnumerateDeviceExtensionProperties gpu layer_name
                 (Some count)))
      n count v s0
      = Some (count', v', s1) /\
    call (vkEnumerateDeviceExtensionProperties gpu layer_name (Some count')) s1
      = Returns ((VK_SUCCESS, count_written, written), s_end) /\
    exts = store written (resize count' zero_extension v') /\
    length exts = Z.to_nat count'.
Proof.
  intros Hrun. unfold EnumerateDeviceExtensions in Hrun.
  apply bind_inv in Hrun.
  destruct Hrun as ([[result count] written0] & s0 & Hcount & Hrun).
  destruct (Z.eqb_spec result VK_SUCCESS) as [->|Hne];
    [|discriminate Hrun].
  cbn [negb] in Hrun. apply bind_inv in Hrun.
  destruct Hrun as ([[result' count_written] v_end] & s1 & Hloop & Hrun).
  destruct (Z.eqb_spec result' VK_SUCCESS) as [->|Hne];
    [|discriminate Hrun].
  cbn [negb] in Hrun. unfold ret in Hrun. inversion Hrun; subst.
  apply fetch_while_incomplete_returned in Hloop.
  destruct Hloop as (n & count' & v' & s' & written & Hn & Hinc & Hlast
                     & _ & Hend).
  exists count, written0, s0, n, count', v', s', count_written, written.
  repeat split; try assumption.
  rewrite Hend, store_length, resize_length. reflexivity.
Qed.
End EnumerationEnds.

(** The fetch of the instance extensions fails with
    [VK_ERROR_OUT_OF_HOST_MEMORY]. *)
Lemma EnumerateInstanceExtensions_fetch_failure_scenario :
  EnumerateInstanceExtensions (hdr := vulkan_h) 1 None []
    {| runtime := [failing_fetch]; calls := [] |}
  = Exits 1
      (diagnostic (hdr := vulkan_h)
         "vkEnumerateInstanceExtensionProperties (data)" (-1) ++ nl).
Proof.
  apply (EnumerateInstanceExtensions_fetch_failure (hdr := vulkan_h)
           0 1 None []
           {| runtime := [failing_fetch]; calls := [] |}
           1 []
           {| runtime := [failing_fetch];
              calls := [vkEnumerateInstanceExtensionProperties None None] |}
           1 []
           {| runtime := [failing_fetch];
              calls := [vkEnumerateInstanceExtensionProperties None None] |}
           (-1) 0 []
           {| runtime := [failing_fetch];
              calls := [vkEnumerateInstanceExtensionProperties None None;
                        vkEnumerateInstanceExtensionProperties None (Some 1)] |}).
  - reflexivity.
  - reflexivity.
  - reflexivity.
  - discriminate.
  - discriminate.
  - lia.
Defined.

(** The device extensions of a layer of [layered_world]. *)
Lemma EnumerateDeviceExtensions_returned_layered :
  exists count written0 s0 n count' v' s1 count_written written s_end,
    call (vkEnumerateDeviceExtensionProperties 7 (Some "layer_b"%string) None)
      {| runtime := [layered_world]; calls := [] |}
      = Returns ((VK_SUCCESS (VulkanHeader := vulkan_h), count, written0), s0) /\
    (n < 1)%nat /\
    incompletes (hdr := vulkan_h) zero_extension
      (fun count =>
         call (vkEnumerateDeviceExtensionProperties 7
                 (Some "layer_b"%string) (Some count)))
      n count [] s0
      = Some (count', v', s1) /\
    call (vkEnumerateDeviceExtensionProperties 7 (Some "layer_b"%string)
            (Some count')) s1
      = Returns ((VK_SUCCESS (VulkanHeader := vulkan_h), count_written,
                  written), s_end) /\
    extensions_of (Some "layer_b"%string)
      = store written (resize count' zero_extension v') /\
    length (extensions_of (Some "layer_b"%string)) = Z.to_nat count'.
Proof.
  assert (Hrun : exists s_end,
            EnumerateDeviceExtensions (hdr := vulkan_h) 1 7
              (Some "layer_b"%string) []
              {| runtime := [layered_world]; calls := [] |}
            = Returns (extensions_of (Some "layer_b"%string), s_end))
    by (eexists; vm_compute; reflexivity).
  destruct Hrun as (s_end & Hrun).
  destruct (EnumerateDeviceExtensions_returned (hdr := vulkan_h)
              1 7 _ _ _ _ _ Hrun)
    as (count & written0 & s0 & n & count' & v' & s1 & count_written
        & written & H).
  exists count, written0, s0, n, count', v', s1, count_written, written, s_end.
  exact H.
Defined.

(** ** How the program ends *)

Section Endings.
Context {hdr : VulkanHeader} {RT : Type} {vk : Runtime RT}.














End Endings.

(** ** The whole report *)

(** A loop fails when the body of one of its iterations fails in every
    state. *)
Lemma for_range_fails {S : Type} (body : Z -> S -> Pr S) (x : Z) (n : nat) :
  (forall s, body x s = None) ->
  forall i s, In x (zrange i n) -> for_range n i body s = None.
Proof.
  intros Hx. induction n as [|n IH]; intros i s Hin; simpl in *.
  - contradiction.
  - unfold pr_bind. destruct Hin as [->|Hin].
    + rewrite Hx. reflexivity.
    + destruct (body i s) as [[s' o]|]; [|reflexivity].
      rewrite (IH _ _ Hin). reflexivity.
Qed.

Lemma for_each_flat_map {A : Type} (v : list A) (body : A -> Pr unit)
    (g : A -> list string) :
  (forall x, In x v -> body x = Some (tt, g x)) ->
  for_each v body = Some (tt, flat_map g v).
Proof.
  induction v as [|x v IH]; intros Hbody; simpl.
  - reflexivity.
  - apply pr_bind_some with (a := tt).
    + apply Hbody. simpl. tauto.
    + apply IH. intros y Hy. apply Hbody. simpl. tauto.
Qed.

Lemma for_each_fails {A : Type} (v : list A) (body : A -> Pr unit) (x : A) :
  In x v -> body x = None -> for_each v body = None.
Proof.
  induction v as [|y v IH]; intros Hin Hx; simpl in *.
  - contradiction.
  - unfold pr_bind. destruct Hin as [->|Hin].
    + rewrite Hx. reflexivity.
    + destruct (body y) as [[u o]|]; [|reflexivity].
      rewrite (IH Hin Hx). reflexivity.
Qed.

Lemma index_out_of_range {A : Type} (v : list A) (i : Z) :
  (length v <= Z.to_nat i)%nat -> index v i = None.
Proof.
  intros Hi. unfold index.
  apply nth_error_None in Hi. rewrite Hi. reflexivity.
Qed.

Section WholeReport.
Context {hdr : VulkanHeader}.

Lemma PrintLayers_fails (layers : list VkLayerProperties)
    (extensions : list (list VkExtensionProperties)) (prefix : string) :
  (length extensions < length layers)%nat ->
  PrintLayers layers extensions prefix = None.
Proof.
  intros Hlt. unfold PrintLayers.
  apply for_range_fails with (x := Z.of_nat (length extensions)).
  - intros u.
    destruct (nth_error layers (length extensions)) as [layer|] eqn:Hlayer.
    + unfold index at 1. rewrite Nat2Z.id, Hlayer.
      rewrite (index_out_of_range extensions) by (rewrite Nat2Z.id; lia).
      reflexivity.
    + apply nth_error_None in Hlayer. lia.
  - apply zrange_In. lia.
Qed.

(** X7: [PrintLayers] prints, for each layer in order, the block of
    the layer and of the extension list at the same index, when there
    is an extension list for every layer; with fewer extension lists
    than layers it indexes the vector of lists out of range. *)
Theorem PrintLayers_defined (layers : list VkLayerProperties)
    (extensions : list (list VkExtensionProperties)) (prefix : string) :
  PrintLayers layers extensions prefix =
  if (length layers <=? length extensions)%nat
  then Some (tt, flat_map (layer_block prefix) (combine layers extensions))
  else None.
Proof.
  destruct (Nat.leb_spec (length layers) (length extensions)) as [Hle|Hlt].
  - apply PrintLayers_combine. exact Hle.
  - apply PrintLayers_fails. exact Hlt.
Qed.

Lemma flat_map_singleton_map {A B : Type} (f : A -> B) (l : list A) :
  flat_map (fun x => [f x]) l = map f l.
Proof. induction l as [|x l IH]; simpl; [|rewrite IH]; reflexivity. Qed.

(** The part of [PrintGpuInfo] that prints the layers. *)
Lemma headed_layers_printed (heading prefix : string)
    (layers : list VkLayerProperties)
    (layer_extensions : list (list VkExtensionProperties)) :
  match layers with
  | [] => pr_ret tt
  | _ :: _ =>
      pr_bind
        (printf [heading; fmt_u (Z.of_nat (length layers)); "]:"%string; nl])
        (fun _ => PrintLayers layers layer_extensions prefix)
  end =
  if (length layers <=? length layer_extensions)%nat
  then Some (tt, headed_layers heading prefix layers layer_extensions)
  else None.
Proof.
  destruct layers as [|layer layers]; [reflexivity|].
  destruct (Nat.leb_spec (length (layer :: layers)) (length layer_extensions))
    as [Hle|Hlt].
  - rewrite (PrintLayers_combine _ _ _ Hle). reflexivity.
  - rewrite (PrintLayers_fails _ _ _ Hlt). reflexivity.
Qed.

Lemma headed_extensions_printed (heading prefix : string)
    (exts : list VkExtensionProperties) :
  match exts with
  | [] => pr_ret tt
  | _ :: _ =>
      pr_bind
        (printf [heading; fmt_u (Z.of_nat (length exts)); "]:"%string; nl])
        (fun _ => PrintExtensions exts prefix)
  end = Some (tt, headed_extensions heading prefix exts).
Proof.
  destruct exts as [|e exts]; [reflexivity|].
  rewrite PrintExtensions_chunks. reflexivity.
Qed.

Lemma PrintGpuInfo_report_if (info : GpuInfo) :
  PrintGpuInfo info =
  if printable info then Some (tt, gpu_report info) else None.
Proof.
  unfold PrintGpuInfo, printable, gpu_report.
  match goal with
  | |- context [for_range (Z.to_nat (memoryHeapCount _)) 0 ?body ?s0] =>
      assert (Hheaps :
        for_range (Z.to_nat (memoryHeapCount (memory info))) 0 body s0 =
        if ((Z.to_nat (memoryHeapCount (memory info))
             <=? length (memoryHeaps (memory info)))%nat
            && ((Z.to_nat (memoryHeapCount (memory info)) =? 0)%nat
                || (Z.to_nat (memoryTypeCount (memory info))
                    <=? length (memoryTypes (memory info)))%nat))%bool
        then Some (""%string, memory_report (memory info))
        else None)
  end.
  { destruct (Nat.leb_spec (Z.to_nat (memoryHeapCount (memory info)))
                (length (memoryHeaps (memory info)))) as [Hhc|Hhc];
      cbn [andb].
    - destruct (Nat.eqb_spec (Z.to_nat (memoryHeapCount (memory info))) 0)
        as [Hzero|Hpos]; cbn [orb].
      + unfold memory_report. rewrite Hzero. reflexivity.
      + destruct (Nat.leb_spec (Z.to_nat (memoryTypeCount (memory info)))
                    (length (memoryTypes (memory info)))) as [Htc|Htc].
        * apply for_range_flat_map. intros heap Hheap.
          apply zrange_In in Hheap.
          rewrite (index_in_range _ _ zero_memory_heap) by lia.
          match goal with
          | |- context [for_range (Z.to_nat (memoryTypeCount _)) 0 ?b ?t0] =>
              assert (Hinner :
                for_range (Z.to_nat (memoryTypeCount (memory info))) 0 b t0
                = Some (""%string,
                        map (fun type =>
                               type_chunk type (memory_type (memory info) type))
                          (types_of_heap (memory info) heap)))
          end.
          { unfold types_of_heap. rewrite <- flat_map_filter.
            apply for_range_flat_map. intros type Htype.
            apply zrange_In in Htype.
            rewrite (index_in_range _ _ zero_memory_type) by lia.
            fold (memory_type (memory info) type).
            unfold pr_bind at 1. cbv beta iota.
            destruct (heapIndex (memory_type (memory info) type) =? heap);
              reflexivity. }
          unfold pr_bind at 1. unfold pr_bind at 1. cbn [printf].
          rewrite Hinner. reflexivity.
        * apply for_range_fails with (x := 0); [|apply zrange_In; lia].
          intros strbuf.
          rewrite (index_in_range _ _ zero_memory_heap) by lia.
          match goal with
          | |- context [for_range (Z.to_nat (memoryTypeCount _)) 0 ?b ?t0] =>
              assert (Hinner :
                for_range (Z.to_nat (memoryTypeCount (memory info))) 0 b t0
                = None)
          end.
          { apply for_range_fails
              with (x := Z.of_nat (length (memoryTypes (memory info))));
              [|apply zrange_In; lia].
            intros t. rewrite index_out_of_range by (rewrite Nat2Z.id; lia).
            reflexivity. }
          unfold pr_bind at 1. unfold pr_bind at 1. cbn [printf].
          rewrite Hinner. reflexivity.
    - apply for_range_fails
        with (x := Z.of_nat (length (memoryHeaps (memory info))));
        [|apply zrange_In; lia].
      intros strbuf. rewrite index_out_of_range by (rewrite Nat2Z.id; lia).
      reflexivity. }
  rewrite Hheaps. clear Hheaps.
  match goal with
  | |- context [for_range (length (queue_families info)) 0 ?body tt] =>
      assert (Hqueues :
        for_range (length (queue_families info)) 0 body tt =
        Some (tt,
              map (fun family =>
                     queue_family_chunk family
                       (nth (Z.to_nat family) (queue_families info)
                          zero_queue_family))
                (zrange 0 (length (queue_families info)))))
  end.
  { rewrite <- flat_map_singleton_map. apply for_range_flat_map.
    intros family Hfamily. apply zrange_In in Hfamily.
    rewrite (index_in_range _ _ zero_queue_family) by lia.
    reflexivity. }
  rewrite Hqueues. clear Hqueues.
  rewrite (headed_extensions_printed "    Extensions [" "      ").
  rewrite (headed_layers_printed "    Layers [" "      ").
  destruct ((Z.to_nat (memoryHeapCount (memory info))
             <=? length (memoryHeaps (memory info)))%nat
            && ((Z.to_nat (memoryHeapCount (memory info)) =? 0)%nat
                || (Z.to_nat (memoryTypeCount (memory info))
                    <=? length (memoryTypes (memory info)))%nat))%bool;
    [|reflexivity].
  destruct (length (gpu_layers info) <=? length (gpu_layer_extensions info))%nat;
    reflexivity.
Qed.

(** X8: [PrintGpuInfo] indexes out of range in exactly three cases: the
    heap count is above the number of heaps there are; a heap is
    visited and the type count is above the number of memory types
    there are; there are more layers than extension lists.  In every
    other case it prints the report of the device: the device line,
    the heaps in index order with the types of each heap under it, the
    queue families, the extensions and the layers. *)
Theorem PrintGpuInfo_out_of_range (info : GpuInfo) :
  (PrintGpuInfo info = None <->
   (length (memoryHeaps (memory info))
      < Z.to_nat (memoryHeapCount (memory info)))%nat \/
   ((0 < Z.to_nat (memoryHeapCount (memory info)))%nat /\
    (length (memoryTypes (memory info))
       < Z.to_nat (memoryTypeCount (memory info)))%nat) \/
   (length (gpu_layer_extensions info) < length (gpu_layers info))%nat) /\
  (PrintGpuInfo info <> None ->
   PrintGpuInfo info = Some (tt, gpu_report info)).
Proof.
  rewrite PrintGpuInfo_report_if. unfold printable.
  destruct (Nat.leb_spec (Z.to_nat (memoryHeapCount (memory info)))
              (length (memoryHeaps (memory info)))) as [Hhc|Hhc];
    destruct (Nat.eqb_spec (Z.to_nat (memoryHeapCount (memory info))) 0)
      as [Hzero|Hpos];
    destruct (Nat.leb_spec (Z.to_nat (memoryTypeCount (memory info)))
                (length (memoryTypes (memory info)))) as [Htc|Htc];
    destruct (Nat.leb_spec (length (gpu_layers info))
                (length (gpu_layer_extensions info))) as [Hl|Hl];
    cbn [andb orb];
    (split; [split; [intros H; try discriminate H; lia
                    |intros H; try reflexivity; lia]
            |intros H; try reflexivity; contradiction]).
Qed.

Lemma forallb_false_exists {A : Type} (p : A -> bool) (l : list A) :
  forallb p l = false -> exists x, In x l /\ p x = false.
Proof.
  induction l as [|x l IH]; [discriminate|].
  simpl. destruct (p x) eqn:Hx.
  - intros Hall. destruct (IH Hall) as (y & Hin & Hy).
    exists y. split; [right; exact Hin|exact Hy].
  - intros _. exists x. split; [left; reflexivity|exact Hx].
Qed.

Lemma PrintInfo_report_if (info : VulkanInfo) :
  PrintInfo info =
  if ((length (layers info) <=? length (layer_extensions info))%nat
      && forallb printable (gpus info))%bool
  then Some (tt, info_report info)
  else None.
Proof.
  unfold PrintInfo, info_report.
  rewrite PrintExtensions_chunks.
  rewrite (headed_layers_printed "Instance Layers [" "  ").
  assert (Hgpus :
    for_each (gpus info) PrintGpuInfo =
    if forallb printable (gpus info)
    then Some (tt, flat_map gpu_report (gpus info))
    else None).
  { destruct (forallb printable (gpus info)) eqn:Hall.
    - apply for_each_flat_map. intros gpu Hin.
      rewrite forallb_forall in Hall.
      rewrite PrintGpuInfo_report_if, (Hall gpu Hin). reflexivity.
    - destruct (forallb_false_exists _ _ Hall) as (gpu & Hin & Hgpu).
      apply (for_each_fails _ _ gpu Hin).
      rewrite PrintGpuInfo_report_if, Hgpu. reflexivity. }
  rewrite Hgpus.
  destruct (length (layers info) <=? length (layer_extensions info))%nat;
    [|reflexivity].
  destruct (forallb printable (gpus info)); reflexivity.
Qed.

(** X9: [PrintInfo] indexes out of range in exactly two cases: there
    are more instance layers than extension lists, or [PrintGpuInfo]
    indexes out of range for one of the devices.  In every other case
    it prints the instance extensions, the instance layers with their
    extension lists, and the devices, in the order of the snapshot,
    nothing left out and nothing added. *)
Theorem PrintInfo_out_of_range (info : VulkanInfo) :
  (PrintInfo info = None <->
   (length (layer_extensions info) < length (layers info))%nat \/
   exists gpu, In gpu (gpus info) /\ PrintGpuInfo gpu = None) /\
  (PrintInfo info <> None -> PrintInfo info = Some (tt, info_report info)).
Proof.
  rewrite PrintInfo_report_if.
  destruct (Nat.leb_spec (length (layers info))
              (length (layer_extensions info))) as [Hl|Hl];
    destruct (forallb printable (gpus info)) eqn:Hall; cbn [andb].
  - split; [split|reflexivity].
    + discriminate.
    + intros [Hlt|(gpu & Hin & Hgpu)]; [lia|].
      rewrite forallb_forall in Hall.
      rewrite PrintGpuInfo_report_if, (Hall gpu Hin) in Hgpu.
      discriminate Hgpu.
  - split; [split|intros H; contradiction].
    + intros _. right.
      destruct (forallb_false_exists _ _ Hall) as (gpu & Hin & Hgpu).
      exists gpu. split; [exact Hin|].
      rewrite PrintGpuInfo_report_if, Hgpu. reflexivity.
    + reflexivity.
  - split; [split|intros H; contradiction].
    + intros _. left. exact Hl.
    + reflexivity.
  - split; [split|intros H; contradiction].
    + intros _. left. exact Hl.
    + reflexivity.
Qed.
End WholeReport.

(** ** The calls of a run *)

Lemma firstn_assign {A : Type} (i : nat) (x : A) (v : list A) :
  (i < length v)%nat -> firstn (S i) (assign i x v) = firstn i v ++ [x].
Proof.
  intros Hi. unfold assign.
  rewrite firstn_app, length_firstn.
  replace (S i - Nat.min i (length v))%nat with 1%nat by lia.
  rewrite firstn_firstn. replace (Nat.min (S i) i) with i by lia.
  reflexivity.
Qed.

Lemma skipn_assign {A : Type} (i k : nat) (x : A) (v : list A) :
  (i < length v)%nat ->
  skipn (S i + k) (assign i x v) = skipn (S i + k) v.
Proof.
  intros Hi. unfold assign.
  rewrite skipn_app, length_firstn.
  rewrite skipn_all2 by (rewrite length_firstn; lia).
  replace (S i + k - Nat.min i (length v))%nat with (S k) by lia.
  cbn [app]. change (skipn (S k) (x :: skipn (S i) v))
    with (skipn k (skipn (S i) v)).
  rewrite skipn_skipn. f_equal. lia.
Qed.

Section RunCalls.
Context {hdr : VulkanHeader} {RT : Type} {vk : Runtime RT}.

(** The fetches of the retry loop: the first with the count it was
    given. *)
Lemma fetch_while_incomplete_calls {A : Type} (d : A)
    (fetch : Z -> M RT (VkResult * Z * list A)) (c : Z -> ApiCall) :
  (forall n s r s', fetch n s = Returns (r, s') -> calls s' = calls s ++ [c n]) ->
  forall fuel count v s r s',
    fetch_while_incomplete fuel d fetch count v s = Returns (r, s') ->
    exists capacities, calls s' = calls s ++ c count :: map c capacities.
Proof.
  intros Hfetch. induction fuel as [|fuel IH]; intros count v s r s' Hloop.
  - discriminate Hloop.
  - simpl in Hloop. apply bind_inv in Hloop.
    destruct Hloop as ([[result count'] written] & s1 & Hstep & Hrest).
    apply Hfetch in Hstep.
    destruct (result =? VK_INCOMPLETE).
    + apply IH in Hrest. destruct Hrest as (capacities & Hcalls).
      exists (count' :: capacities).
      rewrite Hcalls, Hstep, <- app_assoc. reflexivity.
    + unfold ret in Hrest. inversion Hrest; subst.
      exists []. exact Hstep.
Qed.

Lemma EnumerateInstanceExtensions_calls (fuel : nat)
    (layer_name : option string) (v exts : list VkExtensionProperties)
    (s s' : Run RT) :
  EnumerateInstanceExtensions fuel layer_name v s = Returns (exts, s') ->
  exists l,
    calls s' = calls s ++ l /\
    enumeration_calls (vkEnumerateInstanceExtensionProperties layer_name) l.
Proof.
  intros Hrun. unfold EnumerateInstanceExtensions in Hrun.
  invert_run Hrun.
  match goal with
  | Hc : call _ _ = Returns _ |- _ => apply call_logged in Hc; rename Hc into Hq
  end.
  lazymatch goal with
  | Hl : fetch_while_incomplete _ _ _ _ _ _ = Returns _ |- _ =>
      destruct (fetch_while_incomplete_calls zero_extension
                  (fun n => call (vkEnumerateInstanceExtensionProperties layer_name
                                    (Some n)))
                  (fun n => vkEnumerateInstanceExtensionProperties layer_name
                              (Some n))
                  (fun n t r t' Hc =>
                     call_logged (vkEnumerateInstanceExtensionProperties layer_name
                                    (Some n)) t r t' Hc)
                  _ _ _ _ _ _ Hl) as (capacities & Hcalls)
  end.
  eexists. split; [|eexists; eexists; reflexivity].
  rewrite Hcalls, Hq, <- app_assoc. reflexivity.
Qed.

Lemma EnumerateDeviceExtensions_calls (fuel : nat) (gpu : VkPhysicalDevice)
    (layer_name : option string) (v exts : list VkExtensionProperties)
    (s s' : Run RT) :
  EnumerateDeviceExtensions fuel gpu layer_name v s = Returns (exts, s') ->
  exists l,
    calls s' = calls s ++ l /\
    enumeration_calls (vkEnumerateDeviceExtensionProperties gpu layer_name) l.
Proof.
  intros Hrun. unfold EnumerateDeviceExtensions in Hrun.
  invert_run Hrun.
  match goal with
  | Hc : call _ _ = Returns _ |- _ => apply call_logged in Hc; rename Hc into Hq
  end.
  lazymatch goal with
  | Hl : fetch_while_incomplete _ _ _ _ _ _ = Returns _ |- _ =>
      destruct (fetch_while_incomplete_calls zero_extension
                  (fun n => call (vkEnumerateDeviceExtensionProperties gpu layer_name
                                    (Some n)))
                  (fun n => vkEnumerateDeviceExtensionProperties gpu layer_name
                              (Some n))
                  (fun n t r t' Hc =>
                     call_logged (vkEnumerateDeviceExtensionProperties gpu layer_name
                                    (Some n)) t r t' Hc)
                  _ _ _ _ _ _ Hl) as (capacities & Hcalls)
  end.
  eexists. split; [|eexists; eexists; reflexivity].
  rewrite Hcalls, Hq, <- app_assoc. reflexivity.
Qed.

(** A loop that fills the element at each index from the input at that
    index: the elements it leaves and the calls of each iteration. *)
Lemma fill_loop_calls {X Y : Type} (step : X -> Y -> M RT Y)
    (T : X -> Y -> list ApiCall -> Prop)
    (no_input no_element : M RT (list Y)) :
  (forall x y s y' s',
     step x y s = Returns (y', s') ->
     exists l, calls s' = calls s ++ l /\ T x y' l) ->
  (forall s r s', no_input s <> Returns (r, s')) ->
  (forall s r s', no_element s <> Returns (r, s')) ->
  forall (todo done : list X) (st : list Y) (s : Run RT)
         (st' : list Y) (s' : Run RT),
    for_index (length todo) (length done)
      (fun i st =>
         match nth_error (done ++ todo) i with
         | Some x =>
             match nth_error st i with
             | Some y => bind (step x y) (fun y' => ret (assign i y' st))
             | None => no_element
             end
         | None => no_input
         end)
      st s
    = Returns (st', s') ->
    exists outcomes,
      Forall2 (fun x outcome => T x (fst outcome) (snd outcome))
        todo outcomes /\
      st' = firstn (length done) st ++ map fst outcomes
            ++ skipn (length done + length todo) st /\
      calls s' = calls s ++ List.concat (map snd outcomes).
Proof.
  intros Hstep Hinput Helement.
  induction todo as [|x todo IH]; intros done st s st' s' Hloop.
  - simpl in Hloop. unfold ret in Hloop. inversion Hloop; subst.
    exists []. split; [constructor|]. cbn [length map List.concat app].
    rewrite Nat.add_0_r, app_nil_r, firstn_skipn. split; reflexivity.
  - cbn [length for_index] in Hloop.
    apply bind_inv in Hloop. destruct Hloop as (st1 & s1 & Hbody & Hrest).
    rewrite nth_error_app2 in Hbody by lia.
    rewrite Nat.sub_diag in Hbody. cbn [nth_error] in Hbody.
    destruct (nth_error st (length done)) as [y|] eqn:Hy;
      [|exfalso; exact (Helement _ _ _ Hbody)].
    assert (Hi : (length done < length st)%nat)
      by (apply nth_error_Some; rewrite Hy; discriminate).
    apply bind_inv in Hbody. destruct Hbody as (y' & s2 & Hrun & Hret).
    unfold ret in Hret. inversion Hret; subst st1 s2. clear Hret.
    apply Hstep in Hrun. destruct Hrun as (l & Hcalls & HT).
    replace (done ++ x :: todo) with ((done ++ [x]) ++ todo) in Hrest
      by (rewrite <- app_assoc; reflexivity).
    replace (S (length done)) with (length (done ++ [x])) in Hrest
      by (rewrite length_app; simpl; lia).
    apply IH in Hrest. destruct Hrest as (outcomes & Hall & Hst & Hlog).
    exists ((y', l) :: outcomes). split; [constructor; assumption|]. split.
    + rewrite Hst. rewrite length_app. cbn [length].
      replace (length done + 1)%nat with (S (length done)) by lia.
      rewrite firstn_assign by exact Hi.
      rewrite skipn_assign by exact Hi.
      cbn [map fst]. rewrite <- app_assoc. cbn [app].
      replace (length done + S (length todo))%nat
        with (S (length done) + length todo)%nat by lia.
      reflexivity.
    + rewrite Hlog, Hcalls. cbn [map snd List.concat].
      rewrite <- !app_assoc. reflexivity.
Qed.
Lemma Forall2_map_snd {X Y Z' : Type} (T : X -> Z' -> Prop)
    (todo : list X) (outcomes : list (Y * Z')) :
  Forall2 (fun x outcome => T x (snd outcome)) todo outcomes ->
  Forall2 T todo (map snd outcomes).
Proof. induction 1; simpl; constructor; assumption. Qed.

Ltac log_calls :=
  repeat match goal with
         | Hc : call ?c ?t = Returns (?r, ?t') |- _ =>
             apply (call_logged c t r t') in Hc
         end.

Ltac chain_calls :=
  repeat match goal with
         | Hc : calls ?t = _ |- context [calls ?t] => rewrite Hc; clear Hc
         end.

Lemma success_of (result : VkResult) :
  negb (result =? VK_SUCCESS) = false -> result = VK_SUCCESS.
Proof.
  intros H. apply Bool.negb_false_iff in H. apply Z.eqb_eq in H. exact H.
Qed.

Lemma GatherGpuInfo_logged (fuel : nat) (gpu : VkPhysicalDevice)
    (info0 info : GpuInfo) (s s' : Run RT) :
  GatherGpuInfo fuel gpu info0 s = Returns (info, s') ->
  exists before device t t',
    calls t = calls s ++ before /\
    call (vkCreateDevice gpu
            (available_extensions [VK_KHR_SWAPCHAIN_EXTENSION_NAME]
               (gpu_extensions info) (gpu_layer_extensions info))
            (features info)) t
      = Returns ((VK_SUCCESS, device), t') /\
    calls s' = calls t' ++ [vkDestroyDevice device] /\
    device_calls gpu info device
      (before
       ++ [vkCreateDevice gpu
             (available_extensions [VK_KHR_SWAPCHAIN_EXTENSION_NAME]
                (gpu_extensions info) (gpu_layer_extensions info))
             (features info);
           vkDestroyDevice device]).
Proof.
  intros Hrun. unfold GatherGpuInfo in Hrun. invert_run Hrun.
  lazymatch goal with
  | Hl : fetch_while_incomplete _ _ _ _ _ _ = Returns _ |- _ =>
      destruct (fetch_while_incomplete_calls zero_layer
                  (fun n => call (vkEnumerateDeviceLayerProperties gpu
                                    (Some n)))
                  (fun n => vkEnumerateDeviceLayerProperties gpu (Some n))
                  (fun n t r t' Hc =>
                     call_logged (vkEnumerateDeviceLayerProperties gpu
                                    (Some n)) t r t' Hc)
                  _ _ _ _ _ _ Hl) as (capacities & Hlayers);
      clear Hl
  end.
  lazymatch goal with
  | He : EnumerateDeviceExtensions _ _ None _ _ = Returns _ |- _ =>
      apply EnumerateDeviceExtensions_calls in He;
      destruct He as (extension_calls & Hextensions & Hshape)
  end.
  lazymatch goal with
  | Hl : for_index _ _ _ _ _ = Returns _ |- _ =>
      apply (fill_loop_calls
               (fun layer exts =>
                  EnumerateDeviceExtensions fuel gpu (Some (layerName layer))
                    exts)
               (fun layer _ l =>
                  enumeration_calls
                    (vkEnumerateDeviceExtensionProperties gpu
                       (Some (layerName layer))) l)
               undefined undefined) with (done := []) in Hl;
      [destruct Hl as (outcomes & Hall & _ & Hloop)
      |intros ? ? ? ? ? He;
       exact (EnumerateDeviceExtensions_calls _ _ _ _ _ _ _ He)
      |intros ? ? ?; discriminate
      |intros ? ? ?; discriminate]
  end.
  lazymatch goal with
  | Hc : call (vkCreateDevice _ _ _) _ = Returns ((?result, _), _),
    Hr : negb (?result =? VK_SUCCESS) = false |- _ =>
      apply success_of in Hr; subst result; revert Hc
  end.
  lazymatch goal with
  | Hc : call (vkDestroyDevice _) _ = Returns _ |- _ =>
      apply call_logged in Hc; rename Hc into Hdestroy
  end.
  log_calls. intros Hcreate.
  lazymatch type of Hlayers with
  | _ = _ ++ ?first :: ?more =>
      set (layer_calls := vkEnumerateDeviceLayerProperties gpu None
                            :: first :: more)
  end.
  cbn [gpu_layers gpu_extensions gpu_layer_extensions features].
  eexists. eexists. eexists. eexists.
  split; [|split; [exact Hcreate|split; [exact Hdestroy|]]].
  - chain_calls. rewrite <- !app_assoc. reflexivity.
  - unfold device_calls. cbn [gpu_layers gpu_extensions gpu_layer_extensions
                              features].
    eexists. exists layer_calls, extension_calls, (map snd outcomes).
    split; [eexists; eexists; reflexivity|].
    split; [exact Hshape|].
    split; [apply Forall2_map_snd; exact Hall|].
    cbn [app]. rewrite <- !app_assoc. reflexivity.
Qed.

Lemma GatherGpuInfo_device_calls (fuel : nat) (gpu : VkPhysicalDevice)
    (info0 info : GpuInfo) (s s' : Run RT) :
  GatherGpuInfo fuel gpu info0 s = Returns (info, s') ->
  exists l,
    calls s' = calls s ++ l /\
    exists device, device_calls gpu info device l.
Proof.
  intros Hrun. apply GatherGpuInfo_logged in Hrun.
  destruct Hrun as (before & device & t & t' & Hbefore & Hcreate & Hend
                    & Hshape).
  apply call_logged in Hcreate.
  eexists. split; [|exists device; exact Hshape].
  rewrite Hend, Hcreate, Hbefore, <- !app_assoc. reflexivity.
Qed.

End RunCalls.




Section DeviceLifetime.
Context {hdr : VulkanHeader} {RT : Type} {vk : Runtime RT}.

End DeviceLifetime.


(** ** Runs that neither return nor exit *)

Section StuckRuns.
Context {hdr : VulkanHeader} {RT : Type} {vk : Runtime RT}.
Variable kind : Stuck.
Variable Q : Prop.

Lemma bind_stuck {A B : Type} (m : M RT A) (k : A -> M RT B) (s : Run RT) :
  bind m k s = stuck kind ->
  m s = stuck kind \/
  exists a s', m s = Returns (a, s') /\ k a s' = stuck kind.
Proof.
  unfold bind. destruct (m s) as [[a s']| | | |]; intros H.
  - right. exists a, s'. split; [reflexivity|exact H].
  - destruct kind; discriminate H.
  - left. destruct kind; [reflexivity|discriminate H].
  - left. destruct kind; [discriminate H|reflexivity].
  - destruct kind; discriminate H.
Qed.

Lemma call_only_when (c : ApiCall) : only_when kind Q (call c).
Proof.
  intros s H. rewrite call_returns in H. destruct kind; discriminate H.
Qed.

Lemma ret_only_when {A : Type} (a : A) : only_when kind Q (ret (RT := RT) a).
Proof. intros s H. destruct kind; discriminate H. Qed.

Lemma bind_only_when {A B : Type} (m : M RT A) (k : A -> M RT B) :
  only_when kind Q m ->
  (forall a s s', m s = Returns (a, s') -> only_when kind Q (k a)) ->
  only_when kind Q (bind m k).
Proof.
  intros Hm Hk s H. apply bind_stuck in H.
  destruct H as [H|(a & s' & Hret & H)].
  - exact (Hm s H).
  - exact (Hk a s s' Hret s' H).
Qed.

(** A check [if (result != VK_SUCCESS) die(proc, result);]. *)
Lemma check_only_when {A : Type} (proc : string) (result : VkResult)
    (k : M RT A) :
  (result = VK_SUCCESS -> only_when kind Q k) ->
  only_when kind Q
    (if negb (result =? VK_SUCCESS) then die proc result else k).
Proof.
  intros Hk s H.
  destruct (Z.eqb_spec result VK_SUCCESS) as [Heq|Hne]; cbn [negb] in H.
  - exact (Hk Heq s H).
  - unfold die in H. destruct kind; discriminate H.
Qed.

Lemma fetch_while_incomplete_only_when {A : Type} (d : A)
    (fetch : Z -> M RT (VkResult * Z * list A)) (fuel : nat) :
  (forall count, only_when kind Q (fetch count)) ->
  forall count v,
    only_when kind Q (fetch_while_incomplete fuel d fetch count v).
Proof.
  intros Hfetch. induction fuel as [|fuel IH]; intros count v.
  - intros s H. destruct kind; discriminate H.
  - simpl. apply bind_only_when; [apply Hfetch|].
    intros [[result count'] written] s s' _.
    destruct (result =? VK_INCOMPLETE); [apply IH|apply ret_only_when].
Qed.

Lemma EnumerateInstanceExtensions_only_when (fuel : nat)
    (layer_name : option string) (v : list VkExtensionProperties) :
  only_when kind Q (EnumerateInstanceExtensions fuel layer_name v).
Proof.
  unfold EnumerateInstanceExtensions.
  apply bind_only_when; [apply call_only_when|].
  intros [[result count] written] s s' _.
  apply check_only_when. intros _.
  apply bind_only_when.
  - apply fetch_while_incomplete_only_when. intros n.
    apply (call_only_when
             (vkEnumerateInstanceExtensionProperties layer_name (Some n))).
  - intros [[result' count'] exts] t t' _.
    apply check_only_when. intros _. apply ret_only_when.
Qed.

Lemma EnumerateDeviceExtensions_only_when (fuel : nat)
    (gpu : VkPhysicalDevice) (layer_name : option string)
    (v : list VkExtensionProperties) :
  only_when kind Q (EnumerateDeviceExtensions fuel gpu layer_name v).
Proof.
  unfold EnumerateDeviceExtensions.
  apply bind_only_when; [apply call_only_when|].
  intros [[result count] written] s s' _.
  apply check_only_when. intros _.
  apply bind_only_when.
  - apply fetch_while_incomplete_only_when. intros n.
    apply (call_only_when
             (vkEnumerateDeviceExtensionProperties gpu layer_name (Some n))).
  - intros [[result' count'] exts] t t' _.
    apply check_only_when. intros _. apply ret_only_when.
Qed.

(** A loop that fills the element at each index from the input at that
    index gets stuck only in a step, when every index it visits is in
    range or leaving the range ends the run another way. *)
Lemma fill_loop_only_when {X Y : Type} (step : X -> Y -> M RT Y)
    (no_input no_element : M RT (list Y)) :
  (forall x y, only_when kind Q (step x y)) ->
  forall (todo done : list X) (st : list Y),
    (length done + length todo <= length st)%nat \/
    only_when kind Q no_element ->
    only_when kind Q
      (for_index (length todo) (length done)
         (fun i st =>
            match nth_error (done ++ todo) i with
            | Some x =>
                match nth_error st i with
                | Some y => bind (step x y) (fun y' => ret (assign i y' st))
                | None => no_element
                end
            | None => no_input
            end)
         st).
Proof.
  intros Hstep.
  induction todo as [|x todo IH]; intros done st Hrange.
  - apply ret_only_when.
  - cbn [length for_index].
    apply bind_only_when.
    + rewrite nth_error_app2 by lia. rewrite Nat.sub_diag. cbn [nth_error].
      destruct (nth_error st (length done)) as [y|] eqn:Hy.
      * apply bind_only_when; [apply Hstep|].
        intros y' s s' _. apply ret_only_when.
      * destruct Hrange as [Hlen|Hnone]; [|exact Hnone].
        apply nth_error_None in Hy. cbn [length] in Hlen. lia.
    + intros st1 s s' Hbody.
      replace (done ++ x :: todo) with ((done ++ [x]) ++ todo)
        by (rewrite <- app_assoc; reflexivity).
      replace (S (length done)) with (length (done ++ [x]))
        by (rewrite length_app; simpl; lia).
      apply IH.
      destruct Hrange as [Hlen|Hnone]; [left|right; exact Hnone].
      rewrite nth_error_app2 in Hbody by lia.
      rewrite Nat.sub_diag in Hbody. cbn [nth_error] in Hbody.
      cbn [length] in Hlen.
      destruct (nth_error st (length done)) as [y|] eqn:Hy.
      * apply bind_inv in Hbody. destruct Hbody as (y' & s1 & _ & Hret).
        unfold ret in Hret. inversion Hret; subst st1.
        rewrite assign_length by lia. rewrite length_app. simpl. lia.
      * apply nth_error_None in Hy. lia.
Qed.

Lemma GatherGpuInfo_only_when (fuel : nat) (gpu : VkPhysicalDevice)
    (info : GpuInfo) :
  only_when kind Q (GatherGpuInfo fuel gpu info).
Proof.
  unfold GatherGpuInfo.
  apply bind_only_when; [apply call_only_when|]. intros properties ? ? _.
  apply bind_only_when; [apply call_only_when|]. intros memory ? ? _.
  apply bind_only_when; [apply call_only_when|]. intros features ? ? _.
  apply bind_only_when; [apply call_only_when|]. intros [count w] ? ? _.
  apply bind_only_when; [apply call_only_when|]. intros [count' w'] ? ? _.
  apply bind_only_when; [apply call_only_when|].
  intros [[result count1] w1] ? ? _.
  apply check_only_when. intros _.
  apply bind_only_when.
  { apply fetch_while_incomplete_only_when. intros n.
    apply (call_only_when (vkEnumerateDeviceLayerProperties gpu (Some n))). }
  intros [[result2 count2] layers] ? ? _.
  apply check_only_when. intros _.
  apply bind_only_when;
    [apply EnumerateDeviceExtensions_only_when|]. intros exts ? ? _.
  apply bind_only_when.
  { apply (fill_loop_only_when
             (fun layer exts0 =>
                EnumerateDeviceExtensions fuel gpu (Some (layerName layer))
                  exts0)
             undefined undefined
             (fun layer exts0 => EnumerateDeviceExtensions_only_when _ _ _ _)
             layers []).
    left. rewrite resize_length, Nat2Z.id. simpl. lia. }
  intros layer_exts ? ? _.
  apply bind_only_when; [apply call_only_when|].
  intros [result3 device] ? ? _.
  apply check_only_when. intros _.
  apply bind_only_when; [apply call_only_when|]. intros u ? ? _.
  apply ret_only_when.
Qed.

(** The gatherer gets stuck only where it reads the snapshot of a
    device with [at]. *)
Lemma GatherInfo_only_when (fuel : nat) (info : VulkanInfo) :
  (forall instance count v s result num handles s',
     fetch_while_incomplete fuel VK_NULL_HANDLE
       (fun n => call (vkEnumeratePhysicalDevices instance (Some n)))
       count v s
     = Returns ((result, num, handles), s') ->
     result = VK_SUCCESS ->
     (length handles <= Z.to_nat num)%nat \/
     only_when kind Q (throw : M RT (list GpuInfo))) ->
  only_when kind Q (GatherInfo fuel info).
Proof.
  intros Hat. unfold GatherInfo.
  apply bind_only_when; [apply call_only_when|].
  intros [[result count] w] ? ? _.
  apply check_only_when. intros _.
  apply bind_only_when.
  { apply fetch_while_incomplete_only_when. intros n.
    apply (call_only_when (vkEnumerateInstanceLayerProperties (Some n))). }
  intros [[result2 count2] fetched] ? ? _.
  apply check_only_when. intros _.
  apply bind_only_when;
    [apply EnumerateInstanceExtensions_only_when|]. intros exts ? ? _.
  apply bind_only_when.
  { apply (fill_loop_only_when
             (fun layer exts0 =>
                EnumerateInstanceExtensions fuel (Some (layerName layer))
                  exts0)
             undefined undefined
             (fun layer exts0 => EnumerateInstanceExtensions_only_when _ _ _)
             fetched []).
    left. rewrite resize_length, Nat2Z.id. simpl. lia. }
  intros layer_exts ? ? _.
  apply bind_only_when; [apply call_only_when|].
  intros [result3 instance] ? ? _.
  apply check_only_when. intros _.
  apply bind_only_when; [apply call_only_when|].
  intros [[result4 num_gpus] w4] ? ? _.
  apply check_only_when. intros _.
  apply bind_only_when.
  { apply fetch_while_incomplete_only_when. intros n.
    apply (call_only_when (vkEnumeratePhysicalDevices instance (Some n))). }
  intros [[result5 num_gpus'] handles] t t' Hfetched.
  apply check_only_when. intros Hsuccess.
  apply bind_only_when.
  { apply (fill_loop_only_when
             (fun gpu gpu_info => GatherGpuInfo fuel gpu gpu_info)
             undefined throw
             (fun gpu gpu_info => GatherGpuInfo_only_when _ _ _)
             handles []).
    rewrite resize_length. cbn [length Nat.add].
    exact (Hat _ _ _ _ _ _ _ _ Hfetched Hsuccess). }
  intros info_gpus ? ? _.
  apply bind_only_when; [apply call_only_when|]. intros u ? ? _.
  apply ret_only_when.
Qed.
End StuckRuns.

(** ** Undefined behaviour of the whole program *)

Lemma printable_memory_counts (info : GpuInfo) :
  (length (gpu_layers info) <= length (gpu_layer_extensions info))%nat ->
  (printable info = false <-> ~ memory_counts_in_range info).
Proof.
  intros Hlayers. unfold printable, memory_counts_in_range.
  destruct (Nat.leb_spec (Z.to_nat (memoryHeapCount (memory info)))
              (length (memoryHeaps (memory info)))) as [Hhc|Hhc];
    destruct (Nat.eqb_spec (Z.to_nat (memoryHeapCount (memory info))) 0)
      as [Hzero|Hpos];
    destruct (Nat.leb_spec (Z.to_nat (memoryTypeCount (memory info)))
                (length (memoryTypes (memory info)))) as [Htc|Htc];
    destruct (Nat.leb_spec (length (gpu_layers info))
                (length (gpu_layer_extensions info))) as [Hl|Hl];
    cbn [andb orb];
    (split; [intros H; try discriminate H; intros [H1 H2]; lia
            |intros H; try reflexivity; exfalso; apply H; split; lia]).
Qed.

Lemma In_skipn_resize_nil {A : Type} (x d : A) (k : nat) (n : Z) :
  In x (skipn k (resize n d [])) -> x = d.
Proof.
  intros Hin. rewrite resize_nil in Hin.
  assert (Hin' : In x (repeat d (Z.to_nat n))).
  { rewrite <- (firstn_skipn k). apply in_or_app. right. exact Hin. }
  apply repeat_spec in Hin'. exact Hin'.
Qed.

Section GatheredLengths.
Context {hdr : VulkanHeader} {RT : Type} {vk : Runtime RT}.

Lemma GatherGpuInfo_lengths (fuel : nat) (gpu : VkPhysicalDevice)
    (info0 info : GpuInfo) (s s' : Run RT) :
  GatherGpuInfo fuel gpu info0 s = Returns (info, s') ->
  (length (gpu_layers info) <= length (gpu_layer_extensions info))%nat.
Proof.
  intros Hrun. unfold GatherGpuInfo in Hrun. invert_run Hrun.
  cbn [gpu_layers gpu_layer_extensions].
  lazymatch goal with
  | Hl : for_index _ _ _ _ _ = Returns _ |- _ =>
      apply (fill_loop_calls
               (fun layer exts =>
                  EnumerateDeviceExtensions fuel gpu (Some (layerName layer))
                    exts)
               (fun _ _ _ => True)
               undefined undefined) with (done := []) in Hl;
      [destruct Hl as (outcomes & Hall & Hst & _)
      |intros ? ? ? ? ? He;
       destruct (EnumerateDeviceExtensions_calls _ _ _ _ _ _ _ He)
         as (added & Hadded & _);
       exists added; split; [exact Hadded|exact I]
      |intros ? ? ?; discriminate
      |intros ? ? ?; discriminate]
  end.
  rewrite Hst, !length_app, length_map, <- (Forall2_length Hall). lia.
Qed.

Lemma GatherInfo_lengths (fuel : nat) (info : VulkanInfo) (s s' : Run RT) :
  GatherInfo fuel empty_VulkanInfo s = Returns (info, s') ->
  (length (layers info) <= length (layer_extensions info))%nat /\
  forall gpu,
    In gpu (gpus info) ->
    (length (gpu_layers gpu) <= length (gpu_layer_extensions gpu))%nat.
Proof.
  intros Hrun. unfold GatherInfo in Hrun. invert_run Hrun.
  cbn [layers layer_extensions gpus].
  match goal with
  | Hl : for_index _ _ _ _ _ = Returns _ |- _ =>
      apply (fill_loop_calls
               (fun layer exts =>
                  EnumerateInstanceExtensions fuel (Some (layerName layer))
                    exts)
               (fun _ _ _ => True)
               undefined undefined) with (done := []) in Hl;
      [destruct Hl as (outcomes & Hall & Hst & _)
      |intros ? ? ? ? ? He;
       destruct (EnumerateInstanceExtensions_calls _ _ _ _ _ _ He)
         as (added & Hadded & _);
       exists added; split; [exact Hadded|exact I]
      |intros ? ? ?; discriminate
      |intros ? ? ?; discriminate]
  end.
  match goal with
  | Hl : for_index _ _ _ _ _ = Returns _ |- _ =>
      apply (fill_loop_calls
               (fun gpu gpu_info => GatherGpuInfo fuel gpu gpu_info)
               (fun _ gpu_info _ =>
                  (length (gpu_layers gpu_info)
                     <= length (gpu_layer_extensions gpu_info))%nat)
               undefined throw) with (done := []) in Hl;
      [destruct Hl as (gathered & Hgathered & Hgpus & _)
      |intros ? ? ? ? ? Hg;
       destruct (GatherGpuInfo_device_calls _ _ _ _ _ _ Hg)
         as (added & Hadded & _);
       exists added;
       split; [exact Hadded|exact (GatherGpuInfo_lengths _ _ _ _ _ _ Hg)]
      |intros ? ? ?; discriminate
      |intros ? ? ?; discriminate]
  end.
  split.
  - rewrite Hst, !length_app, length_map, <- (Forall2_length Hall). lia.
  - intros gpu Hin. rewrite Hgpus in Hin. cbn [length firstn app Nat.add] in Hin.
    apply in_app_or in Hin. destruct Hin as [Hin|Hin].
    + apply in_map_iff in Hin. destruct Hin as (outcome & <- & Hin).
      clear -Hgathered Hin.
      induction Hgathered as [|x o xs os Ho _ IH]; [contradiction|].
      destruct Hin as [<-|Hin]; [exact Ho|exact (IH Hin)].
    + cbn [gpus empty_VulkanInfo] in Hin.
      apply In_skipn_resize_nil in Hin. subst gpu. simpl. lia.
Qed.

(** X13: the behaviour of the program is undefined exactly when the
    gatherer returns a snapshot in which some device has a memory
    heap count above the number of heaps in its array, or has a heap
    and a memory type count above the number of memory types in its
    array.  The gatherer itself never indexes a vector out of range,
    and the layer loops of the printer stay in range on a gathered
    snapshot. *)
Theorem main_undefined_behaviour (fuel : nat) (rt : RT) :
  halt (main fuel rt) = UndefinedBehaviour <->
  exists info s',
    GatherInfo fuel empty_VulkanInfo {| runtime := rt; calls := [] |}
      = Returns (info, s') /\
    exists gpu, In gpu (gpus info) /\ ~ memory_counts_in_range gpu.
Proof.
  unfold main.
  destruct (GatherInfo fuel empty_VulkanInfo {| runtime := rt; calls := [] |})
    as [[info s']|code err| | |] eqn:Hgather.
  - destruct (GatherInfo_lengths _ _ _ _ Hgather) as (Hlayers & Hgpus).
    rewrite PrintInfo_report_if.
    apply Nat.leb_le in Hlayers. rewrite Hlayers. cbn [andb].
    destruct (forallb printable (gpus info)) eqn:Hall; cbn [halt].
    + split; [discriminate|].
      intros (info' & s'' & Heq & gpu & Hin & Hmem).
      inversion Heq; subst info' s''.
      rewrite forallb_forall in Hall.
      apply (printable_memory_counts gpu (Hgpus gpu Hin)) in Hmem.
      rewrite (Hall gpu Hin) in Hmem. discriminate Hmem.
    + split; [intros _|reflexivity].
      destruct (forallb_false_exists _ _ Hall) as (gpu & Hin & Hgpu).
      exists info, s'. split; [reflexivity|]. exists gpu.
      split; [exact Hin|].
      apply (printable_memory_counts gpu (Hgpus gpu Hin)). exact Hgpu.
  - cbn [halt]. split; [discriminate|].
    intros (info & s' & Heq & _). discriminate Heq.
  - cbn [halt]. split; [discriminate|].
    intros (info & s' & Heq & _). discriminate Heq.
  - exfalso.
    apply (GatherInfo_only_when Unchecked False fuel empty_VulkanInfo)
      with (s := {| runtime := rt; calls := [] |}); [|exact Hgather].
    intros. right. intros t Ht. discriminate Ht.
  - cbn [halt]. split; [discriminate|].
    intros (info & s' & Heq & _). discriminate Heq.
Qed.

End GatheredLengths.

(** ** The program on a steady runtime *)

Section SteadyMain.
Context {hdr : VulkanHeader}.

(** X14: on a simulated runtime that answers every call from one
    world, with no call made to fail and the memory counts of every
    device within its arrays, one round of each fetch loop is enough:
    the program exits with 0, writes nothing to the standard error, and
    writes to the standard output the report of what the runtime
    offers. *)
Theorem main_steady (w : World) (fuel : nat) :
  healthy w ->
  (forall entry,
     In entry (physical_devices w) ->
     memory_counts_in_range (snapshot_of_gpu (find_gpu w (fst entry)))) ->
  main (S fuel) [w] =
  {| halt := Exited 0;
     stdout := Some (cat (info_report (snapshot_of_world w)));
     stderr := Some ""%string |}.
Proof.
  intros Hhealthy Hmemory. unfold main.
  destruct (GatherInfo_steady w Hhealthy fuel
              {| runtime := [w]; calls := [] |} eq_refl)
    as (s' & Hrun & _).
  rewrite Hrun, PrintInfo_report_if.
  assert (Hlayers : (length (layers (snapshot_of_world w))
                     <=? length (layer_extensions (snapshot_of_world w)))%nat
                    = true).
  { apply Nat.leb_le. cbn [layers layer_extensions snapshot_of_world].
    rewrite length_map. lia. }
  assert (Hgpus : forallb printable (gpus (snapshot_of_world w)) = true).
  { apply forallb_forall. intros gpu Hin.
    cbn [gpus snapshot_of_world] in Hin. apply in_map_iff in Hin.
    destruct Hin as (entry & <- & Hin).
    destruct (printable (snapshot_of_gpu (find_gpu w (fst entry))))
      eqn:Hprintable; [reflexivity|].
    apply printable_memory_counts in Hprintable.
    - exfalso. apply Hprintable. apply Hmemory. exact Hin.
    - cbn [gpu_layers gpu_layer_extensions snapshot_of_gpu].
      rewrite length_map. lia. }
  rewrite Hlayers, Hgpus. reflexivity.
Qed.
End SteadyMain.

(** The end-to-end scenario is steady and healthy. *)
Lemma main_steady_scenario :
  main (hdr := vulkan_h) 1 [scenario] =
  {| halt := Exited 0;
     stdout := Some (cat (info_report (hdr := vulkan_h)
                            (snapshot_of_world scenario)));
     stderr := Some ""%string |}.
Proof.
  apply (main_steady (hdr := vulkan_h) scenario 0).
  - intros c. reflexivity.
  - intros entry [<-|[]]. split; [simpl; lia|intros _; simpl; lia].
Defined.

(** ** The runs of the gatherer that return *)

Lemma in_turn_impl {RT X Y : Type}
    (R R' : X -> Run RT -> Y -> Run RT -> Prop) :
  (forall x t y t', R x t y t' -> R' x t y t') ->
  forall xs ys s s_end,
    in_turn R xs ys s s_end -> in_turn R' xs ys s s_end.
Proof.
  intros Himpl. induction xs as [|x xs IH]; intros [|y ys] s s_end H;
    try exact H.
  destruct H as (s1 & Hstep & Hrest).
  exists s1. split; [apply Himpl; exact Hstep|apply IH; exact Hrest].
Qed.

Lemma in_turn_length {RT X Y : Type}
    (R : X -> Run RT -> Y -> Run RT -> Prop) :
  forall xs ys s s_end, in_turn R xs ys s s_end -> length ys = length xs.
Proof.
  induction xs as [|x xs IH]; intros [|y ys] s s_end H;
    try contradiction; [reflexivity|].
  destruct H as (s1 & _ & Hrest). simpl. f_equal. apply (IH _ _ _ Hrest).
Qed.

(** Running a step whose outcome is known. *)
Ltac run_step H := erewrite bind_returns; [|exact H]; cbv beta iota.

Section ReturningRuns.
Context {hdr : VulkanHeader} {RT : Type} {vk : Runtime RT}.

(** The count query, its check, the loop and its check, as the
    program writes them at each enumeration. *)
Lemma enumerated_with_intro {A : Type} (d : A)
    (query : option Z -> M RT (VkResult * Z * list A))
    (fuel : nat) (init : Z -> list A) (s : Run RT)
    (count : Z) (written0 : list A) (s0 : Run RT)
    (count_written : Z) (v_end : list A) (s_end : Run RT) :
  query None s = Returns ((VK_SUCCESS, count, written0), s0) ->
  fetch_while_incomplete fuel d (fun capacity => query (Some capacity))
    count (init count) s0
    = Returns ((VK_SUCCESS, count_written, v_end), s_end) ->
  enumerated_with d query fuel init s count_written v_end s_end.
Proof.
  intros Hquery Hloop.
  apply fetch_while_incomplete_returned in Hloop.
  destruct Hloop as (n & required & v' & s1 & written & Hn & Hinc & Hlast
                     & _ & Hend).
  exists count, written0, s0, n, required, v', s1, written.
  split; [exact Hquery|]. split; [exact Hn|]. split; [exact Hinc|].
  split; [exact Hlast|]. split; [exact Hend|].
  rewrite Hend, store_length, resize_length. reflexivity.
Qed.

Lemma enumerated_with_elim {A : Type} (d : A)
    (query : option Z -> M RT (VkResult * Z * list A))
    (fuel : nat) (init : Z -> list A) (s : Run RT)
    (count_written : Z) (v_end : list A) (s_end : Run RT) :
  enumerated_with d query fuel init s count_written v_end s_end ->
  exists count written0 s0,
    query None s = Returns ((VK_SUCCESS, count, written0), s0) /\
    fetch_while_incomplete fuel d (fun capacity => query (Some capacity))
      count (init count) s0
    = Returns ((VK_SUCCESS, count_written, v_end), s_end).
Proof.
  intros (count & written0 & s0 & n & required & v' & s1 & written
          & Hquery & Hn & Hinc & Hlast & Hend & _).
  exists count, written0, s0. split; [exact Hquery|]. subst v_end.
  apply (fetch_while_incomplete_ends d _ n fuel _ _ _ _ _ _ _ _ _ _
           Hinc Hlast); [|exact Hn].
  apply Z.eqb_neq. apply VK_SUCCESS_not_INCOMPLETE.
Qed.

Lemma EnumerateInstanceExtensions_enumerated (fuel : nat)
    (layer_name : option string) (v exts : list VkExtensionProperties)
    (s s_end : Run RT) :
  EnumerateInstanceExtensions fuel layer_name v s = Returns (exts, s_end) <->
  enumerated zero_extension (instance_extensions_query layer_name)
    fuel v s exts s_end.
Proof.
  split.
  - intros Hrun. unfold EnumerateInstanceExtensions in Hrun.
    apply bind_inv in Hrun.
    destruct Hrun as ([[result count] written0] & s0 & Hquery & Hrun).
    destruct (negb (result =? VK_SUCCESS)) eqn:Hresult;
      [discriminate Hrun|].
    apply bind_inv in Hrun.
    destruct Hrun as ([[result' count_written] v_end] & s1 & Hloop & Hrun).
    destruct (negb (result' =? VK_SUCCESS)) eqn:Hresult';
      [discriminate Hrun|].
    unfold ret in Hrun. inversion Hrun; subst v_end s1.
    apply success_of in Hresult. apply success_of in Hresult'. subst.
    exists count_written.
    apply (enumerated_with_intro zero_extension
             (instance_extensions_query layer_name) fuel (fun _ => v) s
             count written0 s0 count_written exts s_end);
      assumption.
  - intros (count_written & Henum). apply enumerated_with_elim in Henum.
    destruct Henum as (count & written0 & s0 & Hquery & Hloop).
    unfold EnumerateInstanceExtensions.
    unfold instance_extensions_query in Hquery, Hloop.
    rewrite (bind_returns _ _ _ _ _ Hquery).
    rewrite Z.eqb_refl. cbn [negb].
    rewrite (bind_returns _ _ _ _ _ Hloop).
    rewrite Z.eqb_refl. reflexivity.
Qed.

Lemma EnumerateDeviceExtensions_enumerated (fuel : nat)
    (gpu : VkPhysicalDevice) (layer_name : option string)
    (v exts : list VkExtensionProperties) (s s_end : Run RT) :
  EnumerateDeviceExtensions fuel gpu layer_name v s = Returns (exts, s_end) <->
  enumerated zero_extension (device_extensions_query gpu layer_name)
    fuel v s exts s_end.
Proof.
  split.
  - intros Hrun. unfold EnumerateDeviceExtensions in Hrun.
    apply bind_inv in Hrun.
    destruct Hrun as ([[result count] written0] & s0 & Hquery & Hrun).
    destruct (negb (result =? VK_SUCCESS)) eqn:Hresult;
      [discriminate Hrun|].
    apply bind_inv in Hrun.
    destruct Hrun as ([[result' count_written] v_end] & s1 & Hloop & Hrun).
    destruct (negb (result' =? VK_SUCCESS)) eqn:Hresult';
      [discriminate Hrun|].
    unfold ret in Hrun. inversion Hrun; subst v_end s1.
    apply success_of in Hresult. apply success_of in Hresult'. subst.
    exists count_written.
    apply (enumerated_with_intro zero_extension
             (device_extensions_query gpu layer_name) fuel (fun _ => v) s
             count written0 s0 count_written exts s_end);
      assumption.
  - intros (count_written & Henum). apply enumerated_with_elim in Henum.
    destruct Henum as (count & written0 & s0 & Hquery & Hloop).
    unfold EnumerateDeviceExtensions.
    unfold device_extensions_query in Hquery, Hloop.
    rewrite (bind_returns _ _ _ _ _ Hquery).
    rewrite Z.eqb_refl. cbn [negb].
    rewrite (bind_returns _ _ _ _ _ Hloop).
    rewrite Z.eqb_refl. reflexivity.
Qed.

(** A loop that fills the element at each index from the input at that
    index, over a vector whose elements from the first index on are
    [y0]: the elements are made in turn, and those past the inputs are
    left as they are. *)
Lemma fill_loop_in_turn {X Y : Type} (step : X -> Y -> M RT Y) (y0 : Y)
    (no_input no_element : M RT (list Y)) :
  (forall s r s', no_input s <> Returns (r, s')) ->
  (forall s r s', no_element s <> Returns (r, s')) ->
  forall (todo done : list X) (filled : list Y) (k : nat) (s : Run RT)
         (st' : list Y) (s' : Run RT),
    length filled = length done ->
    for_index (length todo) (length done)
      (fun i st =>
         match nth_error (done ++ todo) i with
         | Some x =>
             match nth_error st i with
             | Some y => bind (step x y) (fun y' => ret (assign i y' st))
             | None => no_element
             end
         | None => no_input
         end)
      (filled ++ repeat y0 k) s
    = Returns (st', s') ->
    exists ys,
      in_turn (fun x t y t' => step x y0 t = Returns (y, t')) todo ys s s' /\
      st' = filled ++ ys ++ repeat y0 (k - length todo) /\
      (length todo <= k)%nat.
Proof.
  intros Hinput Helement.
  induction todo as [|x todo IH]; intros done filled k s st' s' Hlen Hloop.
  - simpl in Hloop. unfold ret in Hloop. inversion Hloop; subst.
    exists []. split; [reflexivity|]. split; [|simpl; lia].
    simpl. rewrite Nat.sub_0_r. reflexivity.
  - cbn [length for_index] in Hloop.
    apply bind_inv in Hloop. destruct Hloop as (st1 & s1 & Hbody & Hrest).
    rewrite nth_error_app2 in Hbody by lia.
    rewrite Nat.sub_diag in Hbody. cbn [nth_error] in Hbody.
    rewrite nth_error_app2 in Hbody by lia.
    rewrite <- Hlen, Nat.sub_diag in Hbody.
    destruct k as [|k]; [exfalso; exact (Helement _ _ _ Hbody)|].
    cbn [repeat nth_error] in Hbody.
    apply bind_inv in Hbody. destruct Hbody as (y' & s2 & Hrun & Hret).
    unfold ret in Hret. inversion Hret; subst st1 s2. clear Hret.
    cbn [repeat] in Hrest. rewrite assign_middle in Hrest.
    replace (done ++ x :: todo) with ((done ++ [x]) ++ todo) in Hrest
      by (rewrite <- app_assoc; reflexivity).
    replace (S (length done)) with (length (done ++ [x])) in Hrest
      by (rewrite length_app; simpl; lia).
    replace (filled ++ y' :: repeat y0 k)
      with ((filled ++ [y']) ++ repeat y0 k) in Hrest
      by (rewrite <- app_assoc; reflexivity).
    apply IH in Hrest; [|rewrite !length_app; simpl; lia].
    destruct Hrest as (ys & Hturn & Hst & Hk).
    exists (y' :: ys). split; [|split].
    + exists s1. split; [exact Hrun|exact Hturn].
    + rewrite Hst, <- app_assoc. reflexivity.
    + simpl. lia.
Qed.

Lemma in_turn_fill_loop {X Y : Type} (step : X -> Y -> M RT Y) (y0 : Y)
    (no_input no_element : M RT (list Y)) :
  forall (todo done : list X) (ys filled : list Y) (k : nat)
         (s s' : Run RT),
    length filled = length done ->
    (length todo <= k)%nat ->
    in_turn (fun x t y t' => step x y0 t = Returns (y, t')) todo ys s s' ->
    for_index (length todo) (length done)
      (fun i st =>
         match nth_error (done ++ todo) i with
         | Some x =>
             match nth_error st i with
             | Some y => bind (step x y) (fun y' => ret (assign i y' st))
             | None => no_element
             end
         | None => no_input
         end)
      (filled ++ repeat y0 k) s
    = Returns (filled ++ ys ++ repeat y0 (k - length todo), s').
Proof.
  induction todo as [|x todo IH]; intros done [|y ys] filled k s s' Hlen Hk H;
    try contradiction.
  - simpl in H. subst s'. simpl. rewrite Nat.sub_0_r. reflexivity.
  - destruct H as (s1 & Hstep & Hrest).
    cbn [length for_index].
    destruct k as [|k]; [simpl in Hk; lia|].
    unfold bind at 1.
    rewrite nth_error_app2 by lia. rewrite Nat.sub_diag. cbn [nth_error].
    rewrite nth_error_app2 by lia. rewrite <- Hlen, Nat.sub_diag.
    cbn [repeat nth_error].
    unfold bind at 1. rewrite Hstep. unfold ret at 1.
    rewrite assign_middle.
    replace (done ++ x :: todo) with ((done ++ [x]) ++ todo)
      by (rewrite <- app_assoc; reflexivity).
    replace (S (length filled)) with (length (done ++ [x]))
      by (rewrite length_app; simpl; lia).
    replace (filled ++ y :: repeat y0 k)
      with ((filled ++ [y]) ++ repeat y0 k)
      by (rewrite <- app_assoc; reflexivity).
    rewrite (IH (done ++ [x]) ys (filled ++ [y]) k s1 s');
      [|rewrite !length_app; simpl; lia|simpl in Hk; lia|exact Hrest].
    rewrite <- app_assoc. reflexivity.
Qed.


Ltac successes :=
  repeat match goal with
         | H : negb (?r =? VK_SUCCESS) = false |- _ =>
             apply success_of in H; subst r
         end.

Lemma GatherGpuInfo_gathered (fuel : nat) (gpu : VkPhysicalDevice)
    (info : GpuInfo) (s s_end : Run RT) :
  GatherGpuInfo fuel gpu zero_GpuInfo s = Returns (info, s_end) <->
  gathered_gpu fuel gpu s info s_end.
Proof.
  split.
  - intros Hrun. unfold GatherGpuInfo in Hrun.
    cbn [queue_families gpu_layers gpu_extensions gpu_layer_extensions
         zero_GpuInfo] in Hrun.
    invert_run Hrun. successes.
    lazymatch goal with
    | Hl : for_index _ _ _ _ _ = Returns _ |- _ =>
        rewrite resize_nil, Nat2Z.id in Hl;
        apply (fill_loop_in_turn
                 (fun layer exts =>
                    EnumerateDeviceExtensions fuel gpu
                      (Some (layerName layer)) exts)
                 [] undefined undefined)
          with (done := []) (filled := []) in Hl;
        [destruct Hl as (ys & Hturn & Hst & _)
        |intros ? ? ?; discriminate
        |intros ? ? ?; discriminate
        |reflexivity]
    end.
    rewrite Nat.sub_diag in Hst. cbn [repeat app] in Hst.
    rewrite app_nil_r in Hst. subst.
    lazymatch goal with
    | Hd : call (vkDestroyDevice _) _ = Returns (?u, _) |- _ => destruct u
    end.
    unfold gathered_gpu.
    cbn [properties memory features queue_families gpu_layers
         gpu_extensions gpu_layer_extensions].
    do 14 eexists.
    split; [eassumption|]. split; [eassumption|]. split; [eassumption|].
    split; [eassumption|]. split; [eassumption|].
    split; [reflexivity|].
    split.
    { eexists.
      eapply (enumerated_with_intro zero_layer
                (fun capacity =>
                   call (vkEnumerateDeviceLayerProperties gpu capacity)));
        eassumption. }
    split; [apply EnumerateDeviceExtensions_enumerated; eassumption|].
    split.
    { eapply in_turn_impl; [|exact Hturn].
      intros ? ? ? ? Hstep'.
      apply EnumerateDeviceExtensions_enumerated. exact Hstep'. }
    split; eassumption.
  - intros (s1 & s2 & s3 & count & written0 & s4 & count_written & written
            & s5 & s6 & s7 & s8 & device & s9
            & Hproperties & Hmemory & Hfeatures & Hcount & Hfetch & Hfamilies
            & Hlayers & Hextensions & Hturn & Hcreate & Hdestroy).
    destruct info as [properties0 memory0 features0 families exts layers0
                        layer_exts].
    cbn [properties memory features queue_families gpu_layers
         gpu_extensions gpu_layer_extensions] in *.
    destruct Hlayers as (layers_written & Hlayers).
    apply enumerated_with_elim in Hlayers.
    destruct Hlayers as (count1 & written1 & t1 & Hquery1 & Hloop1).
    apply EnumerateDeviceExtensions_enumerated in Hextensions.
    apply (in_turn_impl _
             (fun layer t exts0 t' =>
                EnumerateDeviceExtensions fuel gpu (Some (layerName layer)) []
                  t = Returns (exts0, t'))) in Hturn;
      [|intros layer t exts0 t' H;
        apply EnumerateDeviceExtensions_enumerated; exact H].
    pose proof (in_turn_length _ _ _ _ _ Hturn) as Hlen.
    apply (in_turn_fill_loop
             (fun layer exts0 =>
                EnumerateDeviceExtensions fuel gpu (Some (layerName layer))
                  exts0)
             [] undefined undefined layers0 [] layer_exts []
             (length layers0) s7 s8 eq_refl (Nat.le_refl _)) in Hturn.
    rewrite Nat.sub_diag in Hturn. cbn [repeat app length] in Hturn.
    rewrite app_nil_r in Hturn.
    unfold GatherGpuInfo.
    cbn [queue_families gpu_layers gpu_extensions gpu_layer_extensions
         zero_GpuInfo].
    run_step Hproperties. run_step Hmemory. run_step Hfeatures.
    run_step Hcount. run_step Hfetch. run_step Hquery1.
    rewrite Z.eqb_refl. cbn [negb].
    run_step Hloop1. rewrite Z.eqb_refl. cbn [negb].
    run_step Hextensions.
    rewrite resize_nil, Nat2Z.id.
    run_step Hturn. run_step Hcreate.
    rewrite Z.eqb_refl. cbn [negb].
    run_step Hdestroy. subst families. reflexivity.
Qed.

Lemma GatherInfo_gathered (fuel : nat) (info : VulkanInfo)
    (s s_end : Run RT) :
  GatherInfo fuel empty_VulkanInfo s = Returns (info, s_end) <->
  gathered fuel s info s_end.
Proof.
  split.
  - intros Hrun. unfold GatherInfo in Hrun.
    cbn [extensions layers layer_extensions gpus empty_VulkanInfo] in Hrun.
    invert_run Hrun. successes.
    match goal with
    | Hl : for_index _ _ _ (resize _ [] _) _ = Returns _ |- _ =>
        rewrite resize_nil, Nat2Z.id in Hl;
        apply (fill_loop_in_turn
                 (fun layer exts =>
                    EnumerateInstanceExtensions fuel
                      (Some (layerName layer)) exts)
                 [] undefined undefined)
          with (done := []) (filled := []) in Hl;
        [destruct Hl as (ys & Hturn & Hst & _)
        |intros ? ? ?; discriminate
        |intros ? ? ?; discriminate
        |reflexivity]
    end.
    rewrite Nat.sub_diag in Hst. cbn [repeat app] in Hst.
    rewrite app_nil_r in Hst. subst.
    match goal with
    | Hl : for_index _ _ _ (resize _ zero_GpuInfo _) _ = Returns _ |- _ =>
        rewrite resize_nil in Hl;
        apply (fill_loop_in_turn
                 (fun gpu gpu_info => GatherGpuInfo fuel gpu gpu_info)
                 zero_GpuInfo undefined throw)
          with (done := []) (filled := []) in Hl;
        [destruct Hl as (gathered_gpus & Hgpus & Hst & Hnum)
        |intros ? ? ?; discriminate
        |intros ? ? ?; discriminate
        |reflexivity]
    end.
    cbn [app] in Hst. subst.
    lazymatch goal with
    | Hd : call (vkDestroyInstance _) _ = Returns (?u, _) |- _ => destruct u
    end.
    unfold gathered.
    cbn [extensions layers layer_extensions gpus].
    do 10 eexists.
    split.
    { eexists.
      eapply (enumerated_with_intro zero_layer
                (fun capacity =>
                   call (vkEnumerateInstanceLayerProperties capacity)));
        eassumption. }
    split; [apply EnumerateInstanceExtensions_enumerated; eassumption|].
    split.
    { eapply in_turn_impl; [|exact Hturn].
      intros ? ? ? ? Hstep'.
      apply EnumerateInstanceExtensions_enumerated. exact Hstep'. }
    split; [eassumption|].
    split.
    { eapply (enumerated_with_intro VK_NULL_HANDLE
                (fun capacity =>
                   call (vkEnumeratePhysicalDevices _ capacity)));
        eassumption. }
    split; [exact Hnum|].
    split.
    { eapply in_turn_impl; [|exact Hgpus].
      intros ? ? ? ? Hstep'.
      apply GatherGpuInfo_gathered. exact Hstep'. }
    split; [reflexivity|eassumption].
  - intros (s1 & s2 & s3 & instance & s4 & num_gpus & handles & s5
            & gathered_gpus & s6
            & Hlayers & Hextensions & Hturn & Hcreate & Hdevices & Hnum
            & Hgpus & Hinfo & Hdestroy).
    destruct info as [exts layers0 layer_exts gpus0].
    cbn [extensions layers layer_extensions gpus] in *.
    destruct Hlayers as (layers_written & Hlayers).
    apply enumerated_with_elim in Hlayers.
    destruct Hlayers as (count1 & written1 & t1 & Hquery1 & Hloop1).
    apply EnumerateInstanceExtensions_enumerated in Hextensions.
    apply (in_turn_impl _
             (fun layer t exts0 t' =>
                EnumerateInstanceExtensions fuel (Some (layerName layer)) []
                  t = Returns (exts0, t'))) in Hturn;
      [|intros ? ? ? ? Hstep';
        apply EnumerateInstanceExtensions_enumerated; exact Hstep'].
    apply (in_turn_fill_loop
             (fun layer exts0 =>
                EnumerateInstanceExtensions fuel (Some (layerName layer))
                  exts0)
             [] undefined undefined layers0 [] layer_exts []
             (length layers0) s2 s3 eq_refl (Nat.le_refl _)) in Hturn.
    rewrite Nat.sub_diag in Hturn. cbn [repeat app length] in Hturn.
    rewrite app_nil_r in Hturn.
    apply enumerated_with_elim in Hdevices.
    destruct Hdevices as (count2 & written2 & t2 & Hquery2 & Hloop2).
    apply (in_turn_impl _
             (fun gpu t gpu_info t' =>
                GatherGpuInfo fuel gpu zero_GpuInfo t
                = Returns (gpu_info, t'))) in Hgpus;
      [|intros ? ? ? ? Hstep'; apply GatherGpuInfo_gathered; exact Hstep'].
    apply (in_turn_fill_loop
             (fun gpu gpu_info => GatherGpuInfo fuel gpu gpu_info)
             zero_GpuInfo undefined throw handles [] gathered_gpus []
             (Z.to_nat num_gpus) s5 s6 eq_refl Hnum) in Hgpus.
    cbn [app length] in Hgpus.
    unfold GatherInfo.
    cbn [extensions layers layer_extensions gpus empty_VulkanInfo].
    run_step Hquery1. rewrite Z.eqb_refl. cbn [negb].
    run_step Hloop1. rewrite Z.eqb_refl. cbn [negb].
    run_step Hextensions.
    rewrite resize_nil, Nat2Z.id.
    run_step Hturn. run_step Hcreate.
    rewrite Z.eqb_refl. cbn [negb].
    run_step Hquery2. rewrite Z.eqb_refl. cbn [negb].
    run_step Hloop2. rewrite Z.eqb_refl. cbn [negb].
    rewrite resize_nil.
    run_step Hgpus. run_step Hdestroy. subst gpus0. reflexivity.
Qed.


(** C1: the five enumerations that return a status, as the program
    runs them.  [EnumerateInstanceExtensions] and
    [EnumerateDeviceExtensions] return exactly in the runs that
    [enumerated] describes, and [GatherGpuInfo] and [GatherInfo], where
    the loops for the device layers, the instance layers and the
    physical devices are written out, return exactly in the runs that
    [gathered_gpu] and [gathered] describe.  In these runs every
    enumeration goes the same way: the count query is answered
    [VK_SUCCESS]; some fetches, none or more, are answered
    [VK_INCOMPLETE], each followed by a fetch into the vector resized
    to the count that came with that answer; the first fetch answered
    [VK_SUCCESS] is the last call of the enumeration, and the next step
    starts from the state it left.  The vector collected has
    [required] elements, [required] being the count that came with the
    last [VK_INCOMPLETE] (with the count query when there was none):
    the last size the runtime required.  The count the successful
    fetch writes back is not that count in general, and the vector is
    not resized to it.  From right to left the equivalences say that
    the loop ends: whenever the runtime answers [VK_SUCCESS] after
    fewer than [fuel] answers of [VK_INCOMPLETE], the enumeration
    returns. *)
Theorem retry_until_success (fuel : nat) :
  (forall layer_name v exts s s_end,
     EnumerateInstanceExtensions fuel layer_name v s = Returns (exts, s_end)
     <-> enumerated zero_extension (instance_extensions_query layer_name)
           fuel v s exts s_end) /\
  (forall gpu layer_name v exts s s_end,
     EnumerateDeviceExtensions fuel gpu layer_name v s
       = Returns (exts, s_end)
     <-> enumerated zero_extension (device_extensions_query gpu layer_name)
           fuel v s exts s_end) /\
  (forall gpu info s s_end,
     GatherGpuInfo fuel gpu zero_GpuInfo s = Returns (info, s_end)
     <-> gathered_gpu fuel gpu s info s_end) /\
  (forall info s s_end,
     GatherInfo fuel empty_VulkanInfo s = Returns (info, s_end)
     <-> gathered fuel s info s_end).
Proof.
  split; [|split; [|split]].
  - intros layer_name v exts s s_end.
    apply EnumerateInstanceExtensions_enumerated.
  - intros gpu layer_name v exts s s_end.
    apply EnumerateDeviceExtensions_enumerated.
  - intros gpu info s s_end. apply GatherGpuInfo_gathered.
  - intros info s s_end. apply GatherInfo_gathered.
Qed.


End ReturningRuns.

(** A second instance layer is installed after the count query for the
    instance layers: the first fetch is answered [VK_INCOMPLETE] with
    a required count of 2, the second succeeds, and both layers are
    collected, each with its own extensions. *)
Lemma retry_until_success_two_layers :
  exists info s_end,
    GatherInfo (hdr := vulkan_h) 2 empty_VulkanInfo
      {| runtime := [one_layer_world; two_layer_world]; calls := [] |}
    = Returns (info, s_end) /\
    layers info = [layer_a; layer_b] /\
    gathered (hdr := vulkan_h) 2
      {| runtime := [one_layer_world; two_layer_world]; calls := [] |}
      info s_end.
Proof.
  assert (Hrun : exists info s_end,
            GatherInfo (hdr := vulkan_h) 2 empty_VulkanInfo
              {| runtime := [one_layer_world; two_layer_world];
                 calls := [] |}
            = Returns (info, s_end) /\
            layers info = [layer_a; layer_b]).
  { eexists. eexists. split; [vm_compute; reflexivity|reflexivity]. }
  destruct Hrun as (info & s_end & Hrun & Hlayers).
  exists info, s_end. split; [exact Hrun|]. split; [exact Hlayers|].
  apply (proj2 (proj2 (proj2 (retry_until_success (hdr := vulkan_h) 2)))).
  exact Hrun.
Defined.



(** ** The runs of the gatherer that throw *)

Section ThrowingRuns.
Context {hdr : VulkanHeader} {RT : Type} {vk : Runtime RT}.

Lemma bind_throws {A B : Type} (m : M RT A) (k : A -> M RT B) (s : Run RT) :
  only_when Thrown False m ->
  bind m k s = Throws ->
  exists a s', m s = Returns (a, s') /\ k a s' = Throws.
Proof.
  intros Hm H. apply (bind_stuck Thrown) in H.
  destruct H as [H|H]; [destruct (Hm s H)|exact H].
Qed.

(** The loop over the device handles throws at the first index past
    the snapshots, after the devices before it are gathered. *)
Lemma fill_loop_throws {X Y : Type} (step : X -> Y -> M RT Y) (y0 : Y)
    (no_input : M RT (list Y)) :
  (forall x y, only_when Thrown False (step x y)) ->
  forall (todo done : list X) (filled : list Y) (k : nat) (s : Run RT),
    length filled = length done ->
    for_index (length todo) (length done)
      (fun i st =>
         match nth_error (done ++ todo) i with
         | Some x =>
             match nth_error st i with
             | Some y => bind (step x y) (fun y' => ret (assign i y' st))
             | None => throw
             end
         | None => no_input
         end)
      (filled ++ repeat y0 k) s
    = Throws <->
    (k < length todo)%nat /\
    exists ys s',
      in_turn (fun x t y t' => step x y0 t = Returns (y, t'))
        (firstn k todo) ys s s'.
Proof.
  intros Hstep.
  induction todo as [|x todo IH]; intros done filled k s Hlen.
  - simpl. split; [discriminate|]. intros [Hk _]. lia.
  - cbn [length for_index]. unfold bind at 1.
    rewrite nth_error_app2 by lia. rewrite Nat.sub_diag. cbn [nth_error].
    rewrite nth_error_app2 by lia. rewrite <- Hlen, Nat.sub_diag.
    destruct k as [|k].
    + cbn [repeat nth_error]. unfold throw at 1. split.
      * intros _. split; [lia|]. exists [], s. reflexivity.
      * reflexivity.
    + cbn [repeat nth_error]. unfold bind at 1.
      destruct (step x y0 s) as [[y' s1]|code err| | |] eqn:Hrun.
      * unfold ret at 1. rewrite assign_middle.
        replace (done ++ x :: todo) with ((done ++ [x]) ++ todo)
          by (rewrite <- app_assoc; reflexivity).
        replace (S (length filled)) with (length (done ++ [x]))
          by (rewrite length_app; simpl; lia).
        replace (filled ++ y' :: repeat y0 k)
          with ((filled ++ [y']) ++ repeat y0 k)
          by (rewrite <- app_assoc; reflexivity).
        rewrite (IH (done ++ [x]) (filled ++ [y']) k s1)
          by (rewrite !length_app; simpl; lia).
        cbn [firstn]. split.
        -- intros (Hk & ys & s' & Hturn). split; [lia|].
           exists (y' :: ys), s'. exists s1. split; [exact Hrun|exact Hturn].
        -- intros (Hk & ys & s' & Hturn). split; [lia|].
           destruct ys as [|y ys]; [contradiction|].
           destruct Hturn as (t & Hrun' & Hturn).
           rewrite Hrun in Hrun'. inversion Hrun'; subst y t.
           exists ys, s'. exact Hturn.
      * split; [discriminate|].
        intros (_ & ys & s' & Hturn). cbn [firstn] in Hturn.
        destruct ys as [|y ys]; [contradiction|].
        destruct Hturn as (t & Hrun' & _). rewrite Hrun in Hrun'.
        discriminate Hrun'.
      * exfalso. apply (Hstep x y0 s). exact Hrun.
      * split; [discriminate|].
        intros (_ & ys & s' & Hturn). cbn [firstn] in Hturn.
        destruct ys as [|y ys]; [contradiction|].
        destruct Hturn as (t & Hrun' & _). rewrite Hrun in Hrun'.
        discriminate Hrun'.
      * split; [discriminate|].
        intros (_ & ys & s' & Hturn). cbn [firstn] in Hturn.
        destruct ys as [|y ys]; [contradiction|].
        destruct Hturn as (t & Hrun' & _). rewrite Hrun in Hrun'.
        discriminate Hrun'.
Qed.

Lemma bind_thrown {A B : Type} (m : M RT A) (k : A -> M RT B) (s : Run RT) :
  m s = Throws -> bind m k s = Throws.
Proof. intros H. unfold bind. rewrite H. reflexivity. Qed.

Ltac passed H :=
  match type of H with
  | (if negb (?r =? VK_SUCCESS) then _ else _) _ = Throws =>
      destruct (Z.eqb_spec r VK_SUCCESS) as [?|?]; cbn [negb] in H;
      [subst r|unfold die in H; discriminate H]
  end.

(** X12: the runs of [GatherInfo] that end with the uncaught
    [std::out_of_range] of [info->gpus.at(i)] are exactly the runs in
    which every call up to the enumeration of the physical devices
    succeeds, the successful fetch of that enumeration writes back a
    count below the number of handles that the vector holds, and the
    devices of the handles before that count are gathered. *)
Theorem GatherInfo_throws (fuel : nat) (s : Run RT) :
  GatherInfo fuel empty_VulkanInfo s = Throws <-> gathering_thrown fuel s.
Proof.
  split.
  - intros H. unfold GatherInfo in H.
    cbn [extensions layers layer_extensions gpus empty_VulkanInfo] in H.
    apply bind_throws in H; [|apply call_only_when].
    destruct H as ([[r1 count1] w1] & t1 & Hquery1 & H). passed H.
    apply bind_throws in H;
      [|apply fetch_while_incomplete_only_when; intros n;
        apply (call_only_when Thrown False
                 (vkEnumerateInstanceLayerProperties (Some n)))].
    destruct H as ([[r2 count2] fetched] & t2 & Hloop1 & H). passed H.
    apply bind_throws in H; [|apply EnumerateInstanceExtensions_only_when].
    destruct H as (exts & t3 & Hexts & H).
    rewrite resize_nil, Nat2Z.id in H.
    apply bind_throws in H;
      [|apply (fill_loop_only_when Thrown False
                 (fun layer exts0 =>
                    EnumerateInstanceExtensions fuel (Some (layerName layer))
                      exts0)
                 undefined undefined
                 (fun layer exts0 =>
                    EnumerateInstanceExtensions_only_when _ _ _ _ _)
                 fetched []);
        left; rewrite repeat_length; simpl; lia].
    destruct H as (layer_exts & t4 & Hturn & H).
    apply (fill_loop_in_turn
             (fun layer exts0 =>
                EnumerateInstanceExtensions fuel (Some (layerName layer))
                  exts0)
             [] undefined undefined)
      with (done := []) (filled := []) in Hturn;
      [destruct Hturn as (ys & Hturn & Hst & _)
      |intros ? ? ?; discriminate
      |intros ? ? ?; discriminate
      |reflexivity].
    rewrite Nat.sub_diag in Hst. cbn [repeat app] in Hst.
    rewrite app_nil_r in Hst. subst ys.
    apply bind_throws in H; [|apply call_only_when].
    destruct H as ([r3 instance] & t5 & Hcreate & H). passed H.
    apply bind_throws in H; [|apply call_only_when].
    destruct H as ([[r4 count4] w4] & t6 & Hquery2 & H). passed H.
    apply bind_throws in H;
      [|apply fetch_while_incomplete_only_when; intros n;
        apply (call_only_when Thrown False
                 (vkEnumeratePhysicalDevices instance (Some n)))].
    destruct H as ([[r5 num_gpus] handles] & t7 & Hloop2 & H). passed H.
    rewrite resize_nil in H.
    apply (bind_stuck Thrown) in H.
    destruct H as [H|(info_gpus & t8 & _ & H)].
    + apply (fill_loop_throws
               (fun gpu gpu_info => GatherGpuInfo fuel gpu gpu_info)
               zero_GpuInfo undefined
               (fun gpu gpu_info => GatherGpuInfo_only_when _ _ _ _ _)
               handles [] [] (Z.to_nat num_gpus) t7 eq_refl) in H.
      destruct H as (Hnum & gathered_gpus & t9 & Hgpus).
      exists fetched, exts, layer_exts.
      do 10 eexists.
      split.
      { eexists.
        eapply (enumerated_with_intro zero_layer
                  (fun capacity =>
                     call (vkEnumerateInstanceLayerProperties capacity)));
          eassumption. }
      split; [apply EnumerateInstanceExtensions_enumerated; exact Hexts|].
      split.
      { eapply in_turn_impl; [|exact Hturn].
        intros ? ? ? ? Hstep'.
        apply EnumerateInstanceExtensions_enumerated. exact Hstep'. }
      split; [exact Hcreate|].
      split.
      { eapply (enumerated_with_intro VK_NULL_HANDLE
                  (fun capacity =>
                     call (vkEnumeratePhysicalDevices _ capacity)));
          eassumption. }
      split; [exact Hnum|].
      eapply in_turn_impl; [|exact Hgpus].
      intros ? ? ? ? Hstep'.
      apply GatherGpuInfo_gathered. exact Hstep'.
    + exfalso. apply bind_throws in H; [|apply call_only_when].
      destruct H as (u & t9 & _ & H). discriminate H.
  - intros (fetched & exts & layer_exts & s1 & s2 & s3 & instance & s4
            & num_gpus & handles & s5 & gathered_gpus & s6
            & Hlayers & Hextensions & Hturn & Hcreate & Hdevices & Hnum
            & Hgpus).
    destruct Hlayers as (layers_written & Hlayers).
    apply enumerated_with_elim in Hlayers.
    destruct Hlayers as (count1 & written1 & t1 & Hquery1 & Hloop1).
    apply EnumerateInstanceExtensions_enumerated in Hextensions.
    apply (in_turn_impl _
             (fun layer t exts0 t' =>
                EnumerateInstanceExtensions fuel (Some (layerName layer)) []
                  t = Returns (exts0, t'))) in Hturn;
      [|intros ? ? ? ? Hstep';
        apply EnumerateInstanceExtensions_enumerated; exact Hstep'].
    apply (in_turn_fill_loop
             (fun layer exts0 =>
                EnumerateInstanceExtensions fuel (Some (layerName layer))
                  exts0)
             [] undefined undefined fetched [] layer_exts []
             (length fetched) s2 s3 eq_refl (Nat.le_refl _)) in Hturn.
    rewrite Nat.sub_diag in Hturn. cbn [repeat app length] in Hturn.
    rewrite app_nil_r in Hturn.
    apply enumerated_with_elim in Hdevices.
    destruct Hdevices as (count2 & written2 & t2 & Hquery2 & Hloop2).
    apply (in_turn_impl _
             (fun gpu t gpu_info t' =>
                GatherGpuInfo fuel gpu zero_GpuInfo t
                = Returns (gpu_info, t'))) in Hgpus;
      [|intros ? ? ? ? Hstep'; apply GatherGpuInfo_gathered; exact Hstep'].
    pose proof (proj2 (fill_loop_throws
               (fun gpu gpu_info => GatherGpuInfo fuel gpu gpu_info)
               zero_GpuInfo undefined
               (fun gpu gpu_info => GatherGpuInfo_only_when _ _ _ _ _)
               handles [] [] (Z.to_nat num_gpus) s5 eq_refl)
             (conj Hnum (ex_intro _ gathered_gpus (ex_intro _ s6 Hgpus))))
      as Hthrown.
    cbn [app length] in Hthrown.
    unfold GatherInfo.
    cbn [extensions layers layer_extensions gpus empty_VulkanInfo].
    run_step Hquery1. rewrite Z.eqb_refl. cbn [negb].
    run_step Hloop1. rewrite Z.eqb_refl. cbn [negb].
    run_step Hextensions.
    rewrite resize_nil, Nat2Z.id.
    run_step Hturn. run_step Hcreate.
    rewrite Z.eqb_refl. cbn [negb].
    run_step Hquery2. rewrite Z.eqb_refl. cbn [negb].
    run_step Hloop2. rewrite Z.eqb_refl. cbn [negb].
    rewrite resize_nil.
    apply bind_thrown. exact Hthrown.
Qed.
End ThrowingRuns.

(** A device unplugged between the count query and the fetch: the
    vector holds two handles, the fetch writes back the count 1, and
    the second index is out of range. *)
Lemma GatherInfo_throws_unplugged :
  GatherInfo (hdr := vulkan_h) 1 empty_VulkanInfo
    {| runtime := unplugged_timeline; calls := [] |}
  = Throws /\
  gathering_thrown (hdr := vulkan_h) 1
    {| runtime := unplugged_timeline; calls := [] |}.
Proof.
  split; [vm_compute; reflexivity|].
  apply (proj1 (GatherInfo_throws (hdr := vulkan_h) 1
                  {| runtime := unplugged_timeline; calls := [] |})).
  vm_compute. reflexivity.
Defined.

(** ** Memory types in the report of a device *)

Lemma has_char_app (c : ascii) (a b : string) :
  has_char c (a ++ b)%string = has_char c a || has_char c b.
Proof.
  induction a as [|c' a IH]; simpl; [reflexivity|].
  rewrite IH, Bool.orb_assoc. reflexivity.
Qed.

Lemma has_char_cat_In (c : ascii) (part : string) (parts : list string) :
  In part parts -> has_char c part = true -> has_char c (cat parts) = true.
Proof.
  induction parts as [|x parts IH]; intros Hin Hpart; [contradiction|].
  rewrite cat_cons, has_char_app. destruct Hin as [->|Hin].
  - rewrite Hpart. reflexivity.
  - rewrite (IH Hin Hpart). apply Bool.orb_true_r.
Qed.

Lemma has_char_cat_none (c : ascii) (parts : list string) :
  (forall part, In part parts -> has_char c part = false) ->
  has_char c (cat parts) = false.
Proof.
  induction parts as [|x parts IH]; intros Hparts; [reflexivity|].
  rewrite cat_cons, has_char_app, (Hparts x), IH; [reflexivity| |simpl; tauto].
  intros part Hin. apply Hparts. simpl. tauto.
Qed.

Lemma has_char_uint (c : ascii) (d : Decimal.uint) :
  is_digit c = false ->
  has_char c (DecimalString.NilEmpty.string_of_uint d) = false.
Proof.
  intros Hc. unfold is_digit in Hc. cbn [existsb] in Hc.
  repeat (apply Bool.orb_false_iff in Hc; destruct Hc as [? Hc]).
  induction d; cbn [DecimalString.NilEmpty.string_of_uint has_char];
    try reflexivity;
    rewrite IHd, Bool.orb_false_r, Ascii.eqb_sym; assumption.
Qed.

Lemma has_char_fmt_u (c : ascii) (n : Z) :
  is_digit c = false -> has_char c (fmt_u n) = false.
Proof. intros Hc. unfold fmt_u. apply has_char_uint. exact Hc. Qed.

(** Two texts that agree up to a colon, with no colon before it. *)
Lemma before_colon (a b r1 r2 : string) :
  has_char ":" a = false -> has_char ":" b = false ->
  (a ++ String ":" r1)%string = (b ++ String ":" r2)%string -> a = b.
Proof.
  revert b. induction a as [|c a IH]; intros [|c' b] Ha Hb Heq;
    simpl in *.
  - reflexivity.
  - inversion Heq; subst c'. rewrite Ascii.eqb_refl in Hb. discriminate Hb.
  - inversion Heq; subst c. rewrite Ascii.eqb_refl in Ha. discriminate Ha.
  - inversion Heq; subst c'. f_equal.
    apply Bool.orb_false_iff in Ha. apply Bool.orb_false_iff in Hb.
    apply IH; tauto.
Qed.

Lemma fmt_u_inj (i j : Z) : 0 <= i -> 0 <= j -> fmt_u i = fmt_u j -> i = j.
Proof.
  intros Hi Hj Heq. unfold fmt_u in Heq.
  assert (Huint : N.to_uint (Z.to_N i) = N.to_uint (Z.to_N j)).
  { pose proof (DecimalString.NilEmpty.usu (N.to_uint (Z.to_N i))) as Hi'.
    pose proof (DecimalString.NilEmpty.usu (N.to_uint (Z.to_N j))) as Hj'.
    rewrite Heq in Hi'. rewrite Hi' in Hj'. inversion Hj'. reflexivity. }
  apply DecimalN.Unsigned.to_uint_inj in Huint.
  apply Z2N.inj; assumption.
Qed.

Section TypeLines.
Context {hdr : VulkanHeader}.

Local Open Scope string_scope.

Lemma has_char_labels (c : ascii) (flags : Z) :
  In c marks -> has_char c (memory_type_labels flags) = false.
Proof.
  intros Hc. unfold marks in Hc. cbn [In] in Hc.
  unfold memory_type_labels, append_if_set.
  destruct Hc as [<-|[<-|[<-|[<-|[]]]]];
    repeat match goal with
           | |- context [if ?b then _ else _] => destruct b
           end;
    reflexivity.
Qed.

Lemma type_chunk_plain (c : ascii) (type : Z) (memoryType : VkMemoryType) :
  In c marks -> has_char c (type_chunk type memoryType) = false.
Proof.
  intros Hc. unfold type_chunk. apply has_char_cat_none.
  intros part Hpart. cbn [In] in Hpart.
  destruct Hpart as [<-|[<-|[<-|[<-|[<-|[]]]]]].
  - unfold marks in Hc. cbn [In] in Hc.
    destruct Hc as [<-|[<-|[<-|[<-|[]]]]]; reflexivity.
  - apply has_char_fmt_u. unfold marks in Hc. cbn [In] in Hc.
    destruct Hc as [<-|[<-|[<-|[<-|[]]]]]; reflexivity.
  - unfold marks in Hc. cbn [In] in Hc.
    destruct Hc as [<-|[<-|[<-|[<-|[]]]]]; reflexivity.
  - apply has_char_labels. exact Hc.
  - unfold marks in Hc. cbn [In] in Hc.
    destruct Hc as [<-|[<-|[<-|[<-|[]]]]]; reflexivity.
Qed.

Lemma marked_not_type_chunk (c : ascii) (x : string) (type : Z)
    (memoryType : VkMemoryType) :
  In c marks -> has_char c x = true -> x <> type_chunk type memoryType.
Proof.
  intros Hc Hx ->. rewrite (type_chunk_plain c) in Hx by exact Hc.
  discriminate Hx.
Qed.

Lemma type_chunk_inj (i j : Z) (a b : VkMemoryType) :
  0 <= i -> 0 <= j -> type_chunk i a = type_chunk j b -> i = j.
Proof.
  intros Hi Hj Heq. unfold type_chunk in Heq.
  rewrite !cat_cons in Heq.
  cbn [String.append] in Heq.
  repeat (injection Heq as Heq).
  apply before_colon in Heq;
    [|apply has_char_fmt_u; reflexivity|apply has_char_fmt_u; reflexivity].
  apply fmt_u_inj; assumption.
Qed.
End TypeLines.

Lemma count_occ_map_on {A B : Type}
    (decA : forall x y : A, {x = y} + {x <> y})
    (decB : forall x y : B, {x = y} + {x <> y})
    (f : A -> B) (x : A) (l : list A) :
  (forall y, In y l -> f y = f x -> y = x) ->
  count_occ decB (map f l) (f x) = count_occ decA l x.
Proof.
  induction l as [|a l IH]; intros Hinj; [reflexivity|].
  cbn [map]. destruct (decA a x) as [->|Hne].
  - rewrite !count_occ_cons_eq by reflexivity. f_equal.
    apply IH. intros y Hy. apply Hinj. right. exact Hy.
  - rewrite !count_occ_cons_neq.
    + apply IH. intros y Hy. apply Hinj. right. exact Hy.
    + exact Hne.
    + intros Heq. apply Hne. apply Hinj; [left; reflexivity|exact Heq].
Qed.

Section OtherLines.
Context {hdr : VulkanHeader}.

Local Open Scope string_scope.

Lemma device_chunk_marked (properties : VkPhysicalDeviceProperties) :
  marked (device_chunk properties).
Proof.
  exists "034"%char. split; [unfold marks; simpl; tauto|].
  apply (has_char_cat_In _ dquote); [simpl; tauto|reflexivity].
Qed.

Lemma heap_chunk_marked (heap : Z) (memoryHeap : VkMemoryHeap) :
  marked (heap_chunk heap memoryHeap).
Proof.
  exists "("%char. split; [unfold marks; simpl; tauto|].
  apply (has_char_cat_In _ " MiB (0x"); [simpl; tauto|reflexivity].
Qed.

Lemma queue_family_chunk_marked (family : Z)
    (qprops : VkQueueFamilyProperties) :
  marked (queue_family_chunk family qprops).
Proof.
  exists "("%char. split; [unfold marks; simpl; tauto|].
  apply (has_char_cat_In _ "      minImageTransferGranularity: (");
    [simpl; tauto|reflexivity].
Qed.

Lemma extension_chunk_marked (prefix : string) (e : VkExtensionProperties) :
  marked (extension_chunk prefix e).
Proof.
  exists "("%char. split; [unfold marks; simpl; tauto|].
  apply (has_char_cat_In _ " (v"); [simpl; tauto|reflexivity].
Qed.

Lemma layer_chunk_marked (prefix : string) (layer : VkLayerProperties) :
  marked (layer_chunk prefix layer).
Proof.
  exists "."%char. split; [unfold marks; simpl; tauto|].
  apply (has_char_cat_In _ "."); [simpl; tauto|reflexivity].
Qed.

Lemma heading_marked (heading count : string) :
  marked (cat [heading; count; "]:"; nl]).
Proof.
  exists "]"%char. split; [unfold marks; simpl; tauto|].
  apply (has_char_cat_In _ "]:"); [simpl; tauto|reflexivity].
Qed.

Lemma layer_block_marked (prefix : string)
    (entry : VkLayerProperties * list VkExtensionProperties) (x : string) :
  In x (layer_block prefix entry) -> marked x.
Proof.
  destruct entry as [layer exts]. unfold layer_block.
  intros [<-|Hin]; [apply layer_chunk_marked|].
  apply in_app_or in Hin. destruct Hin as [Hin|Hin].
  - destruct exts as [|e exts]; [contradiction|].
    destruct Hin as [<-|[]].
    exists "]"%char. split; [unfold marks; simpl; tauto|].
    apply (has_char_cat_In _ "]:"); [simpl; tauto|reflexivity].
  - apply in_map_iff in Hin. destruct Hin as (e & <- & _).
    apply extension_chunk_marked.
Qed.

Lemma headed_extensions_marked (heading prefix : string)
    (exts : list VkExtensionProperties) (x : string) :
  In x (headed_extensions heading prefix exts) -> marked x.
Proof.
  unfold headed_extensions. destruct exts as [|e exts]; [contradiction|].
  intros [<-|Hin]; [apply heading_marked|].
  apply in_map_iff in Hin. destruct Hin as (e' & <- & _).
  apply extension_chunk_marked.
Qed.

Lemma headed_layers_marked (heading prefix : string)
    (layers : list VkLayerProperties)
    (layer_extensions : list (list VkExtensionProperties)) (x : string) :
  In x (headed_layers heading prefix layers layer_extensions) -> marked x.
Proof.
  unfold headed_layers. destruct layers as [|layer layers]; [contradiction|].
  intros [<-|Hin]; [apply heading_marked|].
  apply in_flat_map in Hin. destruct Hin as (entry & _ & Hin).
  apply (layer_block_marked _ _ _ Hin).
Qed.

Lemma marked_is_not_type_chunk (x : string) (type : Z)
    (memoryType : VkMemoryType) :
  marked x -> x <> type_chunk type memoryType.
Proof.
  intros (c & Hc & Hx). apply (marked_not_type_chunk c); assumption.
Qed.
End OtherLines.

Section MemoryReport.
Context {hdr : VulkanHeader}.

Lemma well_formed_printable (info : GpuInfo) :
  well_formed info -> printable info = true.
Proof.
  intros (Hheaps & Htypes & Hlayers). unfold printable.
  apply Bool.andb_true_iff. split; [apply Bool.andb_true_iff; split|].
  - apply Nat.leb_le. lia.
  - apply Bool.orb_true_iff. right. apply Nat.leb_le. lia.
  - apply Nat.leb_le. exact Hlayers.
Qed.

(** In the block of a heap, the line of a type stands as often as the
    type is listed for the heap. *)
Lemma heap_block_count (memory : VkPhysicalDeviceMemoryProperties)
    (heap type : Z) :
  0 <= type ->
  count_occ string_dec (heap_block memory heap)
    (type_chunk type (memory_type memory type))
  = count_occ Z.eq_dec (types_of_heap memory heap) type.
Proof.
  intros Htype. unfold heap_block.
  rewrite count_occ_cons_neq
    by (apply marked_is_not_type_chunk, heap_chunk_marked).
  apply (count_occ_map_on Z.eq_dec string_dec
           (fun t => type_chunk t (memory_type memory t))).
  intros y Hy Heq. apply types_of_heap_In in Hy.
  apply type_chunk_inj in Heq; lia.
Qed.

Lemma memory_report_count (memory : VkPhysicalDeviceMemoryProperties)
    (type : Z) :
  0 <= type < memoryTypeCount memory ->
  count_occ string_dec (memory_report memory)
    (type_chunk type (memory_type memory type))
  = if (0 <=? heapIndex (memory_type memory type))
       && (heapIndex (memory_type memory type) <? memoryHeapCount memory)
    then 1%nat else 0%nat.
Proof.
  intros Htype. unfold memory_report.
  destruct (Z.leb_spec 0 (heapIndex (memory_type memory type))) as [Hlo|Hlo];
    destruct (Z.ltb_spec (heapIndex (memory_type memory type))
                (memoryHeapCount memory)) as [Hhi|Hhi];
    cbn [andb].
  - apply count_occ_flat_map_one
      with (a0 := heapIndex (memory_type memory type)).
    + apply zrange_NoDup.
    + apply zrange_In. lia.
    + rewrite heap_block_count, types_of_heap_count by lia.
      rewrite Z.eqb_refl. reflexivity.
    + intros heap _ Hne.
      rewrite heap_block_count, types_of_heap_count by lia.
      destruct (Z.eqb_spec (heapIndex (memory_type memory type)) heap);
        [congruence|reflexivity].
  - apply count_occ_flat_map_none. intros heap Hheap.
    apply zrange_In in Hheap.
    rewrite heap_block_count, types_of_heap_count by lia.
    destruct (Z.eqb_spec (heapIndex (memory_type memory type)) heap);
      [lia|reflexivity].
  - apply count_occ_flat_map_none. intros heap Hheap.
    apply zrange_In in Hheap.
    rewrite heap_block_count, types_of_heap_count by lia.
    destruct (Z.eqb_spec (heapIndex (memory_type memory type)) heap);
      [lia|reflexivity].
  - apply count_occ_flat_map_none. intros heap Hheap.
    apply zrange_In in Hheap.
    rewrite heap_block_count, types_of_heap_count by lia.
    destruct (Z.eqb_spec (heapIndex (memory_type memory type)) heap);
      [lia|reflexivity].
Qed.

(** In the whole report of a device the line of a memory type stands
    as often as in the lines of the two memory loops: no other line is
    the line of a memory type. *)
Lemma gpu_report_count (info : GpuInfo) (type : Z) :
  count_occ string_dec (gpu_report info)
    (type_chunk type (memory_type (memory info) type))
  = count_occ string_dec (memory_report (memory info))
      (type_chunk type (memory_type (memory info) type)).
Proof.
  unfold gpu_report.
  rewrite count_occ_cons_neq
    by (apply marked_is_not_type_chunk, device_chunk_marked).
  rewrite !count_occ_app.
  rewrite (proj1 (count_occ_not_In string_dec
                    (map _ (zrange 0 (length (queue_families info)))) _)).
  2:{ intros Hin. apply in_map_iff in Hin. destruct Hin as (family & Heq & _).
      revert Heq.
      apply marked_is_not_type_chunk, queue_family_chunk_marked. }
  rewrite (proj1 (count_occ_not_In string_dec (headed_extensions _ _ _) _)).
  2:{ intros Hin. apply headed_extensions_marked in Hin.
      apply (marked_is_not_type_chunk _ type
               (memory_type (memory info) type) Hin).
      reflexivity. }
  rewrite (proj1 (count_occ_not_In string_dec (headed_layers _ _ _ _) _)).
  2:{ intros Hin. apply headed_layers_marked in Hin.
      apply (marked_is_not_type_chunk _ type
               (memory_type (memory info) type) Hin).
      reflexivity. }
  lia.
Qed.

(** The line of a type stands in the block of its own heap: between
    the line of that heap and the line of the type there are only
    lines of types of that heap. *)
Lemma memory_report_nested (memory : VkPhysicalDeviceMemoryProperties)
    (type : Z) :
  0 <= type < memoryTypeCount memory ->
  0 <= heapIndex (memory_type memory type) < memoryHeapCount memory ->
  exists before siblings after,
    memory_report memory =
    before
    ++ heap_chunk (heapIndex (memory_type memory type))
         (memory_heap memory (heapIndex (memory_type memory type)))
    :: map (fun sibling => type_chunk sibling (memory_type memory sibling))
         siblings
    ++ type_chunk type (memory_type memory type) :: after /\
    forall sibling,
      In sibling siblings ->
      heapIndex (memory_type memory sibling)
      = heapIndex (memory_type memory type).
Proof.
  intros Htype Hheap. unfold memory_report.
  assert (Hin : In (heapIndex (memory_type memory type))
                  (zrange 0 (Z.to_nat (memoryHeapCount memory))))
    by (apply zrange_In; lia).
  apply in_split in Hin. destruct Hin as (l1 & l2 & ->).
  assert (Hty : In type (types_of_heap memory
                           (heapIndex (memory_type memory type))))
    by (apply types_of_heap_In; split; [assumption|reflexivity]).
  pose proof Hty as Hsplit.
  apply in_split in Hsplit. destruct Hsplit as (t1 & t2 & Hsplit).
  exists (flat_map (heap_block memory) l1), t1,
    (map (fun sibling => type_chunk sibling (memory_type memory sibling)) t2
     ++ flat_map (heap_block memory) l2).
  split.
  - rewrite flat_map_app. cbn [flat_map]. unfold heap_block at 2.
    rewrite Hsplit, map_app. cbn [map].
    f_equal. rewrite <- app_comm_cons. f_equal.
    rewrite <- app_assoc. reflexivity.
  - intros sibling Hsibling.
    assert (Hin : In sibling (types_of_heap memory
                                (heapIndex (memory_type memory type)))).
    { rewrite Hsplit. apply in_or_app. left. exact Hsibling. }
    apply types_of_heap_In in Hin. tauto.
Qed.

(** C7: the line of a memory type whose declared heap exists stands
    exactly once among all the lines that [PrintGpuInfo] prints for the
    device, and it stands in the block of the heap with the declared
    index: after the line of that heap, with nothing between them but
    lines of other types of the same heap.  This holds whatever the
    order of the heap indices of the types. *)
Theorem memory_type_under_its_heap (info : GpuInfo) (type : Z) :
  well_formed info ->
  0 <= type < memoryTypeCount (memory info) ->
  0 <= heapIndex (memory_type (memory info) type)
    < memoryHeapCount (memory info) ->
  exists out before siblings after,
    PrintGpuInfo info = Some (tt, out) /\
    count_occ string_dec out
      (type_chunk type (memory_type (memory info) type)) = 1%nat /\
    out =
      before
      ++ heap_chunk (heapIndex (memory_type (memory info) type))
           (memory_heap (memory info)
              (heapIndex (memory_type (memory info) type)))
      :: map (fun sibling =>
                type_chunk sibling (memory_type (memory info) sibling))
           siblings
      ++ type_chunk type (memory_type (memory info) type) :: after /\
    forall sibling,
      In sibling siblings ->
      heapIndex (memory_type (memory info) sibling)
      = heapIndex (memory_type (memory info) type).
Proof.
  intros Hwf Htype Hheap.
  destruct (memory_report_nested (memory info) type Htype Hheap)
    as (before & siblings & after & Hnested & Hsiblings).
  exists (gpu_report info), (device_chunk (properties info) :: before),
    siblings.
  eexists.
  split; [|split; [|split; [|exact Hsiblings]]].
  - rewrite PrintGpuInfo_report_if, (well_formed_printable info Hwf).
    reflexivity.
  - rewrite gpu_report_count, memory_report_count by exact Htype.
    destruct (Z.leb_spec 0 (heapIndex (memory_type (memory info) type)));
      [|lia].
    destruct (Z.ltb_spec (heapIndex (memory_type (memory info) type))
                (memoryHeapCount (memory info))); [reflexivity|lia].
  - unfold gpu_report. rewrite Hnested.
    cbn [app]. f_equal. rewrite <- app_assoc. cbn [app]. f_equal. f_equal.
    rewrite <- app_assoc. cbn [app]. reflexivity.
Qed.

(** C10: the line of a memory type whose declared heap index is not
    below the heap count is none of the lines that [PrintGpuInfo]
    prints for the device; the type is listed for no heap; and the
    report is printed all the same, whole. *)
Theorem memory_type_without_heap_omitted (info : GpuInfo) (type : Z) :
  well_formed info ->
  0 <= type < memoryTypeCount (memory info) ->
  memoryHeapCount (memory info)
    <= heapIndex (memory_type (memory info) type) ->
  PrintGpuInfo info = Some (tt, gpu_report info) /\
  ~ In (type_chunk type (memory_type (memory info) type)) (gpu_report info) /\
  forall heap,
    0 <= heap < memoryHeapCount (memory info) ->
    ~ In type (types_of_heap (memory info) heap).
Proof.
  intros Hwf Htype Hheap.
  split; [|split].
  - rewrite PrintGpuInfo_report_if, (well_formed_printable info Hwf).
    reflexivity.
  - apply (count_occ_not_In string_dec).
    rewrite gpu_report_count, memory_report_count by exact Htype.
    destruct (Z.ltb_spec (heapIndex (memory_type (memory info) type))
                (memoryHeapCount (memory info))); [lia|].
    rewrite Bool.andb_false_r. reflexivity.
  - intros heap Hrange. rewrite types_of_heap_In. lia.
Qed.
End MemoryReport.

(** Type 2 of [scattered_memory] is declared on heap 2, after a type on
    heap 0 and a type on heap 2; the device also has an extension named
    like the start of the line of type 2. *)
Lemma memory_type_under_its_heap_scattered :
  exists out before siblings after,
    PrintGpuInfo (hdr := vulkan_h) crowded_snapshot = Some (tt, out) /\
    count_occ string_dec out
      (type_chunk (hdr := vulkan_h) 2 (memory_type scattered_memory 2))
      = 1%nat /\
    out =
      before
      ++ heap_chunk (hdr := vulkan_h) 2 (memory_heap scattered_memory 2)
      :: map (fun sibling =>
                type_chunk (hdr := vulkan_h) sibling
                  (memory_type scattered_memory sibling))
           siblings
      ++ type_chunk (hdr := vulkan_h) 2 (memory_type scattered_memory 2)
      :: after /\
    forall sibling,
      In sibling siblings ->
      heapIndex (memory_type scattered_memory sibling) = 2.
Proof.
  apply (memory_type_under_its_heap (hdr := vulkan_h) crowded_snapshot 2).
  - unfold well_formed. simpl. lia.
  - simpl. lia.
  - simpl. lia.
Defined.

(** Type 3 of [scattered_memory] is declared on heap 5 of 3. *)
Lemma memory_type_without_heap_omitted_scattered :
  PrintGpuInfo (hdr := vulkan_h) crowded_snapshot
    = Some (tt, gpu_report (hdr := vulkan_h) crowded_snapshot) /\
  ~ In (type_chunk (hdr := vulkan_h) 3 (memory_type scattered_memory 3))
      (gpu_report (hdr := vulkan_h) crowded_snapshot) /\
  forall heap,
    0 <= heap < 3 -> ~ In 3 (types_of_heap scattered_memory heap).
Proof.
  apply (memory_type_without_heap_omitted (hdr := vulkan_h)
           crowded_snapshot 3).
  - unfold well_formed. simpl. lia.
  - simpl. lia.
  - simpl. lia.
Defined.
